(** * scripts/rename_migrations_to_unix_ms.py

    A shallow embedding of the migration renamer and the proofs of its
    specification.

    Conventions of the embedding.
    - A Python [str] is a sequence of Unicode code points ([PyStr.string]);
      a file name is the [str] that [pathlib] hands to the script.
    - The regular expression class [\d], and [int] on a [str], take the
      decimal digits of every script (general category Nd), not only 0-9;
      see [PyStr.decimal].
    - A Python [int] is a [Z].
    - The [float] returned by [datetime.timestamp] is kept as the exact
      rational it denotes (type [Q]); see [Datetime.timestamp].
    - An uncaught exception ends the run: the top level script is a
      computation in a monad that threads what was printed and may stop
      with an exception ([Script.M]).
    - The standard output takes every line it is given: [print] does not
      raise.  (Where the encoding of the standard output cannot write a
      character of a file name, Python raises [UnicodeEncodeError] at that
      line; such a standard output is outside the embedding.) *)

From Stdlib Require Import ZArith QArith Qround Lia List Bool.
From Stdlib Require Import Sorted Permutation.
From Stdlib.Strings Require Import Byte.
Import ListNotations.

Local Open Scope Z_scope.

(** ** Python strings and integers *)

Module PyStr.

(** A character is its code point, U+0000 to U+10FFFF; the integers
    outside that range stand for no character and are digits of no
    script. *)
Definition char : Type := Z.

(** A [str]: the sequence of its code points. *)
Inductive string : Type :=
| EmptyString
| String (c : char) (s : string).

Declare Scope char_scope.
Delimit Scope char_scope with char.
Bind Scope char_scope with char.

Declare Scope string_scope.
Delimit Scope string_scope with string.
Bind Scope string_scope with string.

(** Literals.  A quoted ASCII character stands for its code point and a
    quoted ASCII text for the string of its code points; other code points
    are written as numbers. *)
Definition char_of_bytes (l : list byte) : option Z :=
  match l with
  | [b] => let n := Z.of_N (Byte.to_N b) in if n <? 128 then Some n else None
  | _ => None
  end.

Definition bytes_of_char (c : Z) : option (list byte) :=
  if (0 <=? c) && (c <? 128) then
    match Byte.of_N (Z.to_N c) with
    | Some b => Some [b]
    | None => None
    end
  else None.

String Notation Z char_of_bytes bytes_of_char : char_scope.

Fixpoint string_of_bytes (l : list byte) : option string :=
  match l with
  | [] => Some EmptyString
  | b :: l' =>
      let n := Z.of_N (Byte.to_N b) in
      if n <? 128 then
        match string_of_bytes l' with
        | Some s => Some (String n s)
        | None => None
        end
      else None
  end.

Fixpoint bytes_of_string (s : string) : option (list byte) :=
  match s with
  | EmptyString => Some []
  | String c s' =>
      match bytes_of_char c, bytes_of_string s' with
      | Some [b], Some l => Some (b :: l)
      | _, _ => None
      end
  end.

String Notation string string_of_bytes bytes_of_string : string_scope.

(** [s + t] *)
Fixpoint append (s t : string) : string :=
  match s with
  | EmptyString => t
  | String c s' => String c (append s' t)
  end.

Infix "++" := append : string_scope.

Fixpoint length (s : string) : nat :=
  match s with
  | EmptyString => O
  | String _ s' => S (length s')
  end.

(** [len(s)] as an integer. *)
Definition len (s : string) : Z := Z.of_nat (length s).

(** [s == t] *)
Fixpoint eqb (s t : string) : bool :=
  match s, t with
  | EmptyString, EmptyString => true
  | String c s', String d t' => (c =? d) && eqb s' t'
  | _, _ => false
  end.

Infix "=?" := eqb : string_scope.

Definition string_dec (s t : string) : {s = t} + {s <> t}.
Proof. decide equality. apply Z.eq_dec. Defined.

(** The order of [str]: code point by code point, a proper prefix
    first. *)
Fixpoint compare (s t : string) : comparison :=
  match s, t with
  | EmptyString, EmptyString => Eq
  | EmptyString, String _ _ => Lt
  | String _ _, EmptyString => Gt
  | String c s', String d t' =>
      match c ?= d with
      | Eq => compare s' t'
      | ne => ne
      end
  end.

(** [s <= t] *)
Definition leb (s t : string) : bool :=
  match compare s t with Gt => false | _ => true end.

(** [s[:i]], [s[i:]] and [s[i:j]] for [0 <= i <= j]. *)
Fixpoint slice_to (i : nat) (s : string) : string :=
  match i, s with
  | S i', String c s' => String c (slice_to i' s')
  | _, _ => EmptyString
  end.

Fixpoint slice_from (i : nat) (s : string) : string :=
  match i, s with
  | S i', String _ s' => slice_from i' s'
  | _, _ => s
  end.

Definition slice (i j : nat) (s : string) : string :=
  slice_to (j - i) (slice_from i s).

(** [sep.join(ls)] *)
Fixpoint concat (sep : string) (ls : list string) : string :=
  match ls with
  | [] => EmptyString
  | [x] => x
  | x :: xs => append x (append sep (concat sep xs))
  end.

(** The code point of the digit zero of each script that has decimal
    digits (general category Nd), from the character database of
    Unicode 14.0.0 that CPython 3.11 carries; the digits one to nine of a
    script follow its zero.  The first entry is ASCII, the second
    Arabic-Indic, 65296 is the fullwidth zero.  Later versions of the
    database add scripts, none below U+0660. *)
Definition decimal_zeros : list Z :=
  [48; 1632; 1776; 1984; 2406; 2534; 2662; 2790; 2918; 3046; 3174; 3302;
   3430; 3558; 3664; 3792; 3872; 4160; 4240; 6112; 6160; 6470; 6608; 6784;
   6800; 6992; 7088; 7232; 7248; 42528; 43216; 43264; 43472; 43504; 43600;
   44016; 65296; 66720; 68912; 69734; 69872; 69942; 70096; 70384; 70736;
   70864; 71248; 71360; 71472; 71904; 72016; 72784; 73040; 73120; 92768;
   92864; 93008; 120782; 120792; 120802; 120812; 120822; 123200; 123632;
   125264; 130032].

Fixpoint decimal_from (zeros : list Z) (c : char) : option Z :=
  match zeros with
  | [] => None
  | z :: zeros' =>
      if (z <=? c) && (c <=? z + 9) then Some (c - z) else decimal_from zeros' c
  end.

(** [unicodedata.decimal(c)]: the value of a decimal digit, [None] for
    any other character. *)
Definition decimal (c : char) : option Z := decimal_from decimal_zeros c.

(** The class [\d] of [re] on a [str] pattern: every decimal digit. *)
Definition is_digit (c : char) : bool :=
  match decimal c with Some _ => true | None => false end.

(** The class [[lo-hi]] of [re]. *)
Definition in_range (lo hi c : char) : bool := (lo <=? c) && (c <=? hi).

Fixpoint all_chars (f : char -> bool) (s : string) : bool :=
  match s with
  | EmptyString => true
  | String c s' => f c && all_chars f s'
  end.

(** The newline character, the one that [.] of [re] refuses. *)
Definition newline : char := 10.

Definition nl : string := String newline EmptyString.

(** Value of a decimal digit character, as [int] reads it. *)
Definition digit_val (c : char) : Z :=
  match decimal c with Some d => d | None => 0 end.

(** The ASCII character of a decimal digit, as [str] writes it. *)
Definition digit_char (d : Z) : char := 48 + d.

(** [int(s)] for a string of decimal digits, most significant first;
    [acc] is the value of the digits already read. *)
Fixpoint int_digits_acc (s : string) (acc : Z) : Z :=
  match s with
  | EmptyString => acc
  | String c s' => int_digits_acc s' (10 * acc + digit_val c)
  end.

Definition int_digits (s : string) : Z := int_digits_acc s 0.

(** [int(s)] on what [str] writes: an optional minus sign and at least one
    decimal digit.  The other spellings that [int] reads (a plus sign,
    blanks around, underscores between digits) are not needed and give
    [None] here. *)
Definition int_of_str (s : string) : option Z :=
  match s with
  | EmptyString => None
  | String c s' =>
      if c =? "-"%char then
        if negb (s' =? "")%string && all_chars is_digit s'
        then Some (- int_digits s') else None
      else if all_chars is_digit s then Some (int_digits s) else None
  end.

(** [int(s)] on a group of a [strptime] directive: digits, after a blank
    in the one alternative of [%d] that takes one. *)
Fixpoint lstrip (s : string) : string :=
  match s with
  | EmptyString => s
  | String c s' => if c =? " "%char then lstrip s' else s
  end.

Definition int_field (s : string) : Z := int_digits (lstrip s).

(** Decimal digits of a non-negative integer, prepended to [acc].  The
    recursion is on [fuel]; [str_nat] gives it more than the number of
    digits. *)
Fixpoint str_nat_acc (fuel : nat) (n : Z) (acc : string) : string :=
  match fuel with
  | O => acc
  | S fuel' =>
      let acc' := String (digit_char (n mod 10)) acc in
      if n <? 10 then acc' else str_nat_acc fuel' (n / 10) acc'
  end.

Definition str_nat (n : Z) : string :=
  str_nat_acc (S (Z.to_nat (Z.log2 n))) n EmptyString.

(** [str(z)], which is what an f-string field [{z}] prints. *)
Definition str (z : Z) : string :=
  if z <? 0 then String "-" (str_nat (- z)) else str_nat z.

(** [s.rfind(c)]: the last index of [c], or [-1]. *)
Fixpoint rfind (c : char) (s : string) : Z :=
  match s with
  | EmptyString => -1
  | String a s' =>
      let i := rfind c s' in
      if 0 <=? i then i + 1
      else if a =? c then 0 else -1
  end.

End PyStr.

Local Open Scope string_scope.
Local Open Scope Z_scope.

(** ** The part of [datetime] that the script calls *)

Module Datetime.

Import PyStr.

Inductive exn : Type :=
| ValueError (msg : string).

Definition MINYEAR : Z := 1.
Definition MAXYEAR : Z := 9999.

Definition _is_leap (year : Z) : bool :=
  (year mod 4 =? 0) && (negb (year mod 100 =? 0) || (year mod 400 =? 0)).

Definition _DAYS_IN_MONTH (month : Z) : Z :=
  match month with
  | 1 => 31 | 2 => 28 | 3 => 31 | 4 => 30 | 5 => 31 | 6 => 30
  | 7 => 31 | 8 => 31 | 9 => 30 | 10 => 31 | 11 => 30 | 12 => 31
  | _ => -1
  end.

Definition _DAYS_BEFORE_MONTH (month : Z) : Z :=
  match month with
  | 1 => 0 | 2 => 31 | 3 => 59 | 4 => 90 | 5 => 120 | 6 => 151
  | 7 => 181 | 8 => 212 | 9 => 243 | 10 => 273 | 11 => 304 | 12 => 334
  | _ => -1
  end.

Definition _days_before_year (year : Z) : Z :=
  let y := year - 1 in
  y * 365 + y / 4 - y / 100 + y / 400.

Definition _days_in_month (year month : Z) : Z :=
  if (month =? 2) && _is_leap year then 29 else _DAYS_IN_MONTH month.

Definition _days_before_month (year month : Z) : Z :=
  _DAYS_BEFORE_MONTH month + (if (2 <? month) && _is_leap year then 1 else 0).

Definition _ymd2ord (year month day : Z) : Z :=
  _days_before_year year + _days_before_month year month + day.

Record datetime : Type := mk_datetime
  { year : Z; month : Z; day : Z;
    hour : Z; minute : Z; second : Z; microsecond : Z }.

(** [_check_date_fields] and [_check_time_fields] of the constructor. *)
Definition _check_date_fields (y m d : Z) : bool :=
  (MINYEAR <=? y) && (y <=? MAXYEAR) &&
  (1 <=? m) && (m <=? 12) &&
  (1 <=? d) && (d <=? _days_in_month y m).

Definition _check_time_fields (H M S us : Z) : bool :=
  (0 <=? H) && (H <=? 23) && (0 <=? M) && (M <=? 59) &&
  (0 <=? S) && (S <=? 59) && (0 <=? us) && (us <=? 999999).

(** [datetime(y, m, d, H, M, S, us)]. *)
Definition new (y m d H M S us : Z) : exn + datetime :=
  if negb (_check_date_fields y m d) then
    inl (ValueError "date field out of range")
  else if negb (_check_time_fields H M S us) then
    inl (ValueError "time field out of range")
  else inr (mk_datetime y m d H M S us).

Definition toordinal (dt : datetime) : Z :=
  _ymd2ord (year dt) (month dt) (day dt).

(** [_EPOCH = datetime(1970, 1, 1, tzinfo=timezone.utc)]. *)
Definition _EPOCH : datetime := mk_datetime 1970 1 1 0 0 0 0.

Record timedelta : Type := mk_timedelta
  { days : Z; seconds : Z; microseconds : Z }.

(** [timedelta(days, seconds, microseconds)] with its normalisation:
    [0 <= microseconds < 10**6] and [0 <= seconds < 86400]. *)
Definition new_timedelta (d s us : Z) : timedelta :=
  let s1 := s + us / 1000000 in
  mk_timedelta (d + s1 / 86400) (s1 mod 86400) (us mod 1000000).

(** [a - b] for two datetimes in the same zone (here both UTC, so the
    offsets cancel). *)
Definition sub (a b : datetime) : timedelta :=
  let secs1 := second a + minute a * 60 + hour a * 3600 in
  let secs2 := second b + minute b * 60 + hour b * 3600 in
  new_timedelta (toordinal a - toordinal b) (secs1 - secs2)
                (microsecond a - microsecond b).

(** [td.total_seconds()]: the quotient of two integers, a [float] in
    Python.  It is kept as the exact rational. *)
Definition total_seconds (td : timedelta) : Q :=
  ((days td * 86400 + seconds td) * 10 ^ 6 + microseconds td) # (10 ^ 6).

(** [dt.timestamp()] for [dt] with [tzinfo=timezone.utc]. *)
Definition timestamp (dt : datetime) : Q := total_seconds (sub dt _EPOCH).

(** [int(x)] on a float: truncation toward zero. *)
Definition int_of_float (x : Q) : Z := Z.quot (Qnum x) (Zpos (Qden x)).

End Datetime.

(** ** [_strptime]: parsing with the format [%Y%m%d%H%M%S] *)

Module Strptime.

Import PyStr Datetime.

(** One character position of a directive's regular expression. *)
Inductive cclass : Type :=
| Digit                      (* \d *)
| Range (lo hi : char)       (* [lo-hi] *)
| Lit (c : char).            (* a literal character *)

Definition cclass_ok (k : cclass) (c : char) : bool :=
  match k with
  | Digit => is_digit c
  | Range lo hi => in_range lo hi c
  | Lit a => c =? a
  end.

(** An alternative is a sequence of positions; a directive is a list of
    alternatives, tried from left to right. *)
Definition alt : Type := list cclass.
Definition directive : Type := list alt.

(** The table [TimeRE] of [_strptime.py], for the six directives of the
    format. *)
Definition re_Y : directive := [[Digit; Digit; Digit; Digit]].
Definition re_m : directive :=
  [[Lit "1"; Range "0" "2"]; [Lit "0"; Range "1" "9"]; [Range "1" "9"]].
Definition re_d : directive :=
  [[Lit "3"; Range "0" "1"]; [Range "1" "2"; Digit]; [Lit "0"; Range "1" "9"];
   [Range "1" "9"]; [Lit " "; Range "1" "9"]].
Definition re_H : directive :=
  [[Lit "2"; Range "0" "3"]; [Range "0" "1"; Digit]; [Digit]].
Definition re_M : directive := [[Range "0" "5"; Digit]; [Digit]].
Definition re_S : directive :=
  [[Lit "6"; Range "0" "1"]; [Range "0" "5"; Digit]; [Digit]].

(** The compiled format [%Y%m%d%H%M%S]. *)
Definition format_regex : list directive :=
  [re_Y; re_m; re_d; re_H; re_M; re_S].

(** Match one alternative at the head of [s]: the text matched and what
    is left. *)
Fixpoint match_alt (a : alt) (s : string) : option (string * string) :=
  match a with
  | [] => Some (EmptyString, s)
  | k :: a' =>
      match s with
      | EmptyString => None
      | String c s' =>
          if cclass_ok k c then
            match match_alt a' s' with
            | Some (g, r) => Some (String c g, r)
            | None => None
            end
          else None
      end
  end.

(** The alternatives of one directive at the head of [s], in order; [k]
    matches the directives that follow.  An alternative whose
    continuation fails is given up for the next one. *)
Fixpoint try_alts (k : string -> option (list string * string))
         (alts : list alt) (s : string) : option (list string * string) :=
  match alts with
  | [] => None
  | a :: alts' =>
      match match_alt a s with
      | Some (g, r) =>
          match k r with
          | Some (gs, r') => Some (g :: gs, r')
          | None => try_alts k alts' s
          end
      | None => try_alts k alts' s
      end
  end.

(** Match a sequence of directives at the head of [s]: the groups and
    what is left. *)
Fixpoint match_directives (ds : list directive) (s : string)
  : option (list string * string) :=
  match ds with
  | [] => Some ([], s)
  | d :: ds' => try_alts (match_directives ds') d s
  end.

(** [datetime.strptime(data_string, "%Y%m%d%H%M%S")]: the regular
    expression has to match at the start, nothing may be left over, and
    the fields have to make a date and a time. *)
Definition strptime (data_string : string) : exn + datetime :=
  match match_directives format_regex data_string with
  | Some ([gY; gm; gd; gH; gM; gS], r) =>
      if negb (r =? "")%string then
        inl (ValueError "unconverted data remains")
      else
        new (int_field gY) (int_field gm) (int_field gd)
            (int_field gH) (int_field gM) (int_field gS) 0
  | _ => inl (ValueError "time data does not match format")
  end.

(** [int(datetime.strptime(s, fmt).replace(tzinfo=timezone.utc).timestamp() * 1000)] *)
Definition unix_ms_of (dt : datetime) : Z :=
  int_of_float (timestamp dt * (1000 # 1))%Q.

End Strptime.

(** ** The part of [pathlib] that the script calls *)

Module Pathlib.

Import PyStr.

(** A pure POSIX path is the list of its parts. *)
Definition Path : Type := list string.

(** [p / n] for a file name [n], which holds no slash. *)
Definition joinpath (p : Path) (n : string) : Path := (p ++ [n])%list.

(** [p.name]: the final part. *)
Definition name (p : Path) : string := last p "".

(** [p.suffix]: [name[i:]] where [i = name.rfind('.')], when
    [0 < i < len(name) - 1]; otherwise the empty string. *)
Definition suffix (p : Path) : string :=
  let n := name p in
  let i := rfind "." n in
  if (0 <? i) && (i <? len n - 1) then slice_from (Z.to_nat i) n else "".

(** [p.stem]: the name without its suffix. *)
Definition stem (p : Path) : string :=
  let n := name p in
  let i := rfind "." n in
  if (0 <? i) && (i <? len n - 1) then slice_to (Z.to_nat i) n else n.

(** [p.as_posix()]. *)
Definition as_posix (p : Path) : string := PyStr.concat "/" p.

(** Paths compare as the lists of their parts, a part as a string
    (code point by code point). *)
Fixpoint compare (p q : Path) : comparison :=
  match p, q with
  | [], [] => Eq
  | [], _ :: _ => Lt
  | _ :: _, [] => Gt
  | a :: p', b :: q' =>
      match PyStr.compare a b with
      | Eq => compare p' q'
      | c => c
      end
  end.

(** [p < q] *)
Definition ltb (p q : Path) : bool :=
  match compare p q with Lt => true | _ => false end.

(** [sorted(l)]: a stable sort that only asks [<].  [insert x l] puts
    [x] in front of the first element that is not below it. *)
Fixpoint insert (x : Path) (l : list Path) : list Path :=
  match l with
  | [] => [x]
  | y :: l' => if ltb y x then y :: insert x l' else x :: l
  end.

Fixpoint sorted (l : list Path) : list Path :=
  match l with
  | [] => []
  | x :: l' => insert x (sorted l')
  end.

End Pathlib.

(** ** The script *)

Module Script.

Import PyStr Datetime Strptime Pathlib.

(** [MIG_DIR = Path("src/migrations")] *)
Definition MIG_DIR : Path := ["src"; "migrations"].

(** *** [pat = re.compile(r"^(\d{14})_(.+)\.ts$")] *)

(** [\d{n}] at the head of [s]: the digits and what is left. *)
Fixpoint take_digits (n : nat) (s : string) : option (string * string) :=
  match n with
  | O => Some (EmptyString, s)
  | S n' =>
      match s with
      | EmptyString => None
      | String c s' =>
          if is_digit c then
            match take_digits n' s' with
            | Some (g, r) => Some (String c g, r)
            | None => None
            end
          else None
      end
  end.

(** [\.ts$] at the head of [s]: [$] holds at the end of the string and
    in front of a newline that ends the string. *)
Definition dot_ts_end (s : string) : bool :=
  (s =? ".ts")%string || (s =? ".ts" ++ nl)%string.

(** [(.+)\.ts$] at the head of [s], the value of the group.  [.] takes
    any character but a newline; [+] is greedy: it first tries to take
    more, and gives back when the rest does not match. *)
Fixpoint dot_plus_ts (s : string) : option string :=
  match s with
  | EmptyString => None
  | String c s' =>
      if c =? newline then None
      else
        match dot_plus_ts s' with
        | Some g => Some (String c g)
        | None => if dot_ts_end s' then Some (String c EmptyString) else None
        end
  end.

(** [pat.match(s)]: [None], or the groups 1 and 2. *)
Definition pat_match (s : string) : option (string * string) :=
  match take_digits 14 s with
  | Some (ymdhms, String c r) =>
      if c =? "_"%char then
        match dot_plus_ts r with
        | Some rest => Some (ymdhms, rest)
        | None => None
        end
      else None
  | _ => None
  end.

(** *** The scan *)

(** [MIG_DIR.iterdir()] over a directory whose entries have the names
    [entries], in the order the system lists them. *)
Definition iterdir (d : Path) (entries : list string) : list Path :=
  map (joinpath d) entries.

(** [files = sorted([p for p in MIG_DIR.iterdir() if p.suffix == ".ts"])] *)
Definition files (entries : list string) : list Path :=
  sorted (filter (fun p => (suffix p =? ".ts")%string) (iterdir MIG_DIR entries)).

Definition rename_entry : Type := (Path * Path)%type.
Definition sql_entry : Type := (string * string)%type.

(** [new_base = f"{unix_ms}_{rest}"] and [new_name = f"{new_base}.ts"] *)
Definition new_base_of (unix_ms : Z) (rest : string) : string :=
  str unix_ms ++ "_" ++ rest.

Definition new_name_of (new_base : string) : string := new_base ++ ".ts".

(** The [for p in files] loop.  [renames] and [sql_updates] are the two
    lists as they stand when the loop reaches [ps]; an exception leaves
    the loop and the script. *)
Fixpoint loop (ps : list Path) (renames : list rename_entry)
         (sql_updates : list sql_entry)
  : exn + (list rename_entry * list sql_entry) :=
  match ps with
  | [] => inr (renames, sql_updates)
  | p :: ps' =>
      match pat_match (name p) with
      | None => loop ps' renames sql_updates
      | Some (ymdhms, rest) =>
          match strptime ymdhms with
          | inl e => inl e
          | inr dt =>
              let unix_ms := unix_ms_of dt in
              let old_base := stem p in
              let new_base := new_base_of unix_ms rest in
              let new_name := new_name_of new_base in
              if (new_name =? name p)%string then loop ps' renames sql_updates
              else loop ps' (renames ++ [(p, joinpath MIG_DIR new_name)])%list
                            (sql_updates ++ [(old_base, new_base)])%list
          end
      end
  end.

(** *** The report *)

(** A computation that prints and may raise: from the lines printed so
    far to an outcome and the lines printed. *)
Definition M (A : Type) : Type := list string -> (exn + A) * list string.

Definition ret {A} (a : A) : M A := fun out => (inr a, out).

Definition bind {A B} (m : M A) (k : A -> M B) : M B :=
  fun out =>
    match m out with
    | (inl e, out') => (inl e, out')
    | (inr a, out') => k a out'
    end.

(** A computation that does not print. *)
Definition lift {A} (r : exn + A) : M A := fun out => (r, out).

(** [print(s)]: one more line on the standard output, which takes every
    string. *)
Definition print (s : string) : M unit := fun out => (inr tt, (out ++ [s])%list).

Notation "x <- m ;; k" := (bind m (fun x => k))
  (at level 61, m at next level, right associativity).
Notation "m ;; k" := (bind m (fun _ => k))
  (at level 61, right associativity).

(** [for x in l: body(x)] *)
Fixpoint for_each {A} (l : list A) (body : A -> M unit) : M unit :=
  match l with
  | [] => ret tt
  | x :: l' => body x ;; for_each l' body
  end.

Definition mv_line (e : rename_entry) : string :=
  "mv " ++ as_posix (fst e) ++ " " ++ as_posix (snd e).

Definition sql_line (e : sql_entry) : string :=
  "update inventory_schema_migrations set name='" ++ snd e
    ++ "' where name='" ++ fst e ++ "';".

Definition mv_header : string := "# mv commands:".

Definition sql_header : string :=
  nl ++ "# SQL updates for inventory_schema_migrations (run these in psql):".

(** The whole module, run in a directory with the given entries. *)
Definition script (entries : list string) : M unit :=
  r <- lift (loop (files entries) [] []) ;;
  print mv_header ;;
  for_each (fst r) (fun e => print (mv_line e)) ;;
  print sql_header ;;
  for_each (snd r) (fun e => print (sql_line e)).

(** One run: how it ended, and the standard output, a line per
    [print]. *)
Definition run (entries : list string) : (exn + unit) * list string :=
  script entries [].

(** The two lists the loop leaves, when it ends. *)
Definition plan (entries : list string)
  : exn + (list rename_entry * list sql_entry) :=
  loop (files entries) [] [].

End Script.

(** ** Reference definitions for the properties

    These are not part of the script.  They say what the specification
    means by a valid calendar date, by reading the timestamp back from a
    new base name, and by the UTC calendar fields of a timestamp. *)

Module Reference.

Import PyStr Datetime Strptime Pathlib Script.

(** The six fields of a 14-character timestamp, by position:
    year(4) month(2) day(2) hour(2) minute(2) second(2). *)
Definition fields_of (s : string) : datetime :=
  mk_datetime (int_digits (slice 0 4 s)) (int_digits (slice 4 6 s))
              (int_digits (slice 6 8 s)) (int_digits (slice 8 10 s))
              (int_digits (slice 10 12 s)) (int_digits (slice 12 14 s)) 0.

(** A date of the proleptic Gregorian calendar in the years 1 to 9999,
    with a time of day. *)
Definition valid_fields (dt : datetime) : Prop :=
  1 <= year dt <= 9999 /\ 1 <= month dt <= 12 /\
  1 <= day dt <= _days_in_month (year dt) (month dt) /\
  0 <= hour dt <= 23 /\ 0 <= minute dt <= 59 /\ 0 <= second dt <= 59.

(** The 14 digits form a valid UTC calendar date. *)
Definition valid_ymdhms (s : string) : Prop := valid_fields (fields_of s).

(** The ten digits 0-9 of ASCII, the digits that [str] writes. *)
Definition ascii_digit (c : char) : bool := in_range "0" "9" c.

(** The text in front of the first underscore. *)
Fixpoint before_underscore (s : string) : string :=
  match s with
  | EmptyString => EmptyString
  | String c s' =>
      if c =? "_"%char then EmptyString else String c (before_underscore s')
  end.

(** The Unix-millisecond timestamp read back from a new base name
    [<unix_ms>_<remainder>]. *)
Definition unix_ms_of_base (new_base : string) : option Z :=
  int_of_str (before_underscore new_base).

(** Year, month and day of a proleptic Gregorian ordinal (day 1 is
    0001-01-01), computed as [datetime] does in [_ord2ymd]. *)
Definition _ord2ymd (n : Z) : Z * Z * Z :=
  let n := n - 1 in
  let n400 := n / 146097 in
  let n := n mod 146097 in
  let year := n400 * 400 + 1 in
  let n100 := n / 36524 in
  let n := n mod 36524 in
  let n4 := n / 1461 in
  let n := n mod 1461 in
  let n1 := n / 365 in
  let n := n mod 365 in
  let year := year + n100 * 100 + n4 * 4 + n1 in
  if (n1 =? 4) || (n100 =? 4) then (year - 1, 12, 31)
  else
    let leapyear := (n1 =? 3) && (negb (n4 =? 24) || (n100 =? 3)) in
    let month := Z.shiftr (n + 50) 5 in
    let preceding :=
      _DAYS_BEFORE_MONTH month + (if (2 <? month) && leapyear then 1 else 0) in
    if n <? preceding then
      let month := month - 1 in
      let preceding :=
        preceding
        - (_DAYS_IN_MONTH month + (if (month =? 2) && leapyear then 1 else 0)) in
      (year, month, n - preceding + 1)
    else (year, month, n - preceding + 1).

(** The UTC calendar fields of a Unix-millisecond timestamp, to the
    second. *)
Definition utc_of_unix_ms (ms : Z) : datetime :=
  let secs := ms / 1000 in
  let d := secs / 86400 in
  let sod := secs mod 86400 in
  let '(y, m, dd) := _ord2ymd (d + toordinal _EPOCH) in
  mk_datetime y m dd (sod / 3600) (sod mod 3600 / 60) (sod mod 60) 0.

(** [str(n)] padded with zeros on the left to [width] characters. *)
Fixpoint zeros (k : nat) : string :=
  match k with
  | O => EmptyString
  | S k' => String "0" (zeros k')
  end.

Definition zfill (width : nat) (n : Z) : string :=
  let s := str n in
  zeros (width - PyStr.length s) ++ s.

(** The fields written back as 14 digits. *)
Definition ymdhms_of (dt : datetime) : string :=
  zfill 4 (year dt) ++ zfill 2 (month dt) ++ zfill 2 (day dt)
    ++ zfill 2 (hour dt) ++ zfill 2 (minute dt) ++ zfill 2 (second dt).

(** From a new base name back to 14 digits. *)
Definition ymdhms_of_base (new_base : string) : option string :=
  match unix_ms_of_base new_base with
  | Some ms => Some (ymdhms_of (utc_of_unix_ms ms))
  | None => None
  end.

(** The integers [lo], [lo + 1], ..., [lo + n - 1]. *)
Definition zrange (lo : Z) (n : nat) : list Z :=
  map (fun i => lo + Z.of_nat i) (seq 0 n).

(** The last steps of [_ord2ymd]: month and day of the [n]-th day of a
    year, counted from 0. *)
Definition month_day (leapyear : bool) (n : Z) : Z * Z :=
  let month := Z.shiftr (n + 50) 5 in
  let preceding :=
    _DAYS_BEFORE_MONTH month + (if (2 <? month) && leapyear then 1 else 0) in
  if n <? preceding then
    let month := month - 1 in
    let preceding :=
      preceding
      - (_DAYS_IN_MONTH month + (if (month =? 2) && leapyear then 1 else 0)) in
    (month, n - preceding + 1)
  else (month, n - preceding + 1).

(** [month_day] finds every day of a year but the 366th, in a common
    year and in a leap year. *)
Definition month_day_ok : bool :=
  forallb (fun leap =>
    forallb (fun m =>
      forallb (fun d =>
        let dim := if (m =? 2) && leap then 29 else _DAYS_IN_MONTH m in
        let k := _DAYS_BEFORE_MONTH m
                 + (if (2 <? m) && leap then 1 else 0) + d - 1 in
        implb ((d <=? dim) && (k <=? 364))
              (let '(m', d') := month_day leap k in (m' =? m) && (d' =? d)))
        (zrange 1 31))
      (zrange 1 12))
    [false; true].

(** The last [width] decimal digits of [n], which is what [zfill] writes
    for a number below [10 ^ width]. *)
Fixpoint digits_of (width : nat) (n : Z) : string :=
  match width with
  | O => EmptyString
  | S w => digits_of w (n / 10) ++ String (digit_char (n mod 10)) EmptyString
  end.

(** Whole seconds from 1970-01-01T00:00:00 UTC to [dt]. *)
Definition epoch_seconds (dt : datetime) : Z :=
  (toordinal dt - 719163) * 86400
  + (second dt + minute dt * 60 + hour dt * 3600).

(** [path_le p q]: [q] is not below [p], the order [sorted] leaves. *)
Definition path_le (p q : Path) : Prop := ltb q p = false.

(** What one pass of the loop body does with the path [p]: it raises, it
    goes on to the next path, or it appends one entry to each list. *)
Definition body (p : Path) : exn + option (rename_entry * sql_entry) :=
  match pat_match (name p) with
  | None => inr None
  | Some (ymdhms, rest) =>
      match strptime ymdhms with
      | inl e => inl e
      | inr dt =>
          let new_base := new_base_of (unix_ms_of dt) rest in
          let new_name := new_name_of new_base in
          if (new_name =? name p)%string then inr None
          else inr (Some ((p, joinpath MIG_DIR new_name), (stem p, new_base)))
      end
  end.

(** The entries of the paths [ps], in order, up to the first exception. *)
Fixpoint collect (ps : list Path) : exn + list (rename_entry * sql_entry) :=
  match ps with
  | [] => inr []
  | p :: ps' =>
      match body p with
      | inl e => inl e
      | inr o =>
          match collect ps' with
          | inl e => inl e
          | inr es => inr (match o with Some x => x :: es | None => es end)
          end
      end
  end.

(** The report of a run that ends well. *)
Definition report (renames : list rename_entry) (sql_updates : list sql_entry)
  : list string :=
  (mv_header :: map mv_line renames ++ sql_header :: map sql_line sql_updates)%list.

(** The name of a directory entry after the operator has carried out the
    plan: an entry the plan renames has its new name, the others keep
    theirs. *)
Definition renamed_name (n : string) : string :=
  if (suffix (joinpath MIG_DIR n) =? ".ts")%string then
    match pat_match n with
    | Some (ymdhms, rest) =>
        match strptime ymdhms with
        | inr dt => new_name_of (new_base_of (unix_ms_of dt) rest)
        | inl _ => n
        end
    | None => n
    end
  else n.

End Reference.
(** * Proofs *)

Import PyStr Datetime Strptime Pathlib Script Reference.

(** ** Strings *)

Section StringFacts.

Lemma length_append (s t : string) :
  PyStr.length (s ++ t) = (PyStr.length s + PyStr.length t)%nat.
Proof. induction s as [|c s IH]; simpl; [reflexivity|now rewrite IH]. Qed.

Lemma append_assoc (s t u : string) : (s ++ t) ++ u = s ++ (t ++ u).
Proof. induction s as [|c s IH]; simpl; [reflexivity|now rewrite IH]. Qed.

Lemma append_nil_r (s : string) : s ++ "" = s.
Proof. induction s as [|c s IH]; simpl; [reflexivity|now rewrite IH]. Qed.

Lemma append_inv_head (s t u : string) : s ++ t = s ++ u -> t = u.
Proof. induction s as [|c s IH]; simpl; intros H; [assumption|]. injection H. exact IH. Qed.

Lemma all_chars_append f (s t : string) :
  all_chars f (s ++ t) = all_chars f s && all_chars f t.
Proof.
  induction s as [|c s IH]; simpl; [reflexivity|].
  now rewrite IH, andb_assoc.
Qed.

Lemma all_chars_impl (f g : char -> bool) (s : string) :
  (forall c, f c = true -> g c = true) ->
  all_chars f s = true -> all_chars g s = true.
Proof.
  intros Hfg. induction s as [|c s IH]; simpl; [reflexivity|].
  intros H. apply andb_prop in H as [Hc Hs]. now rewrite (Hfg c Hc), IH.
Qed.

(** *** Equality and order *)

Lemma string_eqb_refl (s : string) : (s =? s)%string = true.
Proof.
  induction s as [|c s IH]; simpl; [reflexivity|]. now rewrite Z.eqb_refl, IH.
Qed.

Lemma string_eqb_eq (s t : string) : (s =? t)%string = true <-> s = t.
Proof.
  split; [|intros ->; apply string_eqb_refl].
  revert t. induction s as [|c s IH]; intros [|d t] H; simpl in H;
    try discriminate; [reflexivity|].
  apply andb_prop in H as [Hc Hs]. apply Z.eqb_eq in Hc. subst.
  f_equal. now apply IH.
Qed.

Lemma string_eqb_neq (s t : string) : (s =? t)%string = false <-> s <> t.
Proof.
  rewrite <- string_eqb_eq. destruct (s =? t)%string; split; congruence.
Qed.

Lemma string_eqb_spec (s t : string) : reflect (s = t) (s =? t)%string.
Proof.
  destruct (s =? t)%string eqn:E; constructor.
  - now apply string_eqb_eq.
  - now apply string_eqb_neq.
Qed.

Lemma string_compare_refl (s : string) : PyStr.compare s s = Eq.
Proof.
  induction s as [|c s IH]; simpl; [reflexivity|]. now rewrite Z.compare_refl.
Qed.

Lemma string_compare_eq_iff (s t : string) : PyStr.compare s t = Eq <-> s = t.
Proof.
  split; [|intros ->; apply string_compare_refl].
  revert t. induction s as [|c s IH]; intros [|d t] H; simpl in H;
    try discriminate; [reflexivity|].
  destruct (Z.compare_spec c d) as [-> | |]; try discriminate.
  f_equal. now apply IH.
Qed.

Lemma string_compare_antisym (s t : string) :
  PyStr.compare s t = CompOpp (PyStr.compare t s).
Proof.
  revert t. induction s as [|c s IH]; intros [|d t]; simpl; try reflexivity.
  rewrite (Z.compare_antisym d c).
  destruct (d ?= c); simpl; [apply IH|reflexivity|reflexivity].
Qed.

Lemma string_compare_trans (a b c : string) :
  PyStr.compare a b = Lt -> PyStr.compare b c = Lt -> PyStr.compare a c = Lt.
Proof.
  revert b c. induction a as [|x a IH]; intros [|y b] [|z c] H1 H2; simpl in *;
    try discriminate; try reflexivity.
  destruct (Z.compare_spec x y) as [-> | Hxy | Hxy]; try discriminate;
    destruct (Z.compare_spec y z) as [-> | Hyz | Hyz]; try discriminate.
  - eapply IH; eassumption.
  - reflexivity.
  - now replace (x ?= z) with Lt by (symmetry; apply Z.compare_lt_iff; lia).
  - now replace (x ?= z) with Lt by (symmetry; apply Z.compare_lt_iff; lia).
Qed.

(** *** Decimal digits *)

Lemma decimal_from_some (zs : list Z) (c d : Z) :
  decimal_from zs c = Some d ->
  exists z, In z zs /\ z <= c <= z + 9 /\ d = c - z.
Proof.
  induction zs as [|z zs IH]; cbn [decimal_from]; [discriminate|].
  destruct (Z.leb_spec z c), (Z.leb_spec c (z + 9)); cbn [andb]; intros E;
    try (destruct (IH E) as (z' & Hin & Hz); exists z'; split; [now right|exact Hz]).
  injection E as <-. exists z. split; [now left|lia].
Qed.

Lemma decimal_from_head (z : Z) (zs : list Z) (c : Z) :
  z <= c <= z + 9 -> decimal_from (z :: zs) c = Some (c - z).
Proof.
  intros H. cbn [decimal_from].
  destruct (Z.leb_spec z c); [|lia]. destruct (Z.leb_spec c (z + 9)); [|lia].
  reflexivity.
Qed.

(** Every script but ASCII has its digits from U+0660 on. *)
Lemma decimal_zeros_low :
  forallb (fun z => (z =? 48) || (1632 <=? z)) decimal_zeros = true.
Proof. vm_compute. reflexivity. Qed.

Lemma decimal_spec (c d : Z) :
  decimal c = Some d ->
  0 <= d <= 9 /\ (c < 1632 -> 48 <= c <= 57 /\ d = c - 48).
Proof.
  intros H. apply decimal_from_some in H as (z & Hin & Hz & ->).
  split; [lia|]. intros Hc.
  pose proof decimal_zeros_low as L. rewrite forallb_forall in L.
  specialize (L z Hin). apply orb_prop in L as [L | L].
  - apply Z.eqb_eq in L. subst z. lia.
  - apply Z.leb_le in L. lia.
Qed.

Lemma decimal_ascii (c : Z) : 48 <= c <= 57 -> decimal c = Some (c - 48).
Proof. intros H. apply (decimal_from_head 48). lia. Qed.

Lemma ascii_digit_spec (c : char) : ascii_digit c = true <-> 48 <= c <= 57.
Proof. unfold ascii_digit, in_range. lia. Qed.

Lemma ascii_is_digit (c : char) : ascii_digit c = true -> is_digit c = true.
Proof.
  intros H. apply ascii_digit_spec in H. unfold is_digit.
  now rewrite decimal_ascii.
Qed.

Lemma ascii_digit_val (c : char) : ascii_digit c = true -> digit_val c = c - 48.
Proof.
  intros H. apply ascii_digit_spec in H. unfold digit_val.
  now rewrite decimal_ascii.
Qed.

Lemma is_digit_val (c : char) : is_digit c = true -> 0 <= digit_val c <= 9.
Proof.
  unfold is_digit, digit_val. destruct (decimal c) as [d|] eqn:E; [|discriminate].
  intros _. now apply decimal_spec in E.
Qed.

(** A decimal digit below U+0660 is one of 0-9. *)
Lemma digit_below (c : char) :
  is_digit c = true -> c < 1632 -> ascii_digit c = true.
Proof.
  unfold is_digit. destruct (decimal c) as [d|] eqn:E; [|discriminate].
  intros _ Hc. apply ascii_digit_spec. apply decimal_spec in E as [_ E].
  now apply E.
Qed.

Lemma digit_ge_48 (c : char) : is_digit c = true -> 48 <= c.
Proof.
  intros H. destruct (Z_lt_ge_dec c 1632) as [Hc|Hc]; [|lia].
  apply (digit_below c H), ascii_digit_spec in Hc. lia.
Qed.

Lemma all_ascii_digits (s : string) :
  all_chars ascii_digit s = true -> all_chars is_digit s = true.
Proof. apply all_chars_impl. exact ascii_is_digit. Qed.

Lemma digit_char_val (c : char) :
  ascii_digit c = true -> digit_char (digit_val c) = c.
Proof.
  intros H. rewrite (ascii_digit_val c H). unfold digit_char. lia.
Qed.

Lemma ascii_digit_char (d : Z) : 0 <= d <= 9 -> ascii_digit (digit_char d) = true.
Proof. intros H. apply ascii_digit_spec. unfold digit_char. lia. Qed.

Lemma digit_val_char (d : Z) : 0 <= d <= 9 -> digit_val (digit_char d) = d.
Proof.
  intros H. rewrite ascii_digit_val by now apply ascii_digit_char.
  unfold digit_char. lia.
Qed.

Lemma is_digit_char (d : Z) : 0 <= d <= 9 -> is_digit (digit_char d) = true.
Proof. intros H. now apply ascii_is_digit, ascii_digit_char. Qed.

Lemma lstrip_digit (c : char) (s : string) :
  is_digit c = true -> lstrip (String c s) = String c s.
Proof.
  intros H. apply digit_ge_48 in H. cbn [lstrip].
  destruct (Z.eqb_spec c " "%char) as [E|_]; [|reflexivity].
  change (" "%char) with 32 in E. lia.
Qed.

Lemma int_field_digit (c : char) (s : string) :
  is_digit c = true -> int_field (String c s) = int_digits (String c s).
Proof. intros H. unfold int_field. now rewrite lstrip_digit. Qed.

Lemma int_digits_acc_append (s t : string) (a : Z) :
  int_digits_acc (s ++ t) a = int_digits_acc t (int_digits_acc s a).
Proof.
  revert a. induction s as [|c s IH]; intros a; simpl; [reflexivity|apply IH].
Qed.

Lemma int_digits_acc_lower (s : string) (a : Z) :
  all_chars is_digit s = true -> 0 <= a ->
  a * 10 ^ Z.of_nat (PyStr.length s) <= int_digits_acc s a.
Proof.
  revert a. induction s as [|c s IH]; intros a Hs Ha.
  - simpl. lia.
  - cbn [all_chars] in Hs. apply andb_prop in Hs as [Hc Hs]. apply is_digit_val in Hc.
    cbn [int_digits_acc PyStr.length]. rewrite Nat2Z.inj_succ, Z.pow_succ_r by lia.
    specialize (IH (10 * a + digit_val c) Hs ltac:(lia)).
    assert (0 <= 10 ^ Z.of_nat (PyStr.length s)) by (apply Z.pow_nonneg; lia).
    nia.
Qed.

Lemma int_digits_acc_upper (s : string) (a : Z) :
  all_chars is_digit s = true -> 0 <= a ->
  int_digits_acc s a < (a + 1) * 10 ^ Z.of_nat (PyStr.length s).
Proof.
  revert a. induction s as [|c s IH]; intros a Hs Ha.
  - simpl. lia.
  - cbn [all_chars] in Hs. apply andb_prop in Hs as [Hc Hs]. apply is_digit_val in Hc.
    cbn [int_digits_acc PyStr.length]. rewrite Nat2Z.inj_succ, Z.pow_succ_r by lia.
    specialize (IH (10 * a + digit_val c) Hs ltac:(lia)).
    assert (0 <= 10 ^ Z.of_nat (PyStr.length s)) by (apply Z.pow_nonneg; lia).
    nia.
Qed.

End StringFacts.

(** ** [str] and [int] *)

Section StrInt.

Lemma str_nat_acc_app (fuel : nat) (n : Z) (acc : string) :
  str_nat_acc fuel n acc = str_nat_acc fuel n "" ++ acc.
Proof.
  revert n acc. induction fuel as [|f IH]; intros n acc; simpl; [reflexivity|].
  destruct (n <? 10); [reflexivity|].
  rewrite (IH _ (String _ acc)), (IH _ (String _ "")).
  now rewrite append_assoc.
Qed.

Lemma pow2_fuel (f : nat) (n : Z) :
  10 <= n < 2 ^ Z.of_nat (S f) -> 0 <= n / 10 < 2 ^ Z.of_nat f.
Proof.
  rewrite Nat2Z.inj_succ, Z.pow_succ_r by lia. intros H.
  split; [apply Z.div_pos; lia|].
  apply Z.div_lt_upper_bound; lia.
Qed.

(** [str] writes with the digits 0-9. *)
Lemma str_nat_acc_ascii (fuel : nat) (n : Z) :
  0 <= n -> all_chars ascii_digit (str_nat_acc fuel n "") = true.
Proof.
  revert n. induction fuel as [|f IH]; intros n Hn; simpl; [reflexivity|].
  assert (Hd : ascii_digit (digit_char (n mod 10)) = true).
  { apply ascii_digit_char. pose proof (Z.mod_pos_bound n 10). lia. }
  destruct (n <? 10); simpl.
  - now rewrite Hd.
  - rewrite str_nat_acc_app, all_chars_append, IH by (apply Z.div_pos; lia).
    simpl. now rewrite Hd.
Qed.

Lemma str_nat_acc_digits (fuel : nat) (n : Z) :
  0 <= n -> all_chars is_digit (str_nat_acc fuel n "") = true.
Proof. intros Hn. now apply all_ascii_digits, str_nat_acc_ascii. Qed.

Lemma str_nat_acc_nonempty (fuel : nat) (n : Z) :
  str_nat_acc (S fuel) n "" <> "".
Proof.
  simpl. destruct (n <? 10); [discriminate|].
  rewrite str_nat_acc_app. destruct (str_nat_acc fuel (n / 10) ""); discriminate.
Qed.

Lemma int_str_nat_acc (fuel : nat) (n : Z) :
  0 <= n < 2 ^ Z.of_nat fuel -> int_digits (str_nat_acc fuel n "") = n.
Proof.
  unfold int_digits. revert n. induction fuel as [|f IH]; intros n Hn.
  - simpl in *. lia.
  - cbn [str_nat_acc]. destruct (Z.ltb_spec n 10) as [Hlt|Hge].
    + cbn [int_digits_acc]. rewrite Z.mod_small by lia. rewrite digit_val_char; lia.
    + rewrite str_nat_acc_app, int_digits_acc_append.
      rewrite IH by (apply pow2_fuel; lia).
      cbn [int_digits_acc]. pose proof (Z.mod_pos_bound n 10 ltac:(lia)).
      rewrite digit_val_char by lia.
      pose proof (Z.div_mod n 10 ltac:(lia)). lia.
Qed.

Lemma fuel_enough (n : Z) : 0 <= n -> n < 2 ^ Z.of_nat (S (Z.to_nat (Z.log2 n))).
Proof.
  intros Hn. rewrite Nat2Z.inj_succ, Z2Nat.id by apply Z.log2_nonneg.
  destruct (Z.eq_dec n 0) as [->|Hz]; [reflexivity|].
  apply Z.log2_spec. lia.
Qed.

Lemma str_nat_ascii (n : Z) : 0 <= n -> all_chars ascii_digit (str_nat n) = true.
Proof. apply str_nat_acc_ascii. Qed.

Lemma str_nat_digits (n : Z) : 0 <= n -> all_chars is_digit (str_nat n) = true.
Proof. apply str_nat_acc_digits. Qed.

Lemma str_nat_nonempty (n : Z) : str_nat n <> "".
Proof. apply str_nat_acc_nonempty. Qed.

Lemma int_str_nat (n : Z) : 0 <= n -> int_digits (str_nat n) = n.
Proof.
  intros Hn. apply int_str_nat_acc. split; [assumption|now apply fuel_enough].
Qed.

Lemma str_nat_acc_head (fuel : nat) (n : Z) :
  0 < n < 2 ^ Z.of_nat fuel ->
  exists c s, str_nat_acc fuel n "" = String c s /\ 1 <= digit_val c <= 9
              /\ all_chars is_digit s = true.
Proof.
  revert n. induction fuel as [|f IH]; intros n Hn.
  - simpl in *. lia.
  - cbn [str_nat_acc]. destruct (Z.ltb_spec n 10) as [Hlt|Hge].
    + exists (digit_char (n mod 10)), "". rewrite Z.mod_small by lia.
      rewrite digit_val_char by lia. repeat split; try reflexivity; lia.
    + rewrite str_nat_acc_app.
      destruct (IH (n / 10)) as (c & s & E & Hc & Hs).
      { pose proof (pow2_fuel f n ltac:(lia)).
        assert (1 <= n / 10) by (apply Z.div_le_lower_bound; lia). lia. }
      rewrite E. exists c, (s ++ String (digit_char (n mod 10)) "").
      repeat split; try reflexivity; try lia. rewrite all_chars_append, Hs. simpl.
      rewrite is_digit_char; [reflexivity|].
      pose proof (Z.mod_pos_bound n 10). lia.
Qed.

(** A positive integer of [k] digits lies in [10^(k-1), 10^k). *)
Lemma str_nat_size (n : Z) :
  0 < n ->
  10 ^ (Z.of_nat (PyStr.length (str_nat n)) - 1) <= n
  /\ n < 10 ^ Z.of_nat (PyStr.length (str_nat n)).
Proof.
  intros Hn.
  destruct (str_nat_acc_head (S (Z.to_nat (Z.log2 n))) n) as (c & s & E & Hc & Hs).
  { split; [assumption|apply fuel_enough; lia]. }
  pose proof (int_str_nat n ltac:(lia)) as V. unfold int_digits in V.
  fold (str_nat n) in E. rewrite E in *. cbn [int_digits_acc PyStr.length] in *.
  rewrite Nat2Z.inj_succ.
  replace (Z.succ (Z.of_nat (PyStr.length s)) - 1) with (Z.of_nat (PyStr.length s)) by lia.
  rewrite Z.pow_succ_r by lia.
  pose proof (int_digits_acc_lower s (10 * 0 + digit_val c) Hs ltac:(lia)).
  pose proof (int_digits_acc_upper s (10 * 0 + digit_val c) Hs ltac:(lia)).
  assert (0 < 10 ^ Z.of_nat (PyStr.length s)) by (apply Z.pow_pos_nonneg; lia).
  nia.
Qed.

Lemma str_nat_acc_S (fuel : nat) (n : Z) (acc : string) :
  str_nat_acc (S fuel) n acc
  = if n <? 10 then String (digit_char (n mod 10)) acc
    else str_nat_acc fuel (n / 10) (String (digit_char (n mod 10)) acc).
Proof. reflexivity. Qed.

(** With fuel enough the digits do not depend on the fuel. *)
Lemma str_nat_acc_fuel (f1 f2 : nat) (n : Z) :
  0 <= n < 2 ^ Z.of_nat (S f1) -> n < 2 ^ Z.of_nat (S f2) ->
  str_nat_acc (S f1) n "" = str_nat_acc (S f2) n "".
Proof.
  revert f2 n. induction f1 as [|f1 IH]; intros f2 n H1 H2.
  - change (2 ^ Z.of_nat 1) with 2 in H1. rewrite !str_nat_acc_S.
    now replace (n <? 10) with true by (symmetry; apply Z.ltb_lt; lia).
  - rewrite (str_nat_acc_S (S f1)), (str_nat_acc_S f2).
    destruct (Z.ltb_spec n 10) as [Hlt|Hge]; [reflexivity|].
    destruct f2 as [|f2]; [change (2 ^ Z.of_nat 1) with 2 in H2; lia|].
    rewrite (str_nat_acc_app (S f1)), (str_nat_acc_app (S f2)). f_equal.
    apply IH; apply pow2_fuel; lia.
Qed.

Lemma str_nat_small (n : Z) :
  0 <= n < 10 -> str_nat n = String (digit_char n) "".
Proof.
  intros H. unfold str_nat. cbn [str_nat_acc].
  replace (n <? 10) with true by (symmetry; apply Z.ltb_lt; lia).
  now rewrite Z.mod_small by lia.
Qed.

Lemma str_nat_step (n : Z) :
  10 <= n -> str_nat n = str_nat (n / 10) ++ String (digit_char (n mod 10)) "".
Proof.
  intros H. pose proof (fuel_enough n ltac:(lia)) as F. unfold str_nat.
  destruct (Z.to_nat (Z.log2 n)) as [|k].
  - change (2 ^ Z.of_nat 1) with 2 in F. lia.
  - rewrite (str_nat_acc_S (S k)).
    replace (n <? 10) with false by (symmetry; apply Z.ltb_ge; lia).
    rewrite str_nat_acc_app. f_equal.
    apply str_nat_acc_fuel; [apply pow2_fuel; lia|].
    apply fuel_enough. apply Z.div_pos; lia.
Qed.

(** [int(str(z)) == z]. *)
Lemma int_of_str_str (z : Z) : int_of_str (str z) = Some z.
Proof.
  unfold str. destruct (Z.ltb_spec z 0) as [Hneg|Hpos].
  - cbn [int_of_str]. rewrite Z.eqb_refl, str_nat_digits by lia.
    destruct (string_eqb_spec (str_nat (- z)) "") as [E|_].
    + now apply str_nat_nonempty in E.
    + simpl. rewrite int_str_nat by lia. f_equal. lia.
  - pose proof (str_nat_digits z Hpos) as Hd.
    pose proof (str_nat_nonempty z) as Hne.
    pose proof (int_str_nat z Hpos) as Hv.
    destruct (str_nat z) as [|c s]; [contradiction|].
    unfold int_of_str. rewrite Hd, Hv.
    cbn [all_chars] in Hd. apply andb_prop in Hd as [Hc _].
    apply digit_ge_48 in Hc.
    destruct (Z.eqb_spec c "-"%char) as [E|_]; [|reflexivity].
    change ("-"%char) with 45 in E. lia.
Qed.

End StrInt.

(** ** The calendar *)

Section Calendar.

Lemma in_zrange (lo x : Z) (n : nat) :
  lo <= x < lo + Z.of_nat n -> In x (zrange lo n).
Proof.
  intros H. unfold zrange. apply in_map_iff.
  exists (Z.to_nat (x - lo)). split; [lia|]. apply in_seq. lia.
Qed.

Lemma month_cases (m : Z) :
  1 <= m <= 12 ->
  m = 1 \/ m = 2 \/ m = 3 \/ m = 4 \/ m = 5 \/ m = 6 \/ m = 7 \/ m = 8
  \/ m = 9 \/ m = 10 \/ m = 11 \/ m = 12.
Proof. lia. Qed.

Ltac each_month H :=
  let C := fresh "C" in
  pose proof (month_cases _ H) as C;
  repeat (destruct C as [-> | C]); [.. | subst].

Ltac month_simpl :=
  unfold _DAYS_IN_MONTH, _DAYS_BEFORE_MONTH in *;
  cbn [Z.eqb Z.ltb Z.compare Pos.eqb Pos.compare Pos.compare_cont andb] in *.

(** Where a day of a month falls in its year; [b] says whether the year
    is a leap year. *)
Lemma day_of_year_range (b : bool) (m d : Z) :
  1 <= m <= 12 ->
  1 <= d <= (if (m =? 2) && b then 29 else _DAYS_IN_MONTH m) ->
  let k := _DAYS_BEFORE_MONTH m + (if (2 <? m) && b then 1 else 0) + d - 1 in
  0 <= k <= 364 + (if b then 1 else 0) /\ d <= 31
  /\ (k = 365 -> m = 12 /\ d = 31).
Proof.
  intros Hm Hd. each_month Hm; destruct b; month_simpl; lia.
Qed.

Lemma month_day_ok_true : month_day_ok = true.
Proof. vm_compute. reflexivity. Qed.

Lemma month_day_spec (b : bool) (m d : Z) :
  1 <= m <= 12 ->
  1 <= d <= (if (m =? 2) && b then 29 else _DAYS_IN_MONTH m) ->
  let k := _DAYS_BEFORE_MONTH m + (if (2 <? m) && b then 1 else 0) + d - 1 in
  k <= 364 -> month_day b k = (m, d).
Proof.
  intros Hm Hd k Hk.
  destruct (day_of_year_range b m d Hm Hd) as (_ & Hd31 & _).
  pose proof month_day_ok_true as C. unfold month_day_ok in C.
  rewrite forallb_forall in C.
  specialize (C b ltac:(destruct b; simpl; auto)).
  rewrite forallb_forall in C. specialize (C m (in_zrange 1 m 12 ltac:(lia))).
  rewrite forallb_forall in C. specialize (C d (in_zrange 1 d 31 ltac:(lia))).
  cbv zeta in C. fold k in C.
  replace (d <=? _) with true in C by (symmetry; apply Z.leb_le; lia).
  replace (k <=? 364) with true in C by (symmetry; apply Z.leb_le; lia).
  simpl in C. destruct (month_day b k) as [m' d'].
  apply andb_prop in C as [C1 C2]. apply Z.eqb_eq in C1, C2. congruence.
Qed.

(** A year splits into 400-year cycles, centuries, 4-year groups and
    years, and so do the days before it. *)
Lemma year_split (y : Z) :
  1 <= y ->
  exists q c f o,
    y = 400 * q + 100 * c + 4 * f + o + 1
    /\ 0 <= q /\ 0 <= c <= 3 /\ 0 <= f <= 24 /\ 0 <= o <= 3
    /\ _days_before_year y = 146097 * q + 36524 * c + 1461 * f + 365 * o
    /\ _is_leap y = (o =? 3) && (negb (f =? 24) || (c =? 3)).
Proof.
  intros Hy.
  exists ((y - 1) / 400), ((y - 1) mod 400 / 100),
         ((y - 1) mod 100 / 4), ((y - 1) mod 4).
  repeat split; try (Z.to_euclidean_division_equations; lia).
  - unfold _days_before_year. Z.to_euclidean_division_equations. lia.
  - unfold _is_leap.
    destruct (Z.eqb_spec (y mod 4) 0), (Z.eqb_spec (y mod 100) 0),
      (Z.eqb_spec (y mod 400) 0), (Z.eqb_spec ((y - 1) mod 4) 3),
      (Z.eqb_spec ((y - 1) mod 100 / 4) 24),
      (Z.eqb_spec ((y - 1) mod 400 / 100) 3);
      try reflexivity; exfalso; Z.to_euclidean_division_equations; lia.
Qed.

Lemma div_mod_known (a b q r : Z) :
  a = b * q + r -> 0 <= r < b -> a / b = q /\ a mod b = r.
Proof.
  intros E Hr. split.
  - symmetry. apply (Z.div_unique a b q r); [lia|assumption].
  - symmetry. apply (Z.mod_unique a b q r); [lia|assumption].
Qed.

Lemma ord2ymd_unfold (n : Z) :
  _ord2ymd n =
  let x := n - 1 in
  let n400 := x / 146097 in
  let r0 := x mod 146097 in
  let n100 := r0 / 36524 in
  let r1 := r0 mod 36524 in
  let n4 := r1 / 1461 in
  let r2 := r1 mod 1461 in
  let n1 := r2 / 365 in
  let r3 := r2 mod 365 in
  let yr := n400 * 400 + 1 + n100 * 100 + n4 * 4 + n1 in
  if (n1 =? 4) || (n100 =? 4) then (yr - 1, 12, 31)
  else
    let '(m, d) := month_day ((n1 =? 3) && (negb (n4 =? 24) || (n100 =? 3))) r3 in
    (yr, m, d).
Proof.
  unfold _ord2ymd, month_day. cbv zeta.
  repeat match goal with |- context [if ?b then _ else _] =>
    match b with
    | (_ || _) => destruct b
    | (_ <? _) => destruct b
    end end; reflexivity.
Qed.

(** [_ord2ymd] undoes [_ymd2ord] on every valid date. *)
Lemma ord2ymd_ymd2ord (y m d : Z) :
  1 <= y -> 1 <= m <= 12 -> 1 <= d <= _days_in_month y m ->
  _ord2ymd (_ymd2ord y m d) = (y, m, d).
Proof.
  intros Hy Hm Hd.
  destruct (year_split y Hy) as (q & c & f & o & Ey & Hq & Hc & Hf & Ho & Edby & Eleap).
  unfold _days_in_month in Hd.
  pose proof (day_of_year_range (_is_leap y) m d Hm Hd) as (Hk & _ & Hlast).
  pose proof (month_day_spec (_is_leap y) m d Hm Hd) as Hmd.
  cbv zeta in Hk, Hlast, Hmd.
  unfold _ymd2ord, _days_before_month. rewrite Edby.
  set (k := _DAYS_BEFORE_MONTH m + (if (2 <? m) && _is_leap y then 1 else 0) + d - 1) in *.
  replace (146097 * q + 36524 * c + 1461 * f + 365 * o
           + (_DAYS_BEFORE_MONTH m + (if (2 <? m) && _is_leap y then 1 else 0)) + d)
    with (146097 * q + 36524 * c + 1461 * f + 365 * o + k + 1) by (unfold k; lia).
  rewrite ord2ymd_unfold. cbv zeta.
  replace (146097 * q + 36524 * c + 1461 * f + 365 * o + k + 1 - 1)
    with (146097 * q + 36524 * c + 1461 * f + 365 * o + k) by lia.
  destruct (Z_le_gt_dec k 364) as [Hk364 | Hk365].
  - (* not the 366th day *)
    destruct (div_mod_known (146097 * q + 36524 * c + 1461 * f + 365 * o + k)
                146097 q (36524 * c + 1461 * f + 365 * o + k)) as [-> ->]; [lia|lia|].
    destruct (div_mod_known (36524 * c + 1461 * f + 365 * o + k)
                36524 c (1461 * f + 365 * o + k)) as [-> ->]; [lia|lia|].
    destruct (div_mod_known (1461 * f + 365 * o + k) 1461 f (365 * o + k))
      as [-> ->]; [lia|lia|].
    destruct (div_mod_known (365 * o + k) 365 o k) as [-> ->]; [lia|lia|].
    replace (o =? 4) with false by (symmetry; apply Z.eqb_neq; lia).
    replace (c =? 4) with false by (symmetry; apply Z.eqb_neq; lia).
    cbn [orb]. rewrite <- Eleap, (Hmd Hk364). f_equal. f_equal. lia.
  - (* the 366th day, 31 December of a leap year *)
    assert (Hl : _is_leap y = true) by (destruct (_is_leap y); [reflexivity|lia]).
    assert (Ek : k = 365) by (rewrite Hl in Hk; lia).
    destruct (Hlast Ek) as [-> ->]. rewrite Ek.
    rewrite Hl in Eleap. symmetry in Eleap. apply andb_prop in Eleap as [Eo Efc].
    apply Z.eqb_eq in Eo. subst o.
    destruct (Z.eq_dec f 24) as [-> | Hf24].
    + assert (c = 3) as ->.
      { rewrite Z.eqb_refl in Efc. simpl in Efc. now apply Z.eqb_eq in Efc. }
      destruct (div_mod_known (146097 * q + 36524 * 3 + 1461 * 24 + 365 * 3 + 365)
                  146097 q 146096) as [-> ->]; [lia|lia|].
      cbn. f_equal. f_equal. lia.
    + destruct (div_mod_known (146097 * q + 36524 * c + 1461 * f + 365 * 3 + 365)
                  146097 q (36524 * c + 1461 * f + 1460)) as [-> ->]; [lia|lia|].
      destruct (div_mod_known (36524 * c + 1461 * f + 1460) 36524 c (1461 * f + 1460))
        as [-> ->]; [lia|lia|].
      destruct (div_mod_known (1461 * f + 1460) 1461 f 1460) as [-> ->]; [lia|lia|].
      cbn. f_equal. f_equal. lia.
Qed.

End Calendar.

(** ** The timestamp *)

Section Timestamp.

Lemma toordinal_EPOCH : toordinal _EPOCH = 719163.
Proof. reflexivity. Qed.

Lemma sub_EPOCH (dt : datetime) :
  microsecond dt = 0 ->
  let td := sub dt _EPOCH in
  days td * 86400 + seconds td = epoch_seconds dt /\ microseconds td = 0.
Proof.
  intros Hus. unfold sub, new_timedelta, epoch_seconds.
  rewrite toordinal_EPOCH, Hus. cbn [days seconds microseconds second minute hour _EPOCH microsecond].
  replace (0 - 0) with 0 by lia. rewrite Z.div_0_l, Z.mod_0_l by lia.
  split; [|reflexivity].
  set (s := second dt + minute dt * 60 + hour dt * 3600 - (0 + 0 * 60 + 0 * 3600) + 0).
  replace (second dt + minute dt * 60 + hour dt * 3600) with s by (unfold s; lia).
  pose proof (Z.div_mod s 86400 ltac:(lia)). lia.
Qed.

(** The timestamp is a whole number of seconds. *)
Lemma timestamp_whole (dt : datetime) :
  microsecond dt = 0 -> (timestamp dt == inject_Z (epoch_seconds dt))%Q.
Proof.
  intros Hus. destruct (sub_EPOCH dt Hus) as [E Eus].
  unfold timestamp, total_seconds. rewrite E, Eus.
  unfold Qeq, inject_Z. cbn [Qnum Qden]. lia.
Qed.


Lemma unix_ms_of_value (dt : datetime) :
  microsecond dt = 0 -> unix_ms_of dt = epoch_seconds dt * 1000.
Proof.
  intros Hus. destruct (sub_EPOCH dt Hus) as [E Eus].
  unfold unix_ms_of, int_of_float, timestamp, total_seconds. rewrite E, Eus.
  cbn [Qnum Qden Qmult]. rewrite Z.add_0_r, Pos.mul_1_r.
  change (Z.pos (10 ^ 6)) with (10 ^ 6).
  replace (epoch_seconds dt * 10 ^ 6 * 1000)
    with (epoch_seconds dt * 1000 * 10 ^ 6) by lia.
  apply Z.quot_mul. lia.
Qed.

Lemma days_before_year_mono (y : Z) :
  1 <= y <= 9999 -> 0 <= _days_before_year y <= 3651694.
Proof.
  intros Hy. unfold _days_before_year. Z.to_euclidean_division_equations. lia.
Qed.

Lemma toordinal_range (dt : datetime) :
  valid_fields dt -> 1 <= toordinal dt <= 3652060.
Proof.
  intros (Hy & Hm & Hd & _). unfold toordinal, _ymd2ord, _days_before_month.
  unfold _days_in_month in Hd.
  pose proof (day_of_year_range (_is_leap (year dt)) (month dt) (day dt) Hm Hd)
    as (Hk & _ & _). cbv zeta in Hk.
  pose proof (days_before_year_mono (year dt) Hy).
  destruct (_is_leap (year dt)), (2 <? month dt); cbn [andb] in *; lia.
Qed.

(** Every value on the way from the fields to [unix_ms] is an integer of
    magnitude below [2 ^ 53]: binary floating point holds each of them
    exactly, and the product with 1000 is exact. *)
Lemma unix_ms_of_bounded (dt : datetime) :
  valid_fields dt -> microsecond dt = 0 ->
  - 2 ^ 53 < unix_ms_of dt < 2 ^ 53.
Proof.
  intros Hv Hus. rewrite unix_ms_of_value by assumption.
  pose proof (toordinal_range dt Hv). destruct Hv as (_ & _ & _ & HH & HM & HS).
  unfold epoch_seconds. change (2 ^ 53) with 9007199254740992. lia.
Qed.

(** The UTC fields of [unix_ms_of dt] are the fields of [dt]. *)
Lemma utc_of_unix_ms_of (dt : datetime) :
  valid_fields dt -> microsecond dt = 0 ->
  utc_of_unix_ms (unix_ms_of dt) = dt.
Proof.
  intros Hv Hus. rewrite unix_ms_of_value by assumption.
  destruct Hv as (Hy & Hm & Hd & HH & HM & HS).
  unfold utc_of_unix_ms. rewrite Z.div_mul by lia.
  set (sod := second dt + minute dt * 60 + hour dt * 3600).
  assert (Hsod : 0 <= sod < 86400) by (unfold sod; lia).
  destruct (div_mod_known (epoch_seconds dt) 86400 (toordinal dt - 719163) sod)
    as [-> ->]; [unfold epoch_seconds, sod; lia|lia|].
  rewrite toordinal_EPOCH.
  replace (toordinal dt - 719163 + 719163) with (toordinal dt) by lia.
  unfold toordinal. rewrite ord2ymd_ymd2ord by lia.
  destruct (div_mod_known sod 3600 (hour dt) (second dt + minute dt * 60))
    as [-> ->]; [unfold sod; lia|lia|].
  destruct (div_mod_known (second dt + minute dt * 60) 60 (minute dt) (second dt))
    as [-> _]; [lia|lia|].
  replace (sod mod 60) with (second dt)
    by (unfold sod; Z.to_euclidean_division_equations; lia).
  destruct dt; cbn in *. now subst.
Qed.

End Timestamp.

(** ** [strptime] on 14 digits *)

Section StrptimeFacts.

Lemma ascii_digit_cases (c : char) :
  ascii_digit c = true ->
  c = "0"%char \/ c = "1"%char \/ c = "2"%char \/ c = "3"%char \/ c = "4"%char
  \/ c = "5"%char \/ c = "6"%char \/ c = "7"%char \/ c = "8"%char \/ c = "9"%char.
Proof. intros H. apply ascii_digit_spec in H. lia. Qed.

Lemma match_alt_split (a : alt) (s g r : string) :
  match_alt a s = Some (g, r) -> s = g ++ r /\ PyStr.length g = List.length a.
Proof.
  revert s g r. induction a as [|k a IH]; intros s g r H; simpl in H.
  - injection H as <- <-. split; reflexivity.
  - destruct s as [|c s]; [discriminate|].
    destruct (cclass_ok k c); [|discriminate].
    destruct (match_alt a s) as [[g' r']|] eqn:E; [|discriminate].
    injection H as <- <-. apply IH in E as [-> El]. simpl. now rewrite El.
Qed.

Lemma try_alts_some k (alts : list alt) (s : string) gs r' :
  try_alts k alts s = Some (gs, r') ->
  exists a g r gs', In a alts /\ match_alt a s = Some (g, r)
                    /\ k r = Some (gs', r') /\ gs = g :: gs'.
Proof.
  induction alts as [|a alts IH]; simpl; [discriminate|].
  destruct (match_alt a s) as [[g r]|] eqn:E.
  - destruct (k r) as [[gs' r'']|] eqn:Ek.
    + intros H. injection H as <- <-. exists a, g, r, gs'. auto.
    + intros H. destruct (IH H) as (a' & g' & r0 & gs' & Hin & ?).
      exists a', g', r0, gs'. tauto.
  - intros H. destruct (IH H) as (a' & g' & r0 & gs' & Hin & ?).
    exists a', g', r0, gs'. tauto.
Qed.

(** A group of a directive is no longer than its longest alternative. *)
Lemma try_alts_group k (d : directive) (w : nat) (s : string) gs r' :
  Forall (fun a => (List.length a <= w)%nat) d ->
  try_alts k d s = Some (gs, r') ->
  exists g r gs', s = g ++ r /\ (PyStr.length g <= w)%nat
                  /\ k r = Some (gs', r') /\ gs = g :: gs'.
Proof.
  intros Hw H. apply try_alts_some in H as (a & g & r & gs' & Hin & Ha & Hk & ->).
  apply match_alt_split in Ha as [-> Hl].
  rewrite Forall_forall in Hw. specialize (Hw a Hin).
  exists g, r, gs'. repeat split; try assumption. lia.
Qed.

Lemma format_regex_groups (s : string) gs r :
  match_directives format_regex s = Some (gs, r) ->
  exists gY gm gd gH gM gS,
    gs = [gY; gm; gd; gH; gM; gS]
    /\ s = gY ++ gm ++ gd ++ gH ++ gM ++ gS ++ r
    /\ (PyStr.length gY <= 4)%nat /\ (PyStr.length gm <= 2)%nat
    /\ (PyStr.length gd <= 2)%nat /\ (PyStr.length gH <= 2)%nat
    /\ (PyStr.length gM <= 2)%nat /\ (PyStr.length gS <= 2)%nat.
Proof.
  unfold format_regex. cbn [match_directives]. intros H.
  apply (try_alts_group _ re_Y 4) in H as (gY & r1 & gs1 & -> & HY & H & ->);
    [|repeat constructor].
  apply (try_alts_group _ re_m 2) in H as (gm & r2 & gs2 & -> & Hm & H & ->);
    [|repeat constructor].
  apply (try_alts_group _ re_d 2) in H as (gd & r3 & gs3 & -> & Hd & H & ->);
    [|repeat constructor].
  apply (try_alts_group _ re_H 2) in H as (gH & r4 & gs4 & -> & HH & H & ->);
    [|repeat constructor].
  apply (try_alts_group _ re_M 2) in H as (gM & r5 & gs5 & -> & HM & H & ->);
    [|repeat constructor].
  apply (try_alts_group _ re_S 2) in H as (gS & r6 & gs6 & -> & HS & H & ->);
    [|repeat constructor].
  injection H as <- <-.
  exists gY, gm, gd, gH, gM, gS. repeat split; assumption.
Qed.

Lemma new_inr (y m d H M S : Z) (dt : datetime) :
  new y m d H M S 0 = inr dt ->
  dt = mk_datetime y m d H M S 0 /\ valid_fields dt.
Proof.
  unfold new. destruct (_check_date_fields y m d) eqn:Ed; [|discriminate].
  destruct (_check_time_fields H M S 0) eqn:Et; [|discriminate].
  cbn [negb]. intros E. injection E as <-. split; [reflexivity|].
  unfold _check_date_fields, _check_time_fields, MINYEAR, MAXYEAR in *.
  unfold valid_fields. cbn [year month day hour minute second].
  repeat match goal with
         | H : _ && _ = true |- _ => apply andb_prop in H as [? ?]
         end.
  lia.
Qed.

Lemma new_valid (dt : datetime) :
  valid_fields dt -> microsecond dt = 0 ->
  new (year dt) (month dt) (day dt) (hour dt) (minute dt) (second dt) 0 = inr dt.
Proof.
  intros (Hy & Hm & Hd & HH & HM & HS) Hus. unfold new.
  replace (_check_date_fields (year dt) (month dt) (day dt)) with true.
  2:{ symmetry. unfold _check_date_fields, MINYEAR, MAXYEAR.
      repeat (apply andb_true_intro; split); lia. }
  replace (_check_time_fields (hour dt) (minute dt) (second dt) 0) with true.
  2:{ symmetry. unfold _check_time_fields.
      repeat (apply andb_true_intro; split); lia. }
  cbn [negb]. destruct dt; cbn in *. now subst.
Qed.

Ltac explicit_string g :=
  repeat (let c := fresh "c" in destruct g as [|c g];
          cbn [PyStr.length] in *; try lia).

(** What [strptime] returns on 14 characters are the fields by position,
    and they are valid. *)
Lemma strptime_inr (s : string) (dt : datetime) :
  PyStr.length s = 14%nat -> all_chars is_digit s = true ->
  strptime s = inr dt ->
  dt = fields_of s /\ valid_fields dt /\ microsecond dt = 0.
Proof.
  intros Hlen Hdig H. unfold strptime in H.
  destruct (match_directives format_regex s) as [[gs r]|] eqn:E; [|discriminate].
  apply format_regex_groups in E
    as (gY & gm & gd & gH & gM & gS & -> & Es & HY & Hm & Hd & HH & HM & HS).
  destruct (string_eqb_spec r "") as [-> | Hr]; [|discriminate].
  cbn [negb] in H.
  assert (Hsum : (PyStr.length gY + PyStr.length gm + PyStr.length gd
                  + PyStr.length gH + PyStr.length gM + PyStr.length gS = 14)%nat).
  { rewrite <- Hlen, Es. repeat rewrite length_append. simpl. lia. }
  assert (PyStr.length gY = 4 /\ PyStr.length gm = 2 /\ PyStr.length gd = 2
          /\ PyStr.length gH = 2 /\ PyStr.length gM = 2
          /\ PyStr.length gS = 2)%nat as (LY & Lm & Ld & LH & LM & LS) by lia.
  clear HY Hm Hd HH HM HS Hsum Hlen.
  explicit_string gY. explicit_string gm. explicit_string gd.
  explicit_string gH. explicit_string gM. explicit_string gS.
  subst s. cbn [append all_chars] in Hdig.
  repeat match type of Hdig with
         | _ && _ = true => let D := fresh "D" in apply andb_prop in Hdig as [D Hdig]
         end.
  rewrite !int_field_digit in H by assumption.
  apply new_inr in H as [-> Hv].
  split; [reflexivity | split; [assumption | reflexivity]].
Qed.

End StrptimeFacts.

Section StrptimeComplete.

Ltac digit_cases H :=
  apply ascii_digit_cases in H;
  repeat (destruct H as [-> | H]); [.. | subst].

Ltac two_digits Hc1 Hc2 Hv Hk :=
  digit_cases Hc1; digit_cases Hc2;
  rewrite !ascii_digit_val in Hv by reflexivity;
  first [ exfalso; lia | vm_compute; rewrite Hk; reflexivity ].

Variable k : string -> option (list string * string).
Variables (r r' : string) (gs : list string).
Hypothesis Hk : k r = Some (gs, r').

Lemma try_re_Y (c1 c2 c3 c4 : char) :
  is_digit c1 = true -> is_digit c2 = true ->
  is_digit c3 = true -> is_digit c4 = true ->
  try_alts k re_Y (String c1 (String c2 (String c3 (String c4 r))))
  = Some (String c1 (String c2 (String c3 (String c4 ""))) :: gs, r').
Proof.
  intros H1 H2 H3 H4. cbn [try_alts re_Y match_alt cclass_ok].
  now rewrite H1, H2, H3, H4, Hk.
Qed.

Lemma try_re_m (c1 c2 : char) :
  ascii_digit c1 = true -> ascii_digit c2 = true ->
  1 <= 10 * digit_val c1 + digit_val c2 <= 12 ->
  try_alts k re_m (String c1 (String c2 r))
  = Some (String c1 (String c2 "") :: gs, r').
Proof. intros H1 H2 Hv. two_digits H1 H2 Hv Hk. Qed.

Lemma try_re_d (c1 c2 : char) :
  ascii_digit c1 = true -> ascii_digit c2 = true ->
  1 <= 10 * digit_val c1 + digit_val c2 <= 31 ->
  try_alts k re_d (String c1 (String c2 r))
  = Some (String c1 (String c2 "") :: gs, r').
Proof. intros H1 H2 Hv. two_digits H1 H2 Hv Hk. Qed.

Lemma try_re_H (c1 c2 : char) :
  ascii_digit c1 = true -> ascii_digit c2 = true ->
  0 <= 10 * digit_val c1 + digit_val c2 <= 23 ->
  try_alts k re_H (String c1 (String c2 r))
  = Some (String c1 (String c2 "") :: gs, r').
Proof. intros H1 H2 Hv. two_digits H1 H2 Hv Hk. Qed.

Lemma try_re_M (c1 c2 : char) :
  ascii_digit c1 = true -> ascii_digit c2 = true ->
  0 <= 10 * digit_val c1 + digit_val c2 <= 59 ->
  try_alts k re_M (String c1 (String c2 r))
  = Some (String c1 (String c2 "") :: gs, r').
Proof. intros H1 H2 Hv. two_digits H1 H2 Hv Hk. Qed.

Lemma try_re_S (c1 c2 : char) :
  ascii_digit c1 = true -> ascii_digit c2 = true ->
  0 <= 10 * digit_val c1 + digit_val c2 <= 59 ->
  try_alts k re_S (String c1 (String c2 r))
  = Some (String c1 (String c2 "") :: gs, r').
Proof. intros H1 H2 Hv. two_digits H1 H2 Hv Hk. Qed.

End StrptimeComplete.

Section StrptimeValid.

Ltac explicit_string g :=
  repeat (let c := fresh "c" in destruct g as [|c g];
          cbn [PyStr.length] in *; try lia).

Ltac split_digits H :=
  cbn [all_chars] in H;
  repeat match type of H with
         | _ && _ = true => let H1 := fresh "D" in apply andb_prop in H as [H1 H]
         end.

Ltac digit_facts :=
  repeat match goal with
         | D : ascii_digit ?c = true |- _ =>
             lazymatch goal with
             | _ : is_digit c = true |- _ => fail
             | _ => pose proof (ascii_is_digit c D);
                    pose proof (is_digit_val c (ascii_is_digit c D))
             end
         end.

(** [strptime] accepts every valid date of 14 digits 0-9. *)
Lemma strptime_valid (s : string) :
  PyStr.length s = 14%nat -> all_chars ascii_digit s = true ->
  valid_ymdhms s -> strptime s = inr (fields_of s).
Proof.
  intros Hlen Hd Hv.
  explicit_string s. clear Hlen. split_digits Hd. clear Hd.
  pose proof Hv as (Hy & Hm & Hday & HH & HM & HS).
  assert (Hd31 : day (fields_of (String c (String c0 (String c1 (String c2
            (String c3 (String c4 (String c5 (String c6 (String c7 (String c8
            (String c9 (String c10 (String c11 (String c12 ""))))))))))))))) <= 31).
  { unfold _days_in_month in Hday.
    now pose proof (day_of_year_range _ _ _ Hm Hday) as (_ & ? & _). }
  cbn [fields_of slice slice_to slice_from Nat.sub year month day hour minute second int_digits
       int_digits_acc] in Hy, Hm, Hday, HH, HM, HS, Hd31.
  digit_facts.
  pose proof (try_re_S (match_directives []) "" "" [] eq_refl c11 c12 D11 D12
                ltac:(lia)) as K5.
  pose proof (try_re_M (match_directives [re_S]) _ _ _ K5 c9 c10 D9 D10
                ltac:(lia)) as K4.
  pose proof (try_re_H (match_directives [re_M; re_S]) _ _ _ K4 c7 c8 D7 D8
                ltac:(lia)) as K3.
  pose proof (try_re_d (match_directives [re_H; re_M; re_S]) _ _ _ K3 c5 c6 D5 D6
                ltac:(lia)) as K2.
  pose proof (try_re_m (match_directives [re_d; re_H; re_M; re_S]) _ _ _ K2
                c3 c4 D3 D4 ltac:(lia)) as K1.
  pose proof (try_re_Y (match_directives [re_m; re_d; re_H; re_M; re_S]) _ _ _ K1
                c c0 c1 c2 ltac:(assumption) ltac:(assumption) ltac:(assumption)
                ltac:(assumption)) as K0.
  unfold strptime.
  change (match_directives format_regex ?x)
    with (try_alts (match_directives [re_m; re_d; re_H; re_M; re_S]) re_Y x).
  rewrite K0. cbn [PyStr.eqb negb].
  rewrite !int_field_digit by assumption.
  exact (new_valid _ Hv eq_refl).
Qed.

(** [strptime] raises on 14 digits that are not a valid date. *)
Lemma strptime_invalid (s : string) :
  PyStr.length s = 14%nat -> all_chars is_digit s = true ->
  ~ valid_ymdhms s -> exists e, strptime s = inl e.
Proof.
  intros Hlen Hd Hv. destruct (strptime s) as [e|dt] eqn:E; [now exists e|].
  apply strptime_inr in E as (-> & Hv' & _); [contradiction|assumption|assumption].
Qed.

Lemma zeros_snoc (k : nat) : zeros k ++ "0" = String "0" (zeros k).
Proof. induction k as [|k IH]; cbn [zeros append]; [reflexivity|now rewrite IH]. Qed.

Lemma digits_of_zero (k : nat) : digits_of k 0 = zeros k.
Proof.
  induction k as [|k IH]; cbn [digits_of zeros]; [reflexivity|].
  change (0 / 10) with 0. change (0 mod 10) with 0. rewrite IH.
  apply zeros_snoc.
Qed.

(** [zfill] writes a number below [10 ^ width] with its last [width]
    digits. *)
Lemma zfill_digits (w : nat) (n : Z) :
  0 <= n < 10 ^ Z.of_nat (S w) -> zfill (S w) n = digits_of (S w) n.
Proof.
  revert n. induction w as [|w IH]; intros n Hn.
  - change (10 ^ Z.of_nat 1) with 10 in Hn. unfold zfill, str.
    replace (n <? 0) with false by (symmetry; apply Z.ltb_ge; lia).
    rewrite str_nat_small by lia. cbn [PyStr.length Nat.sub zeros digits_of append].
    now rewrite Z.mod_small by lia.
  - rewrite Nat2Z.inj_succ, Z.pow_succ_r in Hn by lia.
    change (digits_of (S (S w)) n)
      with (digits_of (S w) (n / 10) ++ String (digit_char (n mod 10)) "").
    unfold zfill, str.
    replace (n <? 0) with false by (symmetry; apply Z.ltb_ge; lia).
    destruct (Z_lt_ge_dec n 10) as [Hlt|Hge].
    + rewrite str_nat_small by lia.
      rewrite (Z.div_small n 10), (Z.mod_small n 10) by lia.
      rewrite digits_of_zero. reflexivity.
    + rewrite str_nat_step by lia. rewrite length_append. cbn [PyStr.length].
      replace (S (S w) - (PyStr.length (str_nat (n / 10)) + 1))%nat
        with (S w - PyStr.length (str_nat (n / 10)))%nat by lia.
      rewrite <- append_assoc. f_equal.
      specialize (IH (n / 10)). unfold zfill, str in IH.
      replace (n / 10 <? 0) with false in IH
        by (symmetry; apply Z.ltb_ge; apply Z.div_pos; lia).
      apply IH.
      split; [apply Z.div_pos; lia|apply Z.div_lt_upper_bound; lia].
Qed.

Lemma zfill_2 (c1 c2 : char) :
  ascii_digit c1 = true -> ascii_digit c2 = true ->
  zfill 2 (int_digits (String c1 (String c2 ""))) = String c1 (String c2 "").
Proof.
  intros H1 H2. digit_facts.
  cbn [int_digits int_digits_acc].
  rewrite (zfill_digits 1) by (change (10 ^ Z.of_nat 2) with 100; lia).
  cbn [digits_of append].
  replace ((10 * (10 * 0 + digit_val c1) + digit_val c2) mod 10) with (digit_val c2)
    by (Z.to_euclidean_division_equations; lia).
  replace ((10 * (10 * 0 + digit_val c1) + digit_val c2) / 10 mod 10)
    with (digit_val c1) by (Z.to_euclidean_division_equations; lia).
  now rewrite !digit_char_val by assumption.
Qed.

Lemma zfill_4 (c1 c2 c3 c4 : char) :
  ascii_digit c1 = true -> ascii_digit c2 = true ->
  ascii_digit c3 = true -> ascii_digit c4 = true ->
  zfill 4 (int_digits (String c1 (String c2 (String c3 (String c4 "")))))
  = String c1 (String c2 (String c3 (String c4 ""))).
Proof.
  intros H1 H2 H3 H4. digit_facts.
  cbn [int_digits int_digits_acc].
  set (n := 10 * (10 * (10 * (10 * 0 + digit_val c1) + digit_val c2)
                  + digit_val c3) + digit_val c4).
  rewrite (zfill_digits 3)
    by (change (10 ^ Z.of_nat 4) with 10000; unfold n; lia).
  cbn [digits_of append].
  replace (n mod 10) with (digit_val c4)
    by (unfold n; Z.to_euclidean_division_equations; lia).
  replace (n / 10 mod 10) with (digit_val c3)
    by (unfold n; Z.to_euclidean_division_equations; lia).
  replace (n / 10 / 10 mod 10) with (digit_val c2)
    by (unfold n; Z.to_euclidean_division_equations; lia).
  replace (n / 10 / 10 / 10 mod 10) with (digit_val c1)
    by (unfold n; Z.to_euclidean_division_equations; lia).
  now rewrite !digit_char_val by assumption.
Qed.

(** Writing the fields of 14 digits 0-9 back gives the 14 digits. *)
Lemma ymdhms_of_fields_of (s : string) :
  PyStr.length s = 14%nat -> all_chars ascii_digit s = true ->
  ymdhms_of (fields_of s) = s.
Proof.
  intros Hlen Hd. explicit_string s. clear Hlen. split_digits Hd. clear Hd.
  unfold ymdhms_of.
  cbn [fields_of slice slice_to slice_from Nat.sub year month day hour minute second].
  rewrite zfill_4, !zfill_2 by assumption. reflexivity.
Qed.

End StrptimeValid.
(** ** The order of paths and [sorted] *)

Section PathOrder.

Lemma compare_refl (p : Path) : Pathlib.compare p p = Eq.
Proof.
  induction p as [|a p IH]; simpl; [reflexivity|].
  now rewrite string_compare_refl.
Qed.

Lemma compare_eq (p q : Path) : Pathlib.compare p q = Eq -> p = q.
Proof.
  revert q. induction p as [|a p IH]; intros [|b q] H; simpl in H;
    try discriminate; [reflexivity|].
  destruct (PyStr.compare a b) eqn:E; try discriminate.
  apply string_compare_eq_iff in E. subst. f_equal. now apply IH.
Qed.

Lemma compare_antisym (p q : Path) :
  Pathlib.compare p q = CompOpp (Pathlib.compare q p).
Proof.
  revert q. induction p as [|a p IH]; intros [|b q]; simpl; try reflexivity.
  rewrite (string_compare_antisym a b).
  destruct (PyStr.compare b a); simpl; [apply IH|reflexivity|reflexivity].
Qed.

Lemma compare_trans (p q r : Path) :
  Pathlib.compare p q = Lt -> Pathlib.compare q r = Lt -> Pathlib.compare p r = Lt.
Proof.
  revert q r. induction p as [|a p IH]; intros [|b q] [|c r] H1 H2; simpl in *;
    try discriminate; try reflexivity.
  destruct (PyStr.compare a b) eqn:Eab; try discriminate;
    destruct (PyStr.compare b c) eqn:Ebc; try discriminate.
  - apply string_compare_eq_iff in Eab, Ebc. subst.
    rewrite string_compare_refl. eapply IH; eassumption.
  - apply string_compare_eq_iff in Eab. subst. now rewrite Ebc.
  - apply string_compare_eq_iff in Ebc. subst. now rewrite Eab.
  - now rewrite (string_compare_trans a b c).
Qed.

Lemma ltb_le (p q : Path) : ltb p q = true -> path_le p q.
Proof.
  unfold path_le, ltb. rewrite (compare_antisym q p).
  destruct (Pathlib.compare p q); simpl; congruence.
Qed.

Lemma le_cases (p q : Path) : path_le p q -> p = q \/ Pathlib.compare p q = Lt.
Proof.
  unfold path_le, ltb. rewrite (compare_antisym q p).
  destruct (Pathlib.compare p q) eqn:E; simpl; try discriminate; intros _.
  - left. now apply compare_eq.
  - now right.
Qed.

Lemma lt_le (p q : Path) : Pathlib.compare p q = Lt -> path_le p q.
Proof. intros H. apply ltb_le. unfold ltb. now rewrite H. Qed.

Lemma le_refl (p : Path) : path_le p p.
Proof. unfold path_le, ltb. now rewrite compare_refl. Qed.

Lemma le_trans (p q r : Path) : path_le p q -> path_le q r -> path_le p r.
Proof.
  intros H1 H2. destruct (le_cases _ _ H1) as [-> | L1]; [assumption|].
  destruct (le_cases _ _ H2) as [<- | L2]; [assumption|].
  apply lt_le. eapply compare_trans; eassumption.
Qed.

Lemma le_antisym (p q : Path) : path_le p q -> path_le q p -> p = q.
Proof.
  intros H1 H2. destruct (le_cases _ _ H1) as [-> | L1]; [reflexivity|].
  unfold path_le, ltb in H2. now rewrite L1 in H2.
Qed.

Lemma insert_perm (x : Path) (l : list Path) : Permutation (x :: l) (insert x l).
Proof.
  induction l as [|y l IH]; simpl; [reflexivity|].
  destruct (ltb y x); [|reflexivity].
  rewrite perm_swap. now constructor.
Qed.

Lemma sorted_perm (l : list Path) : Permutation l (sorted l).
Proof.
  induction l as [|x l IH]; simpl; [constructor|].
  rewrite <- insert_perm. now constructor.
Qed.

Lemma insert_sorted (x : Path) (l : list Path) :
  StronglySorted path_le l -> StronglySorted path_le (insert x l).
Proof.
  induction 1 as [|y l Hs IH Hy]; simpl.
  - repeat constructor.
  - destruct (ltb y x) eqn:E.
    + constructor; [assumption|].
      rewrite Forall_forall in *. intros z Hz.
      apply (Permutation_in _ (Permutation_sym (insert_perm x l))) in Hz.
      destruct Hz as [<- | Hz]; [now apply ltb_le|now apply Hy].
    + constructor; [now constructor|].
      constructor; [exact E|].
      rewrite Forall_forall in *. intros z Hz.
      apply (le_trans x y z); [exact E|now apply Hy].
Qed.

Lemma sorted_sorted (l : list Path) : StronglySorted path_le (sorted l).
Proof.
  induction l as [|x l IH]; simpl; [constructor|now apply insert_sorted].
Qed.

Lemma insert_head (x : Path) (l : list Path) :
  Forall (path_le x) l -> insert x l = x :: l.
Proof.
  destruct l as [|y l]; [reflexivity|]. intros H. inversion H as [|? ? Hy _]; subst.
  simpl. unfold path_le in Hy. now rewrite Hy.
Qed.

Lemma filter_insert_false (f : Path -> bool) (x : Path) (l : list Path) :
  f x = false -> filter f (insert x l) = filter f l.
Proof.
  intros Hx. induction l as [|y l IH]; simpl; [now rewrite Hx|].
  destruct (ltb y x); simpl; [now rewrite IH|now rewrite Hx].
Qed.

Lemma filter_insert_true (f : Path -> bool) (x : Path) (l : list Path) :
  StronglySorted path_le l -> f x = true ->
  filter f (insert x l) = insert x (filter f l).
Proof.
  intros Hs Hx. induction Hs as [|y l Hs IH Hy]; simpl; [now rewrite Hx|].
  destruct (ltb y x) eqn:E; simpl.
  - destruct (f y); simpl; rewrite ?E, IH; reflexivity.
  - rewrite Hx. symmetry. apply insert_head.
    assert (Hall : Forall (path_le x) (y :: l)).
    { constructor; [exact E|]. rewrite Forall_forall in *. intros z Hz.
      apply (le_trans x y z); [exact E|now apply Hy]. }
    rewrite Forall_forall in *. intros z Hz.
    apply Hall. change (In z (filter f (y :: l))) in Hz.
    now apply filter_In in Hz as [? _].
Qed.

(** Sorting and filtering commute. *)
Lemma sorted_filter (f : Path -> bool) (l : list Path) :
  sorted (filter f l) = filter f (sorted l).
Proof.
  induction l as [|x l IH]; simpl; [reflexivity|].
  destruct (f x) eqn:Hx; simpl.
  - rewrite IH. symmetry. apply filter_insert_true; [apply sorted_sorted|assumption].
  - rewrite IH. symmetry. now apply filter_insert_false.
Qed.

Lemma compare_joinpath (d : Path) (a b : string) :
  Pathlib.compare (joinpath d a) (joinpath d b) = PyStr.compare a b.
Proof.
  unfold joinpath. induction d as [|x d IH]; simpl.
  - destruct (PyStr.compare a b); reflexivity.
  - now rewrite string_compare_refl.
Qed.

Lemma name_joinpath (d : Path) (a : string) : name (joinpath d a) = a.
Proof. unfold name, joinpath. apply last_last. Qed.

End PathOrder.

(** ** The pattern *)

Section PatFacts.

Lemma take_digits_spec (n : nat) (s g r : string) :
  take_digits n s = Some (g, r) ->
  s = g ++ r /\ PyStr.length g = n /\ all_chars is_digit g = true.
Proof.
  revert s g r. induction n as [|n IH]; intros s g r H; simpl in H.
  - injection H as <- <-. auto.
  - destruct s as [|c s]; [discriminate|].
    destruct (is_digit c) eqn:Hc; [|discriminate].
    destruct (take_digits n s) as [[g' r']|] eqn:E; [|discriminate].
    injection H as <- <-. apply IH in E as (-> & <- & Hg).
    simpl. now rewrite Hc, Hg.
Qed.

Lemma dot_plus_ts_spec (s g : string) :
  dot_plus_ts s = Some g ->
  g <> "" /\ (s = g ++ ".ts" \/ s = g ++ ".ts" ++ nl).
Proof.
  revert g. induction s as [|c s IH]; intros g H; simpl in H; [discriminate|].
  destruct (c =? newline); [discriminate|].
  destruct (dot_plus_ts s) as [g'|] eqn:E.
  - injection H as <-. destruct (IH g' eq_refl) as [_ [-> | ->]].
    + split; [discriminate|now left].
    + split; [discriminate|now right].
  - destruct (dot_ts_end s) eqn:Ed; [|discriminate]. injection H as <-.
    split; [discriminate|]. unfold dot_ts_end in Ed.
    apply orb_prop in Ed as [Ed | Ed]; apply string_eqb_eq in Ed; subst;
      [now left|now right].
Qed.

Lemma pat_match_spec (s ymdhms rest : string) :
  pat_match s = Some (ymdhms, rest) ->
  PyStr.length ymdhms = 14%nat /\ all_chars is_digit ymdhms = true
  /\ rest <> ""
  /\ (s = ymdhms ++ "_" ++ rest ++ ".ts" \/ s = ymdhms ++ "_" ++ rest ++ ".ts" ++ nl).
Proof.
  unfold pat_match. intros H.
  destruct (take_digits 14 s) as [[g r]|] eqn:E; [|discriminate].
  destruct r as [|c r]; [discriminate|].
  destruct (Z.eqb_spec c "_"%char) as [-> | _]; [|discriminate].
  destruct (dot_plus_ts r) as [g2|] eqn:E2; [|discriminate].
  injection H as <- <-.
  apply take_digits_spec in E as (-> & Hl & Hd).
  apply dot_plus_ts_spec in E2 as (Hne & Hs).
  repeat split; try assumption.
  destruct Hs as [-> | ->]; [left|right]; reflexivity.
Qed.

(** The digits in front of the first character that is not one. *)
Lemma digits_prefix_unique (d1 d2 x y : string) (c1 c2 : char) :
  all_chars is_digit d1 = true -> all_chars is_digit d2 = true ->
  is_digit c1 = false -> is_digit c2 = false ->
  d1 ++ String c1 x = d2 ++ String c2 y -> d1 = d2.
Proof.
  revert d2. induction d1 as [|a d1 IH]; intros [|b d2] H1 H2 N1 N2 E;
    simpl in *; try reflexivity.
  - injection E as -> _. apply andb_prop in H2 as [H2 _]. congruence.
  - injection E as -> _. apply andb_prop in H1 as [H1 _]. congruence.
  - injection E as -> E. apply andb_prop in H1 as [_ H1].
    apply andb_prop in H2 as [_ H2]. f_equal. now apply IH.
Qed.

Lemma str_length_14 (z : Z) :
  PyStr.length (str z) = 14%nat -> all_chars is_digit (str z) = true ->
  10 ^ 13 <= z < 10 ^ 14.
Proof.
  unfold str. destruct (Z.ltb_spec z 0) as [Hneg | Hpos].
  - simpl. intros _ H. discriminate.
  - intros Hl _. destruct (Z.eq_dec z 0) as [-> | Hz]; [discriminate|].
    pose proof (str_nat_size z ltac:(lia)) as Hs. rewrite Hl in Hs.
    exact Hs.
Qed.

(** A new name matches [pat] only when the timestamp has 14 digits. *)
Lemma pat_match_new_name (z : Z) (rest : string) :
  z < 10 ^ 13 \/ 10 ^ 14 <= z ->
  pat_match (new_name_of (new_base_of z rest)) = None.
Proof.
  intros Hz. unfold pat_match, new_name_of, new_base_of.
  destruct (take_digits 14 _) as [[g r]|] eqn:E; [|reflexivity].
  destruct r as [|c r]; [reflexivity|].
  destruct (Z.eqb_spec c "_"%char) as [-> | _]; [|reflexivity].
  exfalso. apply take_digits_spec in E as (E & Hl & Hd).
  rewrite append_assoc in E. cbn [append] in E.
  destruct (Z.ltb_spec z 0) as [Hneg | Hpos].
  - unfold str in E. replace (z <? 0) with true in E by (symmetry; apply Z.ltb_lt; lia).
    destruct g as [|a g]; [discriminate|]. cbn in E. injection E as <- _.
    cbn [all_chars] in Hd. apply andb_prop in Hd as [Hd _].
    apply digit_ge_48 in Hd. lia.
  - assert (Hs : all_chars is_digit (str z) = true).
    { unfold str. replace (z <? 0) with false by (symmetry; apply Z.ltb_ge; lia).
      now apply str_nat_digits. }
    apply digits_prefix_unique in E; try assumption; try reflexivity.
    rewrite <- E in Hl. apply str_length_14 in Hl; [lia|assumption].
Qed.

Lemma before_underscore_digits (d r : string) :
  all_chars (fun c => negb (c =? "_"%char)) d = true ->
  before_underscore (d ++ String "_" r) = d.
Proof.
  induction d as [|c d IH]; simpl; [reflexivity|].
  intros H. apply andb_prop in H as [Hc Hd].
  destruct (c =? "_"%char); [discriminate|]. now rewrite IH.
Qed.

Lemma digit_not_underscore (c : char) :
  is_digit c = true -> negb (c =? "_"%char) = true.
Proof.
  intros H. destruct (Z.eqb_spec c "_"%char) as [-> | _]; [|reflexivity].
  vm_compute in H. discriminate.
Qed.

(** The timestamp reads back from the new base name. *)
Lemma unix_ms_of_base_new_base (z : Z) (rest : string) :
  unix_ms_of_base (new_base_of z rest) = Some z.
Proof.
  unfold unix_ms_of_base, new_base_of. cbn [append].
  rewrite before_underscore_digits; [apply int_of_str_str|].
  unfold str. destruct (Z.ltb_spec z 0).
  - simpl. apply (all_chars_impl is_digit); [exact digit_not_underscore|].
    apply str_nat_digits. lia.
  - apply (all_chars_impl is_digit); [exact digit_not_underscore|].
    apply str_nat_digits. lia.
Qed.

End PatFacts.

(** ** Names, suffixes and stems *)

Section NameFacts.

Lemma slice_split (i : nat) (s : string) : slice_to i s ++ slice_from i s = s.
Proof.
  revert s. induction i as [|i IH]; intros [|c s]; cbn [slice_to slice_from append];
    try reflexivity.
  now rewrite IH.
Qed.

(** A path with the suffix [.ts] is named by its stem and [.ts]. *)
Lemma suffix_ts_name (p : Path) : suffix p = ".ts" -> name p = stem p ++ ".ts".
Proof.
  unfold suffix, stem. set (n := name p). set (i := rfind "." n).
  destruct ((0 <? i) && (i <? len n - 1)) eqn:C; [|discriminate].
  intros <-. symmetry. apply slice_split.
Qed.

Lemma joinpath_inj (d : Path) (a b : string) : joinpath d a = joinpath d b -> a = b.
Proof.
  intros H. apply (f_equal name) in H. now rewrite !name_joinpath in H.
Qed.

Lemma in_files (entries : list string) (p : Path) :
  In p (files entries) <->
  exists n, In n entries /\ p = joinpath MIG_DIR n /\ suffix p = ".ts".
Proof.
  unfold files, iterdir. split.
  - intros H. apply (Permutation_in _ (Permutation_sym (sorted_perm _))) in H.
    apply filter_In in H as [H Hs]. apply in_map_iff in H as (n & <- & Hn).
    apply string_eqb_eq in Hs. eauto.
  - intros (n & Hn & -> & Hs). apply (Permutation_in _ (sorted_perm _)).
    apply filter_In. split; [now apply in_map|now apply string_eqb_eq].
Qed.

End NameFacts.

(** ** The loop and the report *)

Section ScriptFacts.

Lemma loop_collect (ps : list Path) (rs : list rename_entry) (ss : list sql_entry) :
  loop ps rs ss =
  match collect ps with
  | inl e => inl e
  | inr es => inr ((rs ++ map fst es)%list, (ss ++ map snd es)%list)
  end.
Proof.
  revert rs ss. induction ps as [|p ps IH]; intros rs ss; cbn [loop collect].
  - cbn [map]. now rewrite !app_nil_r.
  - unfold body. destruct (pat_match (name p)) as [[ymdhms rest]|].
    + destruct (strptime ymdhms) as [e|dt]; [reflexivity|]. cbv zeta.
      destruct (_ =? name p)%string.
      * rewrite IH. destruct (collect ps); reflexivity.
      * rewrite IH. destruct (collect ps) as [e|es]; [reflexivity|].
        cbn [map fst snd]. now rewrite <- !app_assoc.
    + rewrite IH. destruct (collect ps); reflexivity.
Qed.

Lemma plan_collect (entries : list string) :
  plan entries =
  match collect (files entries) with
  | inl e => inl e
  | inr es => inr (map fst es, map snd es)
  end.
Proof. unfold plan. now rewrite loop_collect. Qed.

Lemma for_each_print {A} (f : A -> string) (l : list A) (out : list string) :
  for_each l (fun e => print (f e)) out = (inr tt, (out ++ map f l)%list).
Proof.
  revert out. induction l as [|x l IH]; intros out; simpl.
  - unfold ret. now rewrite app_nil_r.
  - unfold bind, print. rewrite IH. now rewrite <- app_assoc.
Qed.

(** A run prints nothing when the loop raises, and the whole report when
    it does not. *)
Lemma run_plan (entries : list string) :
  run entries =
  match plan entries with
  | inl e => (inl e, [])
  | inr (rn, sq) => (inr tt, report rn sq)
  end.
Proof.
  unfold run, script, plan, bind, lift.
  destruct (loop (files entries) [] []) as [e|[rn sq]]; [reflexivity|].
  unfold print at 1. cbn [fst snd].
  rewrite for_each_print. unfold print at 1. rewrite for_each_print.
  unfold report. cbn [app]. now rewrite <- !app_assoc.
Qed.

Lemma collect_inl (ps : list Path) (p : Path) (e : exn) :
  In p ps -> body p = inl e -> exists e', collect ps = inl e'.
Proof.
  induction ps as [|q ps IH]; intros Hin Hb; [contradiction|].
  destruct Hin as [-> | Hin]; simpl.
  - rewrite Hb. eauto.
  - destruct (body q) as [e0|o]; [eauto|].
    destruct (IH Hin Hb) as [e' ->]. eauto.
Qed.

Lemma collect_inr (ps : list Path) es (p : Path) :
  collect ps = inr es -> In p ps -> exists o, body p = inr o.
Proof.
  revert es. induction ps as [|q ps IH]; intros es H Hin; [contradiction|].
  destruct Hin as [-> | Hin]; simpl in H.
  - destruct (body p) as [e|o]; [discriminate|eauto].
  - destruct (body q) as [e|o]; [discriminate|].
    destruct (collect ps) as [e|es']; [discriminate|]. eauto.
Qed.

(** An entry of the plan comes from a path of the scan. *)
Lemma collect_in (ps : list Path) es x :
  collect ps = inr es -> In x es -> exists p, In p ps /\ body p = inr (Some x).
Proof.
  revert es. induction ps as [|q ps IH]; intros es H Hx; simpl in H.
  - injection H as <-. contradiction.
  - destruct (body q) as [e|o] eqn:Hb; [discriminate|].
    destruct (collect ps) as [e|es'] eqn:Hc; [discriminate|].
    injection H as <-. destruct o as [y|].
    + destruct Hx as [-> | Hx]; [exists q; simpl; auto|].
      destruct (IH es' eq_refl Hx) as (p & Hp & Hbp). exists p. simpl. auto.
    + destruct (IH es' eq_refl Hx) as (p & Hp & Hbp). exists p. simpl. auto.
Qed.

(** The paths that get an entry, in the order of the scan. *)
Lemma collect_filter (ps : list Path) es :
  collect ps = inr es ->
  map (fun x => fst (fst x)) es
  = filter (fun p => match body p with inr (Some _) => true | _ => false end) ps.
Proof.
  revert es. induction ps as [|q ps IH]; intros es H; simpl in H.
  - injection H as <-. reflexivity.
  - simpl. destruct (body q) as [e|o] eqn:Hb; [discriminate|].
    destruct (collect ps) as [e|es'] eqn:Hc; [discriminate|].
    injection H as <-. destruct o as [[[p1 p2] s]|]; simpl.
    + rewrite (IH es' eq_refl). f_equal.
      unfold body in Hb. destruct (pat_match (name q)) as [[y r]|]; [|discriminate].
      destruct (strptime y); [discriminate|]. cbv zeta in Hb.
      destruct (_ =? name q)%string; [discriminate|]. now injection Hb as <- _ _.
    + apply (IH es' eq_refl).
Qed.

Lemma collect_no_match (ps : list Path) :
  Forall (fun p => pat_match (name p) = None) ps -> collect ps = inr [].
Proof.
  induction 1 as [|p ps Hp _ IH]; simpl; [reflexivity|].
  unfold body. now rewrite Hp, IH.
Qed.

(** What an entry looks like. *)
Lemma body_some (p : Path) (x : rename_entry * sql_entry) :
  body p = inr (Some x) ->
  exists ymdhms rest dt,
    pat_match (name p) = Some (ymdhms, rest) /\ strptime ymdhms = inr dt
    /\ new_name_of (new_base_of (unix_ms_of dt) rest) <> name p
    /\ x = ((p, joinpath MIG_DIR (new_name_of (new_base_of (unix_ms_of dt) rest))),
            (stem p, new_base_of (unix_ms_of dt) rest)).
Proof.
  unfold body. destruct (pat_match (name p)) as [[y r]|] eqn:Ep; [|discriminate].
  destruct (strptime y) as [e|dt] eqn:Es; [discriminate|]. cbv zeta.
  destruct (string_eqb_spec (new_name_of (new_base_of (unix_ms_of dt) r)) (name p))
    as [E|N]; [discriminate|].
  intros H. injection H as <-. exists y, r, dt.
  repeat split; try reflexivity; assumption.
Qed.

End ScriptFacts.

(** ** Lists of entries *)

Section EntryFacts.

Lemma collect_complete (ps : list Path) es (p : Path) x :
  collect ps = inr es -> In p ps -> body p = inr (Some x) -> In x es.
Proof.
  revert es. induction ps as [|q ps IH]; intros es H Hin Hb; [contradiction|].
  cbn [collect] in H.
  destruct (body q) as [e|o] eqn:Hq; [discriminate|].
  destruct (collect ps) as [e|es'] eqn:Hc; [discriminate|].
  injection H as <-. destruct Hin as [-> | Hin].
  - rewrite Hb in Hq. injection Hq as <-. now left.
  - specialize (IH es' eq_refl Hin Hb). destruct o; [now right|assumption].
Qed.

(** Paths that the loop passes over can be left out. *)
Lemma collect_skip (g : Path -> bool) (ps : list Path) :
  (forall p, In p ps -> g p = false -> body p = inr None) ->
  collect (filter g ps) = collect ps.
Proof.
  induction ps as [|q ps IH]; intros H; [reflexivity|].
  cbn [filter]. destruct (g q) eqn:Hg.
  - cbn [collect]. rewrite IH; [reflexivity|]. intros p Hp. apply H. now right.
  - cbn [collect]. rewrite (H q (or_introl eq_refl) Hg).
    rewrite IH by (intros p Hp; apply H; now right).
    destruct (collect ps); reflexivity.
Qed.

Lemma filter_filter_comm {A} (f g : A -> bool) (l : list A) :
  filter f (filter g l) = filter g (filter f l).
Proof.
  induction l as [|x l IH]; [reflexivity|]. cbn [filter].
  destruct (f x) eqn:Hf, (g x) eqn:Hg; cbn [filter];
    rewrite ?Hf, ?Hg, IH; reflexivity.
Qed.

Lemma iterdir_remove (d : Path) (n : string) (entries : list string) :
  iterdir d (remove string_dec n entries)
  = filter (fun p => negb (name p =? n)%string) (iterdir d entries).
Proof.
  unfold iterdir. induction entries as [|a l IH]; [reflexivity|].
  cbn [remove map filter]. rewrite name_joinpath.
  destruct (string_dec n a) as [<- | Hne].
  - rewrite string_eqb_refl. exact IH.
  - destruct (string_eqb_spec a n) as [-> | _]; [contradiction|].
    cbn [negb map]. now rewrite IH.
Qed.

Lemma files_remove (n : string) (entries : list string) :
  files (remove string_dec n entries)
  = filter (fun p => negb (name p =? n)%string) (files entries).
Proof.
  unfold files. now rewrite iterdir_remove, filter_filter_comm, sorted_filter.
Qed.

Lemma StronglySorted_filter {A} (R : A -> A -> Prop) (f : A -> bool) (l : list A) :
  StronglySorted R l -> StronglySorted R (filter f l).
Proof.
  induction 1 as [|x l Hs IH Hx]; cbn [filter]; [constructor|].
  destruct (f x); [|assumption]. constructor; [assumption|].
  rewrite Forall_forall in *. intros y Hy. apply filter_In in Hy as [Hy _]. auto.
Qed.

Lemma string_leb_compare (a b : string) :
  PyStr.leb a b = true <-> PyStr.compare b a <> Lt.
Proof.
  unfold PyStr.leb. rewrite (string_compare_antisym b a).
  destruct (PyStr.compare a b); simpl; split; congruence.
Qed.

(** Paths of one directory in the order of [sorted] have their names in
    the order of strings. *)
Lemma names_sorted (d : Path) (l : list Path) :
  Forall (fun p => exists n, p = joinpath d n) l ->
  StronglySorted path_le l ->
  StronglySorted (fun a b => PyStr.leb a b = true) (map name l).
Proof.
  intros Hd Hs. induction Hs as [|p l Hs IH Hp]; cbn [map]; [constructor|].
  inversion Hd as [|? ? [n ->] Hd']; subst.
  constructor; [now apply IH|].
  rewrite Forall_forall in *. intros b Hb.
  apply in_map_iff in Hb as (q & <- & Hq).
  destruct (Hd' q Hq) as [m ->]. specialize (Hp _ Hq).
  rewrite !name_joinpath. apply string_leb_compare.
  unfold path_le, ltb in Hp. rewrite compare_joinpath in Hp.
  destruct (PyStr.compare m n); congruence.
Qed.

Lemma files_in_dir (entries : list string) :
  Forall (fun p => exists n, p = joinpath MIG_DIR n) (files entries).
Proof.
  rewrite Forall_forall. intros p Hp.
  apply in_files in Hp as (n & _ & -> & _). eauto.
Qed.

Lemma files_path (entries : list string) (p : Path) :
  In p (files entries) -> p = joinpath MIG_DIR (stem p ++ ".ts").
Proof.
  intros Hp. apply in_files in Hp as (n & _ & E & Hs).
  rewrite <- (suffix_ts_name p Hs). rewrite E at 1. now rewrite E, name_joinpath.
Qed.

End EntryFacts.

(** * The claims *)

(** C1, as the specification states it, fails.  The pattern and the date
    parser take the decimal digits of every script, and the timestamp is
    written back with the digits 0-9: the name whose year is written with
    the fullwidth digits U+FF12 U+FF10 U+FF12 U+FF13, followed by
    [0615143000_x.ts], matches, its 14 digits are the valid date
    2023-06-15T14:30:00, the run renames it to [1686839400000_x.ts], and
    the way back from that name gives [20230615143000], which is not the
    original 14-character string. *)
Lemma C1_round_trip_counterexample :
  pat_match (String 65298 (String 65296 (String 65298 (String 65299 "0615143000_x.ts"))))
  = Some ((String 65298 (String 65296 (String 65298 (String 65299 "0615143000")))), "x")
  /\ valid_ymdhms (String 65298 (String 65296 (String 65298 (String 65299 "0615143000"))))
  /\ strptime (String 65298 (String 65296 (String 65298 (String 65299 "0615143000"))))
     = inr (mk_datetime 2023 6 15 14 30 0 0)
  /\ plan [(String 65298 (String 65296 (String 65298 (String 65299 "0615143000_x.ts"))))]
     = inr ([(joinpath MIG_DIR (String 65298 (String 65296 (String 65298 (String 65299 "0615143000_x.ts")))),
              joinpath MIG_DIR "1686839400000_x.ts")],
            [((String 65298 (String 65296 (String 65298 (String 65299 "0615143000_x")))),
              "1686839400000_x")])
  /\ ymdhms_of_base (new_base_of (unix_ms_of (mk_datetime 2023 6 15 14 30 0 0)) "x")
     = Some "20230615143000"
  /\ "20230615143000"
     <> (String 65298 (String 65296 (String 65298 (String 65299 "0615143000")))).
Proof.
  split; [vm_compute; reflexivity|].
  split; [unfold valid_ymdhms, valid_fields; vm_compute; intuition discriminate|].
  split; [vm_compute; reflexivity|].
  split; [vm_compute; reflexivity|].
  split; [vm_compute; reflexivity|].
  discriminate.
Qed.

(** C1, amended.  For every file name that matches the pattern and whose 14
    digits are digits 0-9 and form a valid UTC calendar date, the date is
    accepted, and the Unix-millisecond timestamp read back from the new base
    name, converted to UTC calendar fields and written as 14 digits, is the
    original 14-digit string. *)
Theorem C1_timestamp_round_trip (file_name ymdhms rest : string) :
  pat_match file_name = Some (ymdhms, rest) ->
  all_chars ascii_digit ymdhms = true ->
  valid_ymdhms ymdhms ->
  exists dt,
    strptime ymdhms = inr dt
    /\ ymdhms_of_base (new_base_of (unix_ms_of dt) rest) = Some ymdhms.
Proof.
  intros Hp Ha Hv. apply pat_match_spec in Hp as (Hl & _ & _).
  exists (fields_of ymdhms). split; [now apply strptime_valid|].
  unfold ymdhms_of_base. rewrite unix_ms_of_base_new_base.
  rewrite utc_of_unix_ms_of by (assumption || reflexivity).
  now rewrite ymdhms_of_fields_of.
Qed.

Lemma C1_timestamp_round_trip_witness :
  pat_match "20230615143000_create_orders.ts"
  = Some ("20230615143000", "create_orders")
  /\ all_chars ascii_digit "20230615143000" = true
  /\ valid_ymdhms "20230615143000"
  /\ exists dt,
       strptime "20230615143000" = inr dt
       /\ ymdhms_of_base (new_base_of (unix_ms_of dt) "create_orders")
          = Some "20230615143000".
Proof.
  assert (Hv : valid_ymdhms "20230615143000")
    by (unfold valid_ymdhms, valid_fields; vm_compute; intuition discriminate).
  split; [reflexivity|]. split; [reflexivity|]. split; [exact Hv|].
  apply (C1_timestamp_round_trip "20230615143000_create_orders.ts");
    [reflexivity|reflexivity|exact Hv].
Defined.



(** C2.  The scenario of the file [20230615143000_create_orders.ts]: alone
    in the directory it gives the two headers with exactly the one [mv] line
    and the one SQL line; in any directory whose run ends well, the run
    prints that [mv] line and that SQL line. *)
Theorem C2_scenario_create_orders :
  run ["20230615143000_create_orders.ts"]
  = (inr tt,
     ["# mv commands:";
      "mv src/migrations/20230615143000_create_orders.ts src/migrations/1686839400000_create_orders.ts";
      sql_header;
      "update inventory_schema_migrations set name='1686839400000_create_orders' where name='20230615143000_create_orders';"])
  /\ forall (entries : list string) (out : list string),
       In "20230615143000_create_orders.ts" entries ->
       run entries = (inr tt, out) ->
       In "mv src/migrations/20230615143000_create_orders.ts src/migrations/1686839400000_create_orders.ts" out
       /\ In "update inventory_schema_migrations set name='1686839400000_create_orders' where name='20230615143000_create_orders';" out.
Proof.
  split; [vm_compute; reflexivity|].
  intros entries out Hin Hrun. rewrite run_plan, plan_collect in Hrun.
  destruct (collect (files entries)) as [e|es] eqn:Hc; [discriminate|].
  injection Hrun as <-.
  set (p := joinpath MIG_DIR "20230615143000_create_orders.ts").
  set (x := ((p, joinpath MIG_DIR "1686839400000_create_orders.ts"),
             ("20230615143000_create_orders", "1686839400000_create_orders"))
            : rename_entry * sql_entry).
  assert (Hx : In x es).
  { apply (collect_complete (files entries) es p x Hc).
    - apply in_files. exists "20230615143000_create_orders.ts".
      split; [assumption|]. split; reflexivity.
    - vm_compute. reflexivity. }
  unfold report. split.
  - right. apply in_or_app. left.
    change (In (mv_line (fst x)) (map mv_line (map fst es))).
    now apply in_map, in_map.
  - right. apply in_or_app. right. right.
    change (In (sql_line (snd x)) (map sql_line (map snd es))).
    now apply in_map, in_map.
Qed.

Lemma C2_scenario_create_orders_witness :
  In "mv src/migrations/20230615143000_create_orders.ts src/migrations/1686839400000_create_orders.ts"
     (snd (run ["notes.ts"; "20230615143000_create_orders.ts"]))
  /\ In "update inventory_schema_migrations set name='1686839400000_create_orders' where name='20230615143000_create_orders';"
        (snd (run ["notes.ts"; "20230615143000_create_orders.ts"])).
Proof.
  apply (proj2 C2_scenario_create_orders
           ["notes.ts"; "20230615143000_create_orders.ts"]).
  - simpl. auto.
  - vm_compute. reflexivity.
Defined.

(** A scanned file with a matched name whose date [strptime] refuses ends
    the run with the exception and nothing printed. *)
Lemma run_raises (entries : list string) (n ymdhms rest : string) (e : exn) :
  In n entries -> suffix (joinpath MIG_DIR n) = ".ts" ->
  pat_match n = Some (ymdhms, rest) -> strptime ymdhms = inl e ->
  exists e', run entries = (inl e', []).
Proof.
  intros Hin Hs Hp He. rewrite run_plan, plan_collect.
  destruct (collect_inl (files entries) (joinpath MIG_DIR n) e) as [e' ->].
  - apply in_files. eauto.
  - unfold body. now rewrite name_joinpath, Hp, He.
  - eauto.
Qed.

(** C4.  A directory with a scanned file whose name matches the pattern but
    whose 14 digits are not a valid calendar date: the run raises the
    [ValueError] of the date parser, and prints no report. *)
Theorem C4_invalid_date_raises (entries : list string) (n ymdhms rest : string) :
  In n entries ->
  suffix (joinpath MIG_DIR n) = ".ts" ->
  pat_match n = Some (ymdhms, rest) ->
  ~ valid_ymdhms ymdhms ->
  exists msg, run entries = (inl (ValueError msg), []).
Proof.
  intros Hin Hs Hp Hv.
  pose proof (pat_match_spec _ _ _ Hp) as (Hl & Hd & _).
  destruct (strptime_invalid ymdhms Hl Hd Hv) as [e He].
  destruct (run_raises entries n ymdhms rest e Hin Hs Hp He) as [[msg] Hr].
  now exists msg.
Qed.

Lemma C4_invalid_date_raises_witness :
  ~ valid_ymdhms "20231315143000"
  /\ exists msg,
       run ["20230101000000_a.ts"; "20231315143000_create_orders.ts"]
       = (inl (ValueError msg), []).
Proof.
  assert (Hv : ~ valid_ymdhms "20231315143000").
  { unfold valid_ymdhms, valid_fields. vm_compute. intros (_ & (_ & H) & _).
    now apply H. }
  split; [exact Hv|].
  apply (C4_invalid_date_raises _ "20231315143000_create_orders.ts"
           "20231315143000" "create_orders");
    [simpl; auto | reflexivity | reflexivity | exact Hv].
Defined.

(** C10.  Nothing is printed before the loop is over: a run that ends with
    an exception has printed nothing, and a scanned file whose date the
    parser refuses makes the run end so. *)
Theorem C10_no_partial_report (entries : list string) (n ymdhms rest : string)
        (e : exn) :
  In n entries ->
  suffix (joinpath MIG_DIR n) = ".ts" ->
  pat_match n = Some (ymdhms, rest) ->
  strptime ymdhms = inl e ->
  (exists e', fst (run entries) = inl e')
  /\ snd (run entries) = []
  /\ forall entries' e' out, run entries' = (inl e', out) -> out = [].
Proof.
  intros Hin Hs Hp He.
  destruct (run_raises entries n ymdhms rest e Hin Hs Hp He) as [e' Hr].
  rewrite Hr. split; [now exists e'|]. split; [reflexivity|].
  intros entries' e0 out H. rewrite run_plan in H.
  destruct (plan entries') as [e1|[rn sq]]; [|discriminate].
  now injection H as _ <-.
Qed.

Lemma C10_no_partial_report_witness :
  (exists e', fst (run ["20230101000000_a.ts"; "20230230000000_b.ts"]) = inl e')
  /\ snd (run ["20230101000000_a.ts"; "20230230000000_b.ts"]) = []
  /\ forall entries' e' out, run entries' = (inl e', out) -> out = [].
Proof.
  apply (C10_no_partial_report _ "20230230000000_b.ts" "20230230000000" "b"
           (ValueError "date field out of range"));
    [simpl; auto | reflexivity | reflexivity | reflexivity].
Defined.

(** C5.  A file whose name does not match the pattern changes nothing: the
    run is the run of the directory without it, and no entry of either list
    is for it. *)
Theorem C5_unmatched_file_skipped (entries : list string) (n : string) :
  pat_match n = None ->
  run (remove string_dec n entries) = run entries
  /\ forall rn sq,
       plan entries = inr (rn, sq) ->
       ~ In (joinpath MIG_DIR n) (map fst rn)
       /\ ~ In n (map (fun e : sql_entry => fst e ++ ".ts") sq).
Proof.
  intros Hn. split.
  - rewrite !run_plan, !plan_collect, files_remove, collect_skip; [reflexivity|].
    intros p _ Hg. apply negb_false_iff, string_eqb_eq in Hg.
    unfold body. now rewrite Hg, Hn.
  - intros rn sq Hplan. rewrite plan_collect in Hplan.
    destruct (collect (files entries)) as [e|es] eqn:Hc; [discriminate|].
    injection Hplan as <- <-.
    assert (Hno : forall x, In x es -> name (fst (fst x)) <> n
                                       /\ fst (snd x) ++ ".ts" <> n).
    { intros x Hx. destruct (collect_in _ _ _ Hc Hx) as (p & Hp & Hb).
      destruct (body_some p x Hb) as (y & r & dt & Hm & _ & _ & ->).
      cbn [fst snd]. rewrite <- (suffix_ts_name p).
      - split; intros E; rewrite E in Hm; congruence.
      - now apply in_files in Hp as (? & _ & _ & ?). }
    split; intros H.
    + apply in_map_iff in H as (r & E & Hr). apply in_map_iff in Hr as (x & <- & Hx).
      apply (proj1 (Hno x Hx)). now rewrite E, name_joinpath.
    + apply in_map_iff in H as (s & E & Hs). apply in_map_iff in Hs as (x & <- & Hx).
      now apply (proj2 (Hno x Hx)).
Qed.

Lemma C5_unmatched_file_skipped_witness :
  pat_match "notes.ts" = None
  /\ run (remove string_dec "notes.ts" ["notes.ts"; "20230615143000_create_orders.ts"])
     = run ["notes.ts"; "20230615143000_create_orders.ts"].
Proof.
  split; [reflexivity|].
  apply (C5_unmatched_file_skipped
           ["notes.ts"; "20230615143000_create_orders.ts"] "notes.ts").
  reflexivity.
Defined.

(** C6.  Every rename entry has a new path that differs from the original
    path, and a matched file whose new name is its own name gets no
    rename entry and no SQL entry. *)
Theorem C6_no_identity_rename (entries : list string)
        (rn : list rename_entry) (sq : list sql_entry) :
  plan entries = inr (rn, sq) ->
  Forall (fun e : rename_entry => fst e <> snd e) rn
  /\ forall p ymdhms rest dt,
       In p (files entries) ->
       pat_match (name p) = Some (ymdhms, rest) ->
       strptime ymdhms = inr dt ->
       new_name_of (new_base_of (unix_ms_of dt) rest) = name p ->
       ~ In p (map fst rn) /\ ~ In (stem p) (map fst sq).
Proof.
  intros Hplan. rewrite plan_collect in Hplan.
  destruct (collect (files entries)) as [e|es] eqn:Hc; [discriminate|].
  injection Hplan as <- <-. split.
  - rewrite Forall_forall. intros r Hr. apply in_map_iff in Hr as (x & <- & Hx).
    destruct (collect_in _ _ _ Hc Hx) as (p & Hp & Hb).
    destruct (body_some p x Hb) as (y & r & dt & _ & _ & Hne & ->).
    cbn [fst snd]. intros E. apply Hne.
    apply (f_equal name) in E. now rewrite name_joinpath in E.
  - intros p y r dt Hp Hm Hs Heq.
    assert (Hnone : forall x, body p <> inr (Some x)).
    { intros x Hb. destruct (body_some p x Hb) as (y' & r' & dt' & Hm' & Hs' & Hne & _).
      rewrite Hm in Hm'. injection Hm' as <- <-. rewrite Hs in Hs'.
      injection Hs' as <-. contradiction. }
    assert (Hsame : forall x, In x es -> stem (fst (fst x)) = stem p -> fst (fst x) = p).
    { intros x Hx E. destruct (collect_in _ _ _ Hc Hx) as (q & Hq & Hb).
      destruct (body_some q x Hb) as (? & ? & ? & _ & _ & _ & ->).
      cbn [fst] in *. rewrite (files_path entries q Hq), (files_path entries p Hp).
      now rewrite E. }
    split; intros H.
    + apply in_map_iff in H as (r0 & E & Hr). apply in_map_iff in Hr as (x & <- & Hx).
      destruct (collect_in _ _ _ Hc Hx) as (q & Hq & Hb).
      destruct (body_some q x Hb) as (? & ? & ? & _ & _ & _ & Ex).
      rewrite Ex in E. cbn [fst] in E. subst q. now apply (Hnone x).
    + apply in_map_iff in H as (s0 & E & Hs0). apply in_map_iff in Hs0 as (x & <- & Hx).
      destruct (collect_in _ _ _ Hc Hx) as (q & Hq & Hb).
      destruct (body_some q x Hb) as (? & ? & ? & _ & _ & _ & Ex).
      assert (fst (fst x) = p) as Eq.
      { apply Hsame; [assumption|]. rewrite Ex in E |- *. exact E. }
      rewrite Ex in Eq. cbn [fst] in Eq. subst q. now apply (Hnone x).
Qed.

Lemma C6_no_identity_rename_witness :
  Forall (fun e : rename_entry => fst e <> snd e)
    [(joinpath MIG_DIR "20230615143000_create_orders.ts",
      joinpath MIG_DIR "1686839400000_create_orders.ts")].
Proof.
  apply (C6_no_identity_rename ["20230615143000_create_orders.ts"; "notes.ts"] _
           [("20230615143000_create_orders", "1686839400000_create_orders")]).
  vm_compute. reflexivity.
Defined.

(** C7.  The two lists have the same length, and the i-th SQL entry is the
    pair of base names of the i-th rename entry: the rename entry is the
    SQL entry with the extension put back and the directory in front. *)
Theorem C7_lists_in_step (entries : list string)
        (rn : list rename_entry) (sq : list sql_entry) :
  plan entries = inr (rn, sq) ->
  List.length sq = List.length rn
  /\ rn = map (fun e : sql_entry =>
                 (joinpath MIG_DIR (fst e ++ ".ts"), joinpath MIG_DIR (snd e ++ ".ts")))
              sq.
Proof.
  intros Hplan. rewrite plan_collect in Hplan.
  destruct (collect (files entries)) as [e|es] eqn:Hc; [discriminate|].
  injection Hplan as <- <-. split; [now rewrite !length_map|].
  rewrite map_map. apply map_ext_in. intros x Hx.
  destruct (collect_in _ _ _ Hc Hx) as (p & Hp & Hb).
  destruct (body_some p x Hb) as (y & r & dt & _ & _ & _ & ->).
  cbn [fst snd]. unfold new_name_of. f_equal. now apply (files_path entries).
Qed.

Lemma C7_lists_in_step_witness :
  List.length [("19691231235959_old", "-1000_old");
               ("20230615143000_create_orders", "1686839400000_create_orders")]
  = List.length [(joinpath MIG_DIR "19691231235959_old.ts",
                  joinpath MIG_DIR "-1000_old.ts");
                 (joinpath MIG_DIR "20230615143000_create_orders.ts",
                  joinpath MIG_DIR "1686839400000_create_orders.ts")]
  /\ [(joinpath MIG_DIR "19691231235959_old.ts", joinpath MIG_DIR "-1000_old.ts");
      (joinpath MIG_DIR "20230615143000_create_orders.ts",
       joinpath MIG_DIR "1686839400000_create_orders.ts")]
     = map (fun e : sql_entry =>
              (joinpath MIG_DIR (fst e ++ ".ts"), joinpath MIG_DIR (snd e ++ ".ts")))
           [("19691231235959_old", "-1000_old");
            ("20230615143000_create_orders", "1686839400000_create_orders")].
Proof.
  apply (C7_lists_in_step
           ["20230615143000_create_orders.ts"; "notes.ts"; "19691231235959_old.ts"]).
  vm_compute. reflexivity.
Defined.

(** C8.  The scan goes through the files in ascending order of their
    names, and the entries of both lists, hence the lines of both sections
    of the report, follow the ascending order of the original names. *)
Theorem C8_ascending_order (entries : list string)
        (rn : list rename_entry) (sq : list sql_entry) :
  plan entries = inr (rn, sq) ->
  StronglySorted (fun a b => PyStr.leb a b = true) (map name (files entries))
  /\ StronglySorted (fun a b => PyStr.leb a b = true)
                    (map (fun e : rename_entry => name (fst e)) rn)
  /\ StronglySorted (fun a b => PyStr.leb a b = true)
                    (map (fun e : sql_entry => fst e ++ ".ts") sq)
  /\ run entries = (inr tt, report rn sq).
Proof.
  intros Hplan. pose proof Hplan as Hplan'. rewrite plan_collect in Hplan.
  destruct (collect (files entries)) as [e|es] eqn:Hc; [discriminate|].
  injection Hplan as <- <-.
  assert (Sfiles : StronglySorted path_le (files entries)) by apply sorted_sorted.
  assert (Srn : StronglySorted (fun a b => PyStr.leb a b = true)
                  (map (fun e : rename_entry => name (fst e)) (map fst es))).
  { replace (map (fun e : rename_entry => name (fst e)) (map fst es))
      with (map name
              (filter (fun p => match body p with inr (Some _) => true | _ => false end)
                      (files entries)))
      by (rewrite <- (collect_filter _ _ Hc), !map_map; reflexivity).
    apply (names_sorted MIG_DIR).
    - pose proof (files_in_dir entries) as Hd. rewrite Forall_forall in *.
      intros p Hp. apply filter_In in Hp as [Hp _]. auto.
    - now apply StronglySorted_filter. }
  split; [apply (names_sorted MIG_DIR); [apply files_in_dir|assumption]|].
  split; [assumption|]. split.
  - replace (map (fun e : sql_entry => fst e ++ ".ts") (map snd es))
      with (map (fun e : rename_entry => name (fst e)) (map fst es)); [assumption|].
    rewrite !map_map. apply map_ext_in. intros x Hx.
    destruct (collect_in _ _ _ Hc Hx) as (p & Hp & Hb).
    destruct (body_some p x Hb) as (y & r & dt & _ & _ & _ & ->).
    cbn [fst snd]. apply suffix_ts_name.
    now apply in_files in Hp as (? & _ & _ & ?).
  - rewrite run_plan, Hplan'. reflexivity.
Qed.

Lemma C8_ascending_order_witness :
  StronglySorted (fun a b => PyStr.leb a b = true)
    (map name (files ["20230615143000_b.ts"; "notes.ts"; "20230101000000_a.ts"]))
  /\ StronglySorted (fun a b => PyStr.leb a b = true)
       (map (fun e : rename_entry => name (fst e))
            [(joinpath MIG_DIR "20230101000000_a.ts",
              joinpath MIG_DIR "1672531200000_a.ts");
             (joinpath MIG_DIR "20230615143000_b.ts",
              joinpath MIG_DIR "1686839400000_b.ts")])
  /\ StronglySorted (fun a b => PyStr.leb a b = true)
       (map (fun e : sql_entry => fst e ++ ".ts")
            [("20230101000000_a", "1672531200000_a");
             ("20230615143000_b", "1686839400000_b")])
  /\ run ["20230615143000_b.ts"; "notes.ts"; "20230101000000_a.ts"]
     = (inr tt,
        report [(joinpath MIG_DIR "20230101000000_a.ts",
                 joinpath MIG_DIR "1672531200000_a.ts");
                (joinpath MIG_DIR "20230615143000_b.ts",
                 joinpath MIG_DIR "1686839400000_b.ts")]
               [("20230101000000_a", "1672531200000_a");
                ("20230615143000_b", "1686839400000_b")]).
Proof.
  apply (C8_ascending_order ["20230615143000_b.ts"; "notes.ts"; "20230101000000_a.ts"]).
  vm_compute. reflexivity.
Defined.

(** C3, as the specification states it, fails: the timestamp
    2762-03-23T00:30:01 is renamed to [25000101001000_x.ts], a name of 14
    digits that is a valid date again, and the second run renames it once
    more. *)
Lemma C3_second_run_counterexample :
  plan ["27620323003001_x.ts"]
  = inr ([(joinpath MIG_DIR "27620323003001_x.ts",
           joinpath MIG_DIR "25000101001000_x.ts")],
         [("27620323003001_x", "25000101001000_x")])
  /\ map renamed_name ["27620323003001_x.ts"] = ["25000101001000_x.ts"]
  /\ run ["25000101001000_x.ts"]
     = (inr tt,
        [mv_header;
         "mv src/migrations/25000101001000_x.ts src/migrations/16725226200000_x.ts";
         sql_header;
         "update inventory_schema_migrations set name='16725226200000_x' where name='25000101001000_x';"])
  /\ run (map renamed_name ["27620323003001_x.ts"]) <> (inr tt, [mv_header; sql_header]).
Proof.
  repeat split; try (vm_compute; reflexivity).
  vm_compute. discriminate.
Qed.

(** C3, amended.  When the run ends well and no timestamp of a matched file
    has a Unix-millisecond value of exactly 14 digits (so every timestamp
    before 2286-11-20T17:46:40 UTC, or from 5138-11-16T09:46:40 UTC on), a
    second run over the directory with the renamed files prints the two
    headers and no entry. *)
Theorem C3_second_run_empty (entries : list string)
        (rn : list rename_entry) (sq : list sql_entry) :
  plan entries = inr (rn, sq) ->
  (forall n ymdhms rest dt,
     In n entries -> pat_match n = Some (ymdhms, rest) -> strptime ymdhms = inr dt ->
     unix_ms_of dt < 10 ^ 13 \/ 10 ^ 14 <= unix_ms_of dt) ->
  plan (map renamed_name entries) = inr ([], [])
  /\ run (map renamed_name entries) = (inr tt, [mv_header; sql_header]).
Proof.
  intros Hplan Hms.
  assert (Hc : collect (files (map renamed_name entries)) = inr []).
  { apply collect_no_match. rewrite Forall_forall. intros p Hp.
    apply in_files in Hp as (n2 & Hn2 & -> & Hs2).
    apply in_map_iff in Hn2 as (n & <- & Hn).
    rewrite name_joinpath. unfold renamed_name in *.
    destruct (string_eqb_spec (suffix (joinpath MIG_DIR n)) ".ts") as [Hs | Hs];
      [|contradiction].
    destruct (pat_match n) as [[y r]|] eqn:Hm; [|exact Hm].
    destruct (strptime y) as [e|dt] eqn:Hy.
    - rewrite plan_collect in Hplan.
      destruct (collect_inl (files entries) (joinpath MIG_DIR n) e) as [e' He'].
      + apply in_files. eauto.
      + unfold body. now rewrite name_joinpath, Hm, Hy.
      + rewrite He' in Hplan. discriminate.
    - apply pat_match_new_name. eapply Hms; eassumption. }
  rewrite run_plan, plan_collect, Hc. split; reflexivity.
Qed.

Lemma C3_second_run_empty_witness :
  run (map renamed_name ["20230615143000_create_orders.ts"; "notes.ts"; "a.txt"])
  = (inr tt, [mv_header; sql_header]).
Proof.
  apply (C3_second_run_empty
           ["20230615143000_create_orders.ts"; "notes.ts"; "a.txt"]
           [(joinpath MIG_DIR "20230615143000_create_orders.ts",
             joinpath MIG_DIR "1686839400000_create_orders.ts")]
           [("20230615143000_create_orders", "1686839400000_create_orders")]).
  - vm_compute. reflexivity.
  - intros n ymdhms rest dt Hin Hp Hs. left.
    simpl in Hin.
    destruct Hin as [<- | [<- | [<- | []]]]; vm_compute in Hp; try discriminate.
    injection Hp as <- <-. vm_compute in Hs. injection Hs as <-.
    vm_compute. reflexivity.
Defined.


(** * Further properties of the script *)

(** ** The order in which the system lists the directory *)

Section ListingOrder.

Lemma le_total (p q : Path) : path_le p q \/ path_le q p.
Proof.
  unfold path_le, ltb. rewrite (compare_antisym q p).
  destruct (Pathlib.compare p q); simpl; auto.
Qed.

Lemma ltb_trans_le (x z y : Path) : path_le x z -> ltb z y = true -> ltb x y = true.
Proof.
  intros Hxz Hzy. destruct (ltb x y) eqn:E; [reflexivity|].
  assert (Hyz : path_le z y) by now apply ltb_le.
  assert (Hyx : path_le y x) by exact E.
  pose proof (le_antisym z y Hyz (le_trans y x z Hyx Hxz)) as ->.
  unfold ltb in Hzy. now rewrite compare_refl in Hzy.
Qed.

Lemma insert_comm (x y : Path) (l : list Path) :
  insert x (insert y l) = insert y (insert x l).
Proof.
  induction l as [|z l IH]; cbn [insert].
  - destruct (ltb y x) eqn:Eyx, (ltb x y) eqn:Exy; try reflexivity.
    + apply ltb_le in Eyx. unfold path_le in Eyx. congruence.
    + now rewrite (le_antisym x y Eyx Exy).
  - destruct (ltb z y) eqn:Ezy, (ltb z x) eqn:Ezx; cbn [insert];
      rewrite ?Ezy, ?Ezx.
    + now rewrite IH.
    + now rewrite (ltb_trans_le x z y Ezx Ezy).
    + now rewrite (ltb_trans_le y z x Ezy Ezx).
    + destruct (ltb y x) eqn:Eyx, (ltb x y) eqn:Exy; try reflexivity.
      * apply ltb_le in Eyx. unfold path_le in Eyx. congruence.
      * now rewrite (le_antisym x y Eyx Exy).
Qed.

Lemma sorted_permutation (l l' : list Path) :
  Permutation l l' -> sorted l = sorted l'.
Proof.
  induction 1 as [|x l l' _ IH|x y l|l l' l'' _ IH1 _ IH2]; cbn [sorted].
  - reflexivity.
  - now rewrite IH.
  - apply insert_comm.
  - now rewrite IH1.
Qed.

Lemma filter_permutation {A} (f : A -> bool) (l l' : list A) :
  Permutation l l' -> Permutation (filter f l) (filter f l').
Proof.
  induction 1 as [|x l l' _ IH|x y l|l l' l'' _ IH1 _ IH2]; cbn [filter].
  - constructor.
  - destruct (f x); [now constructor|assumption].
  - destruct (f x), (f y); try reflexivity. apply perm_swap.
  - now transitivity (filter f l').
Qed.

Lemma files_permutation (entries entries' : list string) :
  Permutation entries entries' -> files entries = files entries'.
Proof.
  intros H. unfold files, iterdir. apply sorted_permutation.
  apply filter_permutation. now apply Permutation_map.
Qed.

End ListingOrder.

(** X1.  The run does not depend on the order in which the system lists
    the directory: two listings of the same entries give the same outcome
    and the same output. *)
Theorem X1_listing_order_irrelevant (entries entries' : list string) :
  Permutation entries entries' -> run entries = run entries'.
Proof.
  intros H. rewrite !run_plan, !plan_collect.
  now rewrite (files_permutation entries entries' H).
Qed.

Lemma X1_listing_order_irrelevant_witness :
  run ["notes.ts"; "20230615143000_b.ts"; "20230101000000_a.ts"]
  = run ["20230101000000_a.ts"; "notes.ts"; "20230615143000_b.ts"].
Proof.
  apply X1_listing_order_irrelevant.
  apply Permutation_sym, (Permutation_cons_app ["notes.ts"; "20230615143000_b.ts"] []).
  reflexivity.
Defined.

(** ** Entries that the scan drops *)

Section Dropped.

Lemma filter_all_true {A} (f : A -> bool) (l : list A) :
  (forall x, In x l -> f x = true) -> filter f l = l.
Proof.
  induction l as [|x l IH]; intros H; [reflexivity|]. cbn [filter].
  rewrite (H x (or_introl eq_refl)), IH; [reflexivity|].
  intros y Hy. apply H. now right.
Qed.

Lemma collect_inl_inv (ps : list Path) (e : exn) :
  collect ps = inl e -> exists p, In p ps /\ body p = inl e.
Proof.
  induction ps as [|q ps IH]; cbn [collect]; [discriminate|].
  destruct (body q) as [e0|o] eqn:Hq.
  - intros H. injection H as <-. exists q. split; [now left|assumption].
  - destruct (collect ps) as [e1|es]; [|discriminate].
    intros H. injection H as <-. destruct (IH eq_refl) as (p & Hp & Hb).
    exists p. split; [now right|assumption].
Qed.

Lemma body_inl (p : Path) (e : exn) :
  body p = inl e ->
  exists ymdhms rest,
    pat_match (name p) = Some (ymdhms, rest) /\ strptime ymdhms = inl e.
Proof.
  unfold body. destruct (pat_match (name p)) as [[y r]|] eqn:Hm; [|discriminate].
  destruct (strptime y) as [e0|dt] eqn:Hs.
  - intros H. injection H as <-. eauto.
  - cbv zeta. destruct (_ =? name p)%string; discriminate.
Qed.

End Dropped.

(** X2.  An entry without the suffix [.ts] has no part in the run, whatever
    its name: the run is the run of the directory without it.  So a file
    such as [20231315000000_x.txt] cannot make the run fail. *)
Theorem X2_other_suffix_ignored (entries : list string) (n : string) :
  suffix (joinpath MIG_DIR n) <> ".ts" ->
  run (remove string_dec n entries) = run entries.
Proof.
  intros Hs. rewrite !run_plan, !plan_collect, files_remove.
  rewrite filter_all_true; [reflexivity|].
  intros p Hp. apply in_files in Hp as (m & _ & -> & Hm).
  rewrite name_joinpath. apply negb_true_iff, string_eqb_neq.
  intros ->. contradiction.
Qed.

Lemma X2_other_suffix_ignored_witness :
  suffix (joinpath MIG_DIR "20231315000000_x.txt") <> ".ts"
  /\ run (remove string_dec "20231315000000_x.txt"
            ["20231315000000_x.txt"; "20230615143000_b.ts"])
     = run ["20231315000000_x.txt"; "20230615143000_b.ts"].
Proof.
  assert (H : suffix (joinpath MIG_DIR "20231315000000_x.txt") <> ".ts")
    by (vm_compute; discriminate).
  split; [exact H|]. apply X2_other_suffix_ignored. exact H.
Defined.

(** X3.  When no entry both has the suffix [.ts] and a name that matches
    the pattern (an empty directory is the first case), the run ends well
    and prints the two headers and nothing else. *)
Theorem X3_nothing_to_rename (entries : list string) :
  (forall n, In n entries ->
             suffix (joinpath MIG_DIR n) <> ".ts" \/ pat_match n = None) ->
  run entries = (inr tt, [mv_header; sql_header]).
Proof.
  intros H. rewrite run_plan, plan_collect.
  rewrite collect_no_match; [reflexivity|].
  rewrite Forall_forall. intros p Hp.
  apply in_files in Hp as (n & Hn & -> & Hs). rewrite name_joinpath.
  destruct (H n Hn) as [Hno | Hm]; [contradiction|assumption].
Qed.

Lemma X3_nothing_to_rename_witness :
  run [] = (inr tt, [mv_header; sql_header])
  /\ run ["notes.ts"; "README.md"; ".ts"; "2023_short.ts"]
     = (inr tt, [mv_header; sql_header]).
Proof.
  split.
  - apply X3_nothing_to_rename. intros n [].
  - apply X3_nothing_to_rename. intros n Hn. simpl in Hn.
    destruct Hn as [<- | [<- | [<- | [<- | []]]]];
      first [ right; reflexivity | left; vm_compute; discriminate ].
Defined.

(** X4.  For names written with the digits 0-9 the loop fails exactly on
    an invalid date: when the 14 digits of every scanned file that matches
    are digits 0-9, the loop raises exactly when some entry with the suffix
    [.ts] has a name that matches the pattern and 14 digits that are not a
    valid date; otherwise it ends with the two lists. *)
Theorem X4_failure_iff_invalid_date (entries : list string) :
  (forall n ymdhms rest,
     In n entries -> suffix (joinpath MIG_DIR n) = ".ts" ->
     pat_match n = Some (ymdhms, rest) -> all_chars ascii_digit ymdhms = true) ->
  ((exists e, plan entries = inl e)
   <-> exists n ymdhms rest,
         In n entries /\ suffix (joinpath MIG_DIR n) = ".ts"
         /\ pat_match n = Some (ymdhms, rest) /\ ~ valid_ymdhms ymdhms).
Proof.
  intros Hascii. split.
  - intros [e He]. rewrite plan_collect in He.
    destruct (collect (files entries)) as [e0|es] eqn:Hc; [|discriminate].
    apply collect_inl_inv in Hc as (p & Hp & Hb).
    apply body_inl in Hb as (y & r & Hm & Hs).
    apply in_files in Hp as (n & Hn & -> & Hsuf). rewrite name_joinpath in Hm.
    exists n, y, r. repeat split; try assumption.
    intros Hv. pose proof (pat_match_spec _ _ _ Hm) as (Hl & _ & _).
    rewrite (strptime_valid y Hl (Hascii n y r Hn Hsuf Hm) Hv) in Hs. discriminate.
  - intros (n & y & r & Hn & Hsuf & Hm & Hv).
    pose proof (pat_match_spec _ _ _ Hm) as (Hl & Hd & _).
    destruct (strptime_invalid y Hl Hd Hv) as [e He].
    rewrite plan_collect.
    destruct (collect_inl (files entries) (joinpath MIG_DIR n) e) as [e' ->].
    + apply in_files. eauto.
    + unfold body. now rewrite name_joinpath, Hm, He.
    + eauto.
Qed.

Lemma X4_failure_iff_invalid_date_witness :
  (exists e, plan ["20230101000000_a.ts"; "notes.ts"; "20230230000000_b.ts"] = inl e)
  <-> exists n ymdhms rest,
        In n ["20230101000000_a.ts"; "notes.ts"; "20230230000000_b.ts"]
        /\ suffix (joinpath MIG_DIR n) = ".ts"
        /\ pat_match n = Some (ymdhms, rest) /\ ~ valid_ymdhms ymdhms.
Proof.
  apply X4_failure_iff_invalid_date.
  intros n ymdhms rest Hin _ Hp. simpl in Hin.
  destruct Hin as [<- | [<- | [<- | []]]]; vm_compute in Hp; try discriminate;
    injection Hp as <- <-; reflexivity.
Defined.

(** ** The test [new_name == p.name] *)

Section Guard.

Lemma snoc_inj (s t : string) (a b : char) :
  s ++ String a "" = t ++ String b "" -> s = t /\ a = b.
Proof.
  revert t. induction s as [|c s IH]; intros [|d t] H; cbn [append] in H.
  - injection H as ->. auto.
  - injection H as -> H. destruct t; discriminate.
  - injection H as -> H. destruct s; discriminate.
  - injection H as -> H. destruct (IH t H) as [-> ->]. auto.
Qed.

Lemma append_inv_tail (s t u : string) : s ++ u = t ++ u -> s = t.
Proof.
  revert s t. induction u as [|c u IH]; intros s t H.
  - now rewrite !append_nil_r in H.
  - change (String c u) with (String c "" ++ u) in H.
    rewrite <- !append_assoc in H. apply IH in H. now apply snoc_inj in H.
Qed.

(** The name of a scanned file that matches is the two groups with the
    underscore between and [.ts] behind, and nothing else. *)
Lemma pat_match_scanned (n ymdhms rest : string) :
  suffix (joinpath MIG_DIR n) = ".ts" ->
  pat_match n = Some (ymdhms, rest) ->
  n = ymdhms ++ "_" ++ rest ++ ".ts".
Proof.
  intros Hs Hm. apply pat_match_spec in Hm as (_ & _ & _ & [E | E]); [exact E|].
  exfalso. apply suffix_ts_name in Hs. rewrite name_joinpath in Hs.
  rewrite Hs in E.
  assert (L : stem (joinpath MIG_DIR n) ++ ".ts"
              = (stem (joinpath MIG_DIR n) ++ ".t") ++ String "s" "")
    by (rewrite append_assoc; reflexivity).
  assert (R : ymdhms ++ "_" ++ rest ++ ".ts" ++ nl
              = (ymdhms ++ "_" ++ rest ++ ".ts") ++ String newline "")
    by (repeat rewrite append_assoc; reflexivity).
  rewrite L, R in E.
  apply snoc_inj in E as [_ E]. discriminate.
Qed.

(** No date of the calendar, written as 14 digits and read as one number,
    is its own Unix-millisecond timestamp. *)
Lemma digits_not_unix_ms (dt : datetime) :
  valid_fields dt ->
  year dt * 10000000000 + month dt * 100000000 + day dt * 1000000
  + hour dt * 10000 + minute dt * 100 + second dt
  <> epoch_seconds dt * 1000.
Proof.
  intros (Hy & Hm & Hd & HH & HM & HS).
  unfold epoch_seconds, toordinal, _ymd2ord, _days_before_month, _days_before_year.
  unfold _days_in_month in Hd.
  destruct dt as [Y M D hh mi ss us]. cbn [year month day hour minute second] in *.
  assert (C : M = 1 \/ M = 2 \/ M = 3 \/ M = 4 \/ M = 5 \/ M = 6 \/ M = 7 \/ M = 8
              \/ M = 9 \/ M = 10 \/ M = 11 \/ M = 12) by lia.
  destruct (_is_leap Y);
    repeat (destruct C as [-> | C]); subst;
    unfold _DAYS_IN_MONTH, _DAYS_BEFORE_MONTH in *;
    cbn [Z.eqb Z.ltb Z.compare Pos.eqb Pos.compare Pos.compare_cont andb] in *;
    Z.to_euclidean_division_equations; lia.
Qed.

Ltac explicit_string g :=
  repeat (let c := fresh "c" in destruct g as [|c g];
          cbn [PyStr.length] in *; try lia).

(** The number that 14 characters write, from the six fields. *)
Lemma int_digits_fields (s : string) :
  PyStr.length s = 14%nat ->
  int_digits s
  = year (fields_of s) * 10000000000 + month (fields_of s) * 100000000
    + day (fields_of s) * 1000000 + hour (fields_of s) * 10000
    + minute (fields_of s) * 100 + second (fields_of s).
Proof.
  intros Hl. explicit_string s.
  cbn [fields_of slice slice_to slice_from Nat.sub year month day hour minute second int_digits
       int_digits_acc]. lia.
Qed.

(** A number whose decimal writing stands in front of an underscore, where
    digits stand in front of an underscore too, is written by those
    digits. *)
Lemma str_before_underscore (z : Z) (y t1 t2 : string) :
  all_chars is_digit y = true -> y <> "" ->
  str z ++ String "_" t1 = y ++ String "_" t2 ->
  int_digits y = z.
Proof.
  intros Hd Hne E. unfold str in E.
  destruct (Z.ltb_spec z 0) as [Hneg | Hpos].
  - destruct y as [|c y]; [contradiction|]. cbn [append] in E.
    injection E as <- _. cbn [all_chars] in Hd. apply andb_prop in Hd as [Hd _].
    apply digit_ge_48 in Hd. lia.
  - apply (digits_prefix_unique _ _ _ _ "_" "_") in E; try assumption;
      try reflexivity; [|now apply str_nat_digits].
    rewrite <- E. now apply int_str_nat.
Qed.

Lemma new_name_eq_digits (n ymdhms rest : string) (z : Z) :
  pat_match n = Some (ymdhms, rest) ->
  new_name_of (new_base_of z rest) = n -> int_digits ymdhms = z.
Proof.
  intros Hm E.
  pose proof (pat_match_spec _ _ _ Hm) as (Hl & Hd & _ & Hn).
  unfold new_name_of, new_base_of in E. rewrite !append_assoc in E.
  assert (Hne : ymdhms <> "") by (intros ->; discriminate).
  destruct Hn as [-> | ->].
  - exact (str_before_underscore z ymdhms _ _ Hd Hne E).
  - exact (str_before_underscore z ymdhms _ _ Hd Hne E).
Qed.

Lemma new_name_differs (n ymdhms rest : string) (dt : datetime) :
  pat_match n = Some (ymdhms, rest) -> strptime ymdhms = inr dt ->
  new_name_of (new_base_of (unix_ms_of dt) rest) <> n.
Proof.
  intros Hm Hs E.
  pose proof (new_name_eq_digits _ _ _ _ Hm E) as Hval.
  pose proof (pat_match_spec _ _ _ Hm) as (Hl & Hd & _).
  apply strptime_inr in Hs as (Edt & Hv & Hus); try assumption.
  rewrite int_digits_fields, <- Edt, unix_ms_of_value in Hval by assumption.
  exact (digits_not_unix_ms dt Hv Hval).
Qed.

(** What the body does with a path whose name matches and whose date is
    valid: it always appends. *)
Lemma body_matched (p : Path) (ymdhms rest : string) (dt : datetime) :
  pat_match (name p) = Some (ymdhms, rest) -> strptime ymdhms = inr dt ->
  body p = inr (Some ((p, joinpath MIG_DIR
                            (new_name_of (new_base_of (unix_ms_of dt) rest))),
                      (stem p, new_base_of (unix_ms_of dt) rest))).
Proof.
  intros Hm Hs. unfold body. rewrite Hm, Hs. cbv zeta.
  destruct (string_eqb_spec (new_name_of (new_base_of (unix_ms_of dt) rest)) (name p))
    as [E | _]; [|reflexivity].
  destruct (new_name_differs _ _ _ _ Hm Hs E).
Qed.

End Guard.

(** X5.  The skip of an unchanged name is never taken: for every name that
    matches the pattern and whose date [strptime] accepts, the new name
    differs from the old one. *)
Theorem X5_new_name_always_differs (n ymdhms rest : string) (dt : datetime) :
  pat_match n = Some (ymdhms, rest) ->
  strptime ymdhms = inr dt ->
  (new_name_of (new_base_of (unix_ms_of dt) rest) =? n)%string = false.
Proof.
  intros Hm Hs. apply string_eqb_neq. now apply (new_name_differs n ymdhms rest dt).
Qed.

Lemma X5_new_name_always_differs_witness :
  (new_name_of (new_base_of (unix_ms_of (mk_datetime 2883 8 11 22 40 0 0)) "x")
   =? "28830811224000_x.ts")%string = false.
Proof.
  apply (X5_new_name_always_differs _ "28830811224000" "x"); reflexivity.
Defined.

(** X6.  In a run that ends well every scanned file whose name matches the
    pattern is renamed, once: the original paths of the rename entries are
    the scanned files with a matching name, in the order of the scan, and
    the report has two lines for each of them besides the two headers. *)
Theorem X6_every_match_renamed (entries : list string)
        (rn : list rename_entry) (sq : list sql_entry) :
  plan entries = inr (rn, sq) ->
  map fst rn
  = filter (fun p => match pat_match (name p) with Some _ => true | None => false end)
           (files entries)
  /\ List.length (snd (run entries)) = (2 + 2 * List.length (map fst rn))%nat.
Proof.
  intros Hplan. pose proof Hplan as Hplan'. rewrite plan_collect in Hplan.
  destruct (collect (files entries)) as [e|es] eqn:Hc; [discriminate|].
  injection Hplan as <- <-. split.
  - replace (map fst (map fst es))
      with (filter (fun p => match body p with inr (Some _) => true | _ => false end)
                   (files entries))
      by (rewrite <- (collect_filter _ _ Hc), map_map; reflexivity).
    apply filter_ext_in. intros p Hp.
    destruct (collect_inr _ _ p Hc Hp) as [o Ho].
    destruct (pat_match (name p)) as [[y r]|] eqn:Hm.
    + destruct (strptime y) as [e|dt] eqn:Hs.
      * unfold body in Ho. rewrite Hm, Hs in Ho. discriminate.
      * now rewrite (body_matched p y r dt Hm Hs).
    + unfold body. now rewrite Hm.
  - rewrite run_plan, Hplan'. cbn [snd]. unfold report.
    cbn [List.length]. rewrite length_app. cbn [List.length].
    rewrite !length_map. lia.
Qed.

Lemma X6_every_match_renamed_witness :
  map fst [(joinpath MIG_DIR "20230101000000_a.ts",
            joinpath MIG_DIR "1672531200000_a.ts");
           (joinpath MIG_DIR "20230615143000_b.ts",
            joinpath MIG_DIR "1686839400000_b.ts")]
  = filter (fun p => match pat_match (name p) with Some _ => true | None => false end)
           (files ["20230615143000_b.ts"; "notes.ts"; "20230101000000_a.ts"])
  /\ List.length (snd (run ["20230615143000_b.ts"; "notes.ts"; "20230101000000_a.ts"]))
     = (2 + 2 * List.length
                  (map fst [(joinpath MIG_DIR "20230101000000_a.ts",
                             joinpath MIG_DIR "1672531200000_a.ts");
                            (joinpath MIG_DIR "20230615143000_b.ts",
                             joinpath MIG_DIR "1686839400000_b.ts")]))%nat.
Proof.
  apply (X6_every_match_renamed
           ["20230615143000_b.ts"; "notes.ts"; "20230101000000_a.ts"] _
           [("20230101000000_a", "1672531200000_a");
            ("20230615143000_b", "1686839400000_b")]).
  vm_compute. reflexivity.
Defined.

(** ** The shape of the entries *)

Section EntryShape.

Lemma as_posix_joinpath (n : string) :
  as_posix (joinpath MIG_DIR n) = "src/migrations/" ++ n.
Proof. reflexivity. Qed.

Lemma rfind_append (c : char) (b t : string) :
  0 <= rfind c t -> rfind c (b ++ t) = len b + rfind c t.
Proof.
  intros Ht. unfold len. induction b as [|a b IH]; cbn [append rfind PyStr.length].
  - lia.
  - rewrite IH. replace (0 <=? Z.of_nat (PyStr.length b) + rfind c t) with true
      by (symmetry; apply Z.leb_le; lia).
    lia.
Qed.

Lemma slice_to_append (b t : string) : slice_to (PyStr.length b) (b ++ t) = b.
Proof.
  induction b as [|a b IH]; cbn [append PyStr.length slice_to].
  - destruct t; reflexivity.
  - now rewrite IH.
Qed.

Lemma slice_from_append (b t : string) : slice_from (PyStr.length b) (b ++ t) = t.
Proof.
  induction b as [|a b IH]; cbn [append PyStr.length slice_from].
  - destruct t; reflexivity.
  - exact IH.
Qed.

(** [suffix] and [stem] undo the appending of [.ts] to a base name that is
    not empty, whatever dots the base name holds. *)
Lemma suffix_stem_append_ts (d : Path) (b : string) :
  b <> "" ->
  suffix (joinpath d (b ++ ".ts")) = ".ts" /\ stem (joinpath d (b ++ ".ts")) = b.
Proof.
  intros Hb. unfold suffix, stem. rewrite name_joinpath.
  rewrite (rfind_append "." b ".ts") by (vm_compute; discriminate).
  change (rfind "." ".ts") with 0. rewrite Z.add_0_r.
  assert (Hl : (0 < PyStr.length b)%nat).
  { destruct b; [contradiction|cbn; lia]. }
  assert (C : (0 <? len b) && (len b <? len (b ++ ".ts") - 1) = true).
  { unfold len. rewrite length_append. cbn [PyStr.length].
    apply andb_true_intro; split; apply Z.ltb_lt; lia. }
  rewrite C. unfold len.
  rewrite Nat2Z.id, slice_from_append, slice_to_append.
  split; reflexivity.
Qed.

Lemma Forall2_fst_snd {A B} (P : A -> B -> Prop) (l : list (A * B)) :
  (forall x, In x l -> P (fst x) (snd x)) -> Forall2 P (map fst l) (map snd l).
Proof.
  induction l as [|x l IH]; intros H; cbn [map]; constructor.
  - apply H. now left.
  - apply IH. intros y Hy. apply H. now right.
Qed.

(** An entry of the plan, spelled out. *)
Lemma entry_shape (entries : list string) es (x : rename_entry * sql_entry) :
  collect (files entries) = inr es -> In x es ->
  exists ymdhms rest dt,
    In (ymdhms ++ "_" ++ rest ++ ".ts") entries
    /\ pat_match (ymdhms ++ "_" ++ rest ++ ".ts") = Some (ymdhms, rest)
    /\ strptime ymdhms = inr dt
    /\ x = ((joinpath MIG_DIR (ymdhms ++ "_" ++ rest ++ ".ts"),
             joinpath MIG_DIR (str (unix_ms_of dt) ++ "_" ++ rest ++ ".ts")),
            (ymdhms ++ "_" ++ rest, str (unix_ms_of dt) ++ "_" ++ rest)).
Proof.
  intros Hc Hx. destruct (collect_in _ _ _ Hc Hx) as (p & Hp & Hb).
  destruct (body_some p x Hb) as (y & r & dt & Hm & Hs & _ & ->).
  apply in_files in Hp as (n & Hn & -> & Hsuf).
  rewrite name_joinpath in Hm.
  pose proof (pat_match_scanned n y r Hsuf Hm) as En.
  exists y, r, dt. rewrite <- En. repeat split; try assumption.
  f_equal; [f_equal|f_equal].
  - unfold new_name_of, new_base_of. now rewrite !append_assoc.
  - apply (append_inv_tail _ _ ".ts"). rewrite <- suffix_ts_name by assumption.
    rewrite name_joinpath, En. now rewrite !append_assoc.
Qed.

End EntryShape.

(** X7.  Only the 14 digits change.  Each rename entry goes from
    [src/migrations/<14 digits>_<rest>.ts] to
    [src/migrations/<unix_ms>_<rest>.ts] with the same [<rest>], the SQL
    entry beside it is the two names without [.ts], and [<unix_ms>] is the
    timestamp of those 14 digits. *)
Theorem X7_only_the_prefix_changes (entries : list string)
        (rn : list rename_entry) (sq : list sql_entry) :
  plan entries = inr (rn, sq) ->
  Forall2 (fun (r : rename_entry) (s : sql_entry) =>
             exists ymdhms rest dt,
               strptime ymdhms = inr dt
               /\ as_posix (fst r) = "src/migrations/" ++ ymdhms ++ "_" ++ rest ++ ".ts"
               /\ as_posix (snd r)
                  = "src/migrations/" ++ str (unix_ms_of dt) ++ "_" ++ rest ++ ".ts"
               /\ s = (ymdhms ++ "_" ++ rest, str (unix_ms_of dt) ++ "_" ++ rest))
          rn sq.
Proof.
  intros Hplan. rewrite plan_collect in Hplan.
  destruct (collect (files entries)) as [e|es] eqn:Hc; [discriminate|].
  injection Hplan as <- <-. apply Forall2_fst_snd. intros x Hx.
  destruct (entry_shape entries es x Hc Hx) as (y & r & dt & _ & _ & Hs & ->).
  exists y, r, dt. cbn [fst snd]. rewrite !as_posix_joinpath. auto.
Qed.

Lemma X7_only_the_prefix_changes_witness :
  Forall2 (fun (r : rename_entry) (s : sql_entry) =>
             exists ymdhms rest dt,
               strptime ymdhms = inr dt
               /\ as_posix (fst r) = "src/migrations/" ++ ymdhms ++ "_" ++ rest ++ ".ts"
               /\ as_posix (snd r)
                  = "src/migrations/" ++ str (unix_ms_of dt) ++ "_" ++ rest ++ ".ts"
               /\ s = (ymdhms ++ "_" ++ rest, str (unix_ms_of dt) ++ "_" ++ rest))
          [(joinpath MIG_DIR "19691231235959_add.users_v2.ts",
            joinpath MIG_DIR "-1000_add.users_v2.ts")]
          [("19691231235959_add.users_v2", "-1000_add.users_v2")].
Proof.
  apply (X7_only_the_prefix_changes ["19691231235959_add.users_v2.ts"; "notes.ts"]).
  vm_compute. reflexivity.
Defined.

(** X8.  The two lists and the paths agree: the old and the new name of an
    SQL entry are the stems of the two paths of the rename entry beside it,
    and the new path has the suffix [.ts] again. *)
Theorem X8_sql_names_are_stems (entries : list string)
        (rn : list rename_entry) (sq : list sql_entry) :
  plan entries = inr (rn, sq) ->
  map (fun r : rename_entry => stem (fst r)) rn = map fst sq
  /\ map (fun r : rename_entry => stem (snd r)) rn = map snd sq
  /\ Forall (fun r : rename_entry => suffix (snd r) = ".ts") rn.
Proof.
  intros Hplan. rewrite plan_collect in Hplan.
  destruct (collect (files entries)) as [e|es] eqn:Hc; [discriminate|].
  injection Hplan as <- <-.
  assert (H : forall x, In x es ->
                        stem (fst (fst x)) = fst (snd x)
                        /\ stem (snd (fst x)) = snd (snd x)
                        /\ suffix (snd (fst x)) = ".ts").
  { intros x Hx.
    destruct (entry_shape entries es x Hc Hx) as (y & r & dt & _ & _ & _ & ->).
    cbn [fst snd].
    assert (N1 : y ++ "_" ++ r <> "")
      by (destruct y; discriminate).
    assert (N2 : str (unix_ms_of dt) ++ "_" ++ r <> "")
      by (destruct (str (unix_ms_of dt)); discriminate).
    pose proof (suffix_stem_append_ts MIG_DIR _ N1) as [_ S1].
    pose proof (suffix_stem_append_ts MIG_DIR _ N2) as [S2 S3].
    rewrite !append_assoc in S1, S2, S3. cbn [append] in S1, S2, S3.
    cbn [append]. auto. }
  repeat split.
  - rewrite !map_map. apply map_ext_in. intros x Hx. now apply H.
  - rewrite !map_map. apply map_ext_in. intros x Hx. now apply H.
  - rewrite Forall_forall. intros r Hr. apply in_map_iff in Hr as (x & <- & Hx).
    now apply H.
Qed.

Lemma X8_sql_names_are_stems_witness :
  map (fun r : rename_entry => stem (snd r))
      [(joinpath MIG_DIR "19691231235959_add.users_v2.ts",
        joinpath MIG_DIR "-1000_add.users_v2.ts")]
  = map snd [("19691231235959_add.users_v2", "-1000_add.users_v2")].
Proof.
  apply (X8_sql_names_are_stems ["19691231235959_add.users_v2.ts"; "notes.ts"] _
           [("19691231235959_add.users_v2", "-1000_add.users_v2")]).
  vm_compute. reflexivity.
Defined.

(** ** Order and size of the timestamps *)

Section TimestampOrder.

(** Digit strings of one length compare as the numbers they write, when
    the greater one is written with the digits 0-9: a decimal digit that
    stands before one of them in the order of code points is one of them
    too. *)
Lemma compare_digits_acc (s1 s2 : string) (a1 a2 : Z) :
  PyStr.length s1 = PyStr.length s2 ->
  all_chars is_digit s1 = true -> all_chars ascii_digit s2 = true ->
  0 <= a1 -> 0 <= a2 ->
  a1 < a2 \/ (a1 = a2 /\ PyStr.compare s1 s2 = Lt) ->
  int_digits_acc s1 a1 < int_digits_acc s2 a2.
Proof.
  revert s2 a1 a2. induction s1 as [|c1 s1 IH]; intros [|c2 s2] a1 a2 Hl H1 H2 P1 P2 H;
    try discriminate.
  - cbn in *. destruct H as [H | [_ H]]; [assumption|discriminate].
  - cbn [all_chars] in H1, H2. apply andb_prop in H1 as [D1 H1].
    apply andb_prop in H2 as [D2 H2].
    pose proof (is_digit_val c1 D1) as V1.
    pose proof (is_digit_val c2 (ascii_is_digit c2 D2)) as V2.
    cbn [int_digits_acc]. injection Hl as Hl.
    apply IH; try assumption; try lia.
    destruct H as [H | [-> H]]; [left; lia|].
    cbn [PyStr.compare] in H.
    destruct (Z.compare_spec c1 c2) as [-> | Hlt | Hgt]; try discriminate.
    + right. auto.
    + left. pose proof (proj1 (ascii_digit_spec c2) D2) as R2.
      assert (A1 : ascii_digit c1 = true) by (apply digit_below; [assumption|lia]).
      rewrite (ascii_digit_val c1 A1), (ascii_digit_val c2 D2). lia.
Qed.

Lemma compare_digits (s1 s2 : string) :
  PyStr.length s1 = PyStr.length s2 ->
  all_chars is_digit s1 = true -> all_chars ascii_digit s2 = true ->
  PyStr.compare s1 s2 = Lt -> int_digits s1 < int_digits s2.
Proof.
  intros Hl H1 H2 H. apply compare_digits_acc; try assumption; try lia.
  right. auto.
Qed.

Lemma days_before_year_succ (y : Z) :
  _days_before_year (y + 1)
  = _days_before_year y + 365 + (if _is_leap y then 1 else 0).
Proof.
  unfold _days_before_year, _is_leap.
  destruct (Z.eqb_spec (y mod 4) 0), (Z.eqb_spec (y mod 100) 0),
    (Z.eqb_spec (y mod 400) 0); cbn [andb orb negb];
    Z.to_euclidean_division_equations; lia.
Qed.

Lemma days_before_year_le (y1 y2 : Z) :
  y1 <= y2 -> _days_before_year y1 <= _days_before_year y2.
Proof.
  intros H. unfold _days_before_year. Z.to_euclidean_division_equations. lia.
Qed.

(** Later in the year, later in the count of its days. *)
Lemma day_of_year_mono (b : bool) (m1 d1 m2 d2 : Z) :
  1 <= m1 <= 12 -> 1 <= m2 <= 12 ->
  1 <= d1 <= (if (m1 =? 2) && b then 29 else _DAYS_IN_MONTH m1) ->
  1 <= d2 <= (if (m2 =? 2) && b then 29 else _DAYS_IN_MONTH m2) ->
  m1 * 100 + d1 < m2 * 100 + d2 ->
  _DAYS_BEFORE_MONTH m1 + (if (2 <? m1) && b then 1 else 0) + d1
  < _DAYS_BEFORE_MONTH m2 + (if (2 <? m2) && b then 1 else 0) + d2.
Proof.
  intros Hm1 Hm2 Hd1 Hd2 H.
  pose proof (month_cases _ Hm1) as C1. pose proof (month_cases _ Hm2) as C2.
  destruct b;
    repeat (destruct C1 as [-> | C1]); subst;
    repeat (destruct C2 as [-> | C2]); subst;
    unfold _DAYS_IN_MONTH, _DAYS_BEFORE_MONTH in *;
    cbn [Z.eqb Z.ltb Z.compare Pos.eqb Pos.compare Pos.compare_cont andb] in *;
    lia.
Qed.

(** A later date has a greater ordinal. *)
Lemma toordinal_mono (dt1 dt2 : datetime) :
  valid_fields dt1 -> valid_fields dt2 ->
  year dt1 * 10000 + month dt1 * 100 + day dt1
  < year dt2 * 10000 + month dt2 * 100 + day dt2 ->
  toordinal dt1 < toordinal dt2.
Proof.
  intros (Hy1 & Hm1 & Hd1 & _) (Hy2 & Hm2 & Hd2 & _) H.
  unfold toordinal, _ymd2ord, _days_before_month. unfold _days_in_month in Hd1, Hd2.
  pose proof (day_of_year_range _ _ _ Hm1 Hd1) as (K1 & D1 & _).
  pose proof (day_of_year_range _ _ _ Hm2 Hd2) as (K2 & D2 & _).
  cbv zeta in K1, K2.
  destruct (Z.eq_dec (year dt1) (year dt2)) as [Ey | Ny].
  - rewrite Ey in *.
    pose proof (day_of_year_mono _ _ _ _ _ Hm1 Hm2 Hd1 Hd2 ltac:(lia)). lia.
  - assert (Hlt : year dt1 + 1 <= year dt2) by lia.
    pose proof (days_before_year_le _ _ Hlt) as Hle.
    rewrite days_before_year_succ in Hle. lia.
Qed.

(** A later date and time has more seconds from the epoch. *)
Lemma epoch_seconds_mono (dt1 dt2 : datetime) :
  valid_fields dt1 -> valid_fields dt2 ->
  year dt1 * 10000000000 + month dt1 * 100000000 + day dt1 * 1000000
  + hour dt1 * 10000 + minute dt1 * 100 + second dt1
  < year dt2 * 10000000000 + month dt2 * 100000000 + day dt2 * 1000000
    + hour dt2 * 10000 + minute dt2 * 100 + second dt2 ->
  epoch_seconds dt1 < epoch_seconds dt2.
Proof.
  intros V1 V2 H. unfold epoch_seconds.
  pose proof V1 as (Hy1 & Hm1 & Hd1 & HH1 & HM1 & HS1).
  pose proof V2 as (Hy2 & Hm2 & Hd2 & HH2 & HM2 & HS2).
  unfold _days_in_month in Hd1, Hd2.
  pose proof (day_of_year_range _ _ _ Hm1 Hd1) as (_ & D1 & _).
  pose proof (day_of_year_range _ _ _ Hm2 Hd2) as (_ & D2 & _).
  destruct (Z_lt_ge_dec (year dt1 * 10000 + month dt1 * 100 + day dt1)
                        (year dt2 * 10000 + month dt2 * 100 + day dt2)) as [Hlt | Hge].
  - pose proof (toordinal_mono dt1 dt2 V1 V2 Hlt). lia.
  - assert (year dt1 = year dt2 /\ month dt1 = month dt2 /\ day dt1 = day dt2)
      as (Ey & Em & Ed) by lia.
    unfold toordinal. rewrite Ey, Em, Ed. lia.
Qed.

(** The timestamp grows with the 14 digits, up to 14 digits 0-9. *)
Lemma unix_ms_mono (y1 y2 : string) (dt1 dt2 : datetime) :
  PyStr.length y1 = 14%nat -> all_chars is_digit y1 = true ->
  PyStr.length y2 = 14%nat -> all_chars ascii_digit y2 = true ->
  strptime y1 = inr dt1 -> strptime y2 = inr dt2 ->
  PyStr.compare y1 y2 = Lt -> unix_ms_of dt1 < unix_ms_of dt2.
Proof.
  intros L1 D1 L2 D2 S1 S2 H.
  apply strptime_inr in S1 as (E1 & V1 & U1); try assumption.
  apply strptime_inr in S2 as (E2 & V2 & U2);
    try assumption; [|now apply all_ascii_digits].
  pose proof (compare_digits y1 y2 ltac:(congruence) D1 D2 H) as Hlt.
  rewrite !int_digits_fields, <- E1, <- E2 in Hlt by assumption.
  rewrite !unix_ms_of_value by assumption.
  pose proof (epoch_seconds_mono dt1 dt2 V1 V2 Hlt). lia.
Qed.

End TimestampOrder.

(** X9.  The timestamps keep the order of the 14 digits, up to a name
    written with the digits 0-9: of two names that match with valid dates,
    the second with the digits 0-9, the one whose 14 digits come first as
    strings gets the smaller [unix_ms]. *)
Theorem X9_unix_ms_increasing (n1 n2 y1 y2 r1 r2 : string) (dt1 dt2 : datetime) :
  pat_match n1 = Some (y1, r1) -> pat_match n2 = Some (y2, r2) ->
  strptime y1 = inr dt1 -> strptime y2 = inr dt2 ->
  all_chars ascii_digit y2 = true ->
  PyStr.compare y1 y2 = Lt ->
  unix_ms_of dt1 < unix_ms_of dt2.
Proof.
  intros M1 M2 S1 S2 A2 H.
  apply pat_match_spec in M1 as (L1 & D1 & _).
  apply pat_match_spec in M2 as (L2 & _ & _).
  now apply (unix_ms_mono y1 y2).
Qed.

Lemma X9_unix_ms_increasing_witness :
  unix_ms_of (mk_datetime 1999 12 31 23 59 59 0)
  < unix_ms_of (mk_datetime 2000 1 1 0 0 0 0).
Proof.
  apply (X9_unix_ms_increasing "19991231235959_a.ts" "20000101000000_b.ts"
           "19991231235959" "20000101000000" "a" "b"); reflexivity.
Defined.

(** ** Destinations *)

Section Destinations.

Lemma NoDup_map_on {A B} (f : A -> B) (l : list A) :
  NoDup l -> (forall x y, In x l -> In y l -> f x = f y -> x = y) ->
  NoDup (map f l).
Proof.
  induction 1 as [|x l Hx Hl IH]; intros Hf; cbn [map]; constructor.
  - intros Hin. apply in_map_iff in Hin as (y & E & Hy).
    apply Hx. rewrite (Hf x y); auto using in_eq, in_cons.
  - apply IH. intros a b Ha Hb. apply Hf; now right.
Qed.

Lemma files_NoDup (entries : list string) : NoDup entries -> NoDup (files entries).
Proof.
  intros H. unfold files, iterdir.
  apply (Permutation_NoDup (sorted_perm _)). apply NoDup_filter.
  apply NoDup_map_on; [assumption|]. intros x y _ _. apply joinpath_inj.
Qed.

Lemma collect_NoDup (ps : list Path) es :
  NoDup ps -> collect ps = inr es -> NoDup es.
Proof.
  intros Hps Hc.
  assert (Hm : NoDup (map (fun x : rename_entry * sql_entry => fst (fst x)) es)).
  { replace (map (fun x : rename_entry * sql_entry => fst (fst x)) es)
      with (filter (fun p => match body p with inr (Some _) => true | _ => false end) ps)
      by (symmetry; apply (collect_filter _ _ Hc)).
    now apply NoDup_filter. }
  revert Hm. clear. induction es as [|x es IH]; cbn [map]; intros H; constructor;
    inversion H as [|? ? Hx Hes]; subst.
  - intros Hin. apply Hx.
    now apply (in_map (fun x : rename_entry * sql_entry => fst (fst x))).
  - now apply IH.
Qed.

Lemma new_base_inj (z1 z2 : Z) (r1 r2 : string) :
  new_base_of z1 r1 = new_base_of z2 r2 -> z1 = z2 /\ r1 = r2.
Proof.
  intros Eb.
  assert (Ez : z1 = z2).
  { pose proof (unix_ms_of_base_new_base z1 r1) as U1.
    rewrite Eb, unix_ms_of_base_new_base in U1. now injection U1. }
  split; [exact Ez|]. subst z2. unfold new_base_of in Eb.
  apply append_inv_head in Eb. now injection Eb.
Qed.

Lemma new_name_inj (b1 b2 : string) (d : Path) :
  joinpath d (new_name_of b1) = joinpath d (new_name_of b2) -> b1 = b2.
Proof.
  intros E. apply joinpath_inj in E. now apply (append_inv_tail _ _ ".ts").
Qed.

Lemma destination_key (x1 x2 : rename_entry * sql_entry)
      (y1 y2 r1 r2 : string) (z1 z2 : Z) :
  x1 = ((joinpath MIG_DIR (y1 ++ "_" ++ r1 ++ ".ts"),
         joinpath MIG_DIR (str z1 ++ "_" ++ r1 ++ ".ts")),
        (y1 ++ "_" ++ r1, str z1 ++ "_" ++ r1)) ->
  x2 = ((joinpath MIG_DIR (y2 ++ "_" ++ r2 ++ ".ts"),
         joinpath MIG_DIR (str z2 ++ "_" ++ r2 ++ ".ts")),
        (y2 ++ "_" ++ r2, str z2 ++ "_" ++ r2)) ->
  snd (fst x1) = snd (fst x2) \/ snd (snd x1) = snd (snd x2) ->
  z1 = z2 /\ r1 = r2.
Proof.
  intros -> -> E. cbn [fst snd] in E. apply new_base_inj. unfold new_base_of.
  destruct E as [E | E]; [|exact E].
  apply joinpath_inj in E. apply (append_inv_tail _ _ ".ts").
  rewrite !append_assoc. exact E.
Qed.

Lemma source_of_timestamp (y : string) (dt : datetime) :
  PyStr.length y = 14%nat -> all_chars ascii_digit y = true ->
  strptime y = inr dt -> ymdhms_of (utc_of_unix_ms (unix_ms_of dt)) = y.
Proof.
  intros L D S.
  apply strptime_inr in S as (E & V & U); try assumption; [|now apply all_ascii_digits].
  rewrite utc_of_unix_ms_of by assumption. rewrite E.
  now apply ymdhms_of_fields_of.
Qed.

(** Two entries with one destination have one source, when their names
    are written with the digits 0-9: the timestamp and the rest of the name
    can be read off the new name. *)
Lemma destination_inj (entries : list string) es (x1 x2 : rename_entry * sql_entry) :
  (forall n ymdhms rest,
     In n entries -> pat_match n = Some (ymdhms, rest) ->
     all_chars ascii_digit ymdhms = true) ->
  collect (files entries) = inr es -> In x1 es -> In x2 es ->
  snd (fst x1) = snd (fst x2) \/ snd (snd x1) = snd (snd x2) -> x1 = x2.
Proof.
  intros Ha Hc H1 H2 E.
  destruct (entry_shape entries es x1 Hc H1) as (y1 & r1 & dt1 & N1 & M1 & S1 & X1).
  destruct (entry_shape entries es x2 Hc H2) as (y2 & r2 & dt2 & N2 & M2 & S2 & X2).
  pose proof (Ha _ _ _ N1 M1) as D1. pose proof (Ha _ _ _ N2 M2) as D2.
  apply pat_match_spec in M1 as (L1 & _ & _).
  apply pat_match_spec in M2 as (L2 & _ & _).
  pose proof (source_of_timestamp y1 dt1 L1 D1 S1) as F1.
  pose proof (source_of_timestamp y2 dt2 L2 D2 S2) as F2.
  destruct (destination_key x1 x2 y1 y2 r1 r2 _ _ X1 X2 E) as [Ez Er].
  rewrite Ez, F2 in F1. rewrite X1, X2, Ez, Er, F1. reflexivity.
Qed.

End Destinations.

(** X10.  The plan of a directory (whose entries are distinct) in which
    the 14 digits of every name that matches are digits 0-9 never sends two
    files to one place: the new paths of the rename entries are distinct,
    and so are the new names of the SQL entries. *)
Theorem X10_destinations_distinct (entries : list string)
        (rn : list rename_entry) (sq : list sql_entry) :
  NoDup entries ->
  (forall n ymdhms rest,
     In n entries -> pat_match n = Some (ymdhms, rest) ->
     all_chars ascii_digit ymdhms = true) ->
  plan entries = inr (rn, sq) ->
  NoDup (map snd rn) /\ NoDup (map snd sq).
Proof.
  intros Hnd Ha Hplan. rewrite plan_collect in Hplan.
  destruct (collect (files entries)) as [e|es] eqn:Hc; [discriminate|].
  injection Hplan as <- <-.
  pose proof (collect_NoDup _ _ (files_NoDup entries Hnd) Hc) as Hes.
  rewrite !map_map. split; apply NoDup_map_on; try assumption.
  - intros x y Hx Hy E. apply (destination_inj entries es x y Ha Hc Hx Hy). now left.
  - intros x y Hx Hy E. apply (destination_inj entries es x y Ha Hc Hx Hy). now right.
Qed.

Lemma X10_destinations_distinct_witness :
  NoDup (map snd [(joinpath MIG_DIR "20230101000000_a.ts",
                   joinpath MIG_DIR "1672531200000_a.ts");
                  (joinpath MIG_DIR "20230101000001_a.ts",
                   joinpath MIG_DIR "1672531201000_a.ts")])
  /\ NoDup (map snd [("20230101000000_a", "1672531200000_a");
                     ("20230101000001_a", "1672531201000_a")]).
Proof.
  apply (X10_destinations_distinct ["20230101000001_a.ts"; "20230101000000_a.ts"]).
  - repeat constructor; simpl; intuition discriminate.
  - intros n ymdhms rest Hin Hp. simpl in Hin.
    destruct Hin as [<- | [<- | []]]; vm_compute in Hp; injection Hp as <- <-;
      reflexivity.
  - vm_compute. reflexivity.
Defined.

(** ** The size and the sign of the timestamp *)

Section TimestampRange.

Lemma toordinal_bounds (dt : datetime) :
  valid_fields dt ->
  _days_before_year (year dt) + 1 <= toordinal dt
  /\ toordinal dt <= _days_before_year (year dt + 1).
Proof.
  intros (Hy & Hm & Hd & _). unfold toordinal, _ymd2ord, _days_before_month.
  unfold _days_in_month in Hd.
  pose proof (day_of_year_range _ _ _ Hm Hd) as (K & _ & _). cbv zeta in K.
  rewrite days_before_year_succ.
  destruct (_is_leap (year dt)), (2 <? month dt); cbn [andb] in *; lia.
Qed.

Lemma new_base_negative (z : Z) (rest : string) :
  z < 0 -> exists t, new_base_of z rest = String "-" t.
Proof.
  intros Hz. unfold new_base_of, str.
  replace (z <? 0) with true by (symmetry; apply Z.ltb_lt; lia).
  cbn [append]. eauto.
Qed.

End TimestampRange.

(** X11.  The timestamp of a matched file with a valid date lies between
    those of 0001-01-01T00:00:00 and 9999-12-31T23:59:59, so it has at most
    15 digits and is well inside the integers that a float holds exactly. *)
Theorem X11_unix_ms_range (n ymdhms rest : string) (dt : datetime) :
  pat_match n = Some (ymdhms, rest) ->
  strptime ymdhms = inr dt ->
  -62135596800000 <= unix_ms_of dt <= 253402300799000.
Proof.
  intros Hm Hs. apply pat_match_spec in Hm as (Hl & Hd & _).
  apply strptime_inr in Hs as (_ & Hv & Hus); try assumption.
  rewrite unix_ms_of_value by assumption. unfold epoch_seconds.
  pose proof (toordinal_bounds dt Hv) as [Lo Hi].
  pose proof Hv as (Hy & _ & _ & HH & HM & HS).
  pose proof (days_before_year_le 1 (year dt) ltac:(lia)) as L1.
  pose proof (days_before_year_le (year dt + 1) 10000 ltac:(lia)) as L2.
  change (_days_before_year 1) with 0 in L1.
  change (_days_before_year 10000) with 3652059 in L2.
  lia.
Qed.

Lemma X11_unix_ms_range_witness :
  (-62135596800000 <= unix_ms_of (mk_datetime 1 1 1 0 0 0 0) <= 253402300799000)
  /\ unix_ms_of (mk_datetime 1 1 1 0 0 0 0) = -62135596800000
  /\ (-62135596800000 <= unix_ms_of (mk_datetime 9999 12 31 23 59 59 0)
      <= 253402300799000)
  /\ unix_ms_of (mk_datetime 9999 12 31 23 59 59 0) = 253402300799000.
Proof.
  split; [|split; [reflexivity|split; [|reflexivity]]].
  - apply (X11_unix_ms_range "00010101000000_a.ts" "00010101000000" "a"); reflexivity.
  - apply (X11_unix_ms_range "99991231235959_a.ts" "99991231235959" "a"); reflexivity.
Defined.

(** X12.  The timestamp is negative exactly for a date before 1970, and
    then the new base name begins with a minus sign. *)
Theorem X12_before_1970_negative (n ymdhms rest : string) (dt : datetime) :
  pat_match n = Some (ymdhms, rest) ->
  strptime ymdhms = inr dt ->
  (unix_ms_of dt < 0 <-> year dt < 1970)
  /\ (year dt < 1970 ->
      exists t, new_base_of (unix_ms_of dt) rest = String "-" t).
Proof.
  intros Hm Hs. apply pat_match_spec in Hm as (Hl & Hd & _).
  apply strptime_inr in Hs as (_ & Hv & Hus); try assumption.
  assert (Hiff : unix_ms_of dt < 0 <-> year dt < 1970).
  { rewrite unix_ms_of_value by assumption. unfold epoch_seconds.
    pose proof (toordinal_bounds dt Hv) as [Lo Hi].
    pose proof Hv as (Hy & _ & _ & HH & HM & HS). split; intros H.
    - destruct (Z_lt_ge_dec (year dt) 1970) as [?|Hge]; [assumption|].
      pose proof (days_before_year_le 1970 (year dt) ltac:(lia)) as L.
      change (_days_before_year 1970) with 719162 in L. lia.
    - pose proof (days_before_year_le (year dt + 1) 1970 ltac:(lia)) as L.
      change (_days_before_year 1970) with 719162 in L. lia. }
  split; [exact Hiff|]. intros Hy. apply Hiff in Hy.
  exact (new_base_negative _ rest Hy).
Qed.

Lemma X12_before_1970_negative_witness :
  (unix_ms_of (mk_datetime 1969 12 31 23 59 59 0) < 0
   <-> year (mk_datetime 1969 12 31 23 59 59 0) < 1970)
  /\ new_base_of (unix_ms_of (mk_datetime 1969 12 31 23 59 59 0)) "old" = "-1000_old".
Proof.
  split; [|reflexivity].
  apply (X12_before_1970_negative "19691231235959_old.ts" "19691231235959" "old");
    reflexivity.
Defined.

(** ** Names after the renaming *)

Section AfterRenaming.

Lemma compare_of_lt (s1 s2 : string) :
  PyStr.length s1 = PyStr.length s2 ->
  all_chars ascii_digit s1 = true -> all_chars ascii_digit s2 = true ->
  int_digits s1 < int_digits s2 -> PyStr.compare s1 s2 = Lt.
Proof.
  intros Hl H1 H2 H. destruct (PyStr.compare s1 s2) eqn:E; [| reflexivity |].
  - apply string_compare_eq_iff in E. subst. lia.
  - assert (E' : PyStr.compare s2 s1 = Lt)
      by (rewrite string_compare_antisym, E; reflexivity).
    pose proof (compare_digits s2 s1 (eq_sym Hl) (all_ascii_digits s2 H2) H1 E'). lia.
Qed.

Lemma compare_append_lt (d1 d2 x y : string) :
  PyStr.length d1 = PyStr.length d2 ->
  PyStr.compare d1 d2 = Lt -> PyStr.compare (d1 ++ x) (d2 ++ y) = Lt.
Proof.
  revert d2. induction d1 as [|a d1 IH]; intros [|b d2] Hl H; try discriminate.
  cbn [append PyStr.compare] in *. destruct (a ?= b); try assumption.
  injection Hl as Hl. now apply IH.
Qed.

(** A timestamp of 13 digits is written with 13 digits. *)
Lemma str_13_digits (z : Z) :
  10 ^ 12 <= z < 10 ^ 13 ->
  PyStr.length (str z) = 13%nat /\ all_chars ascii_digit (str z) = true
  /\ int_digits (str z) = z.
Proof.
  intros Hz. unfold str. replace (z <? 0) with false by (symmetry; apply Z.ltb_ge; lia).
  pose proof (str_nat_size z ltac:(lia)) as [Lo Hi].
  split; [|split; [apply str_nat_ascii; lia|apply int_str_nat; lia]].
  set (k := PyStr.length (str_nat z)) in *.
  destruct (Nat.lt_trichotomy k 13) as [Hlt | [E | Hgt]]; [exfalso | exact E | exfalso].
  - assert (10 ^ Z.of_nat k <= 10 ^ 12) by (apply Z.pow_le_mono_r; lia). lia.
  - assert (10 ^ 13 <= 10 ^ (Z.of_nat k - 1)) by (apply Z.pow_le_mono_r; lia). lia.
Qed.

Lemma new_base_order (z1 z2 : Z) (r1 r2 : string) :
  10 ^ 12 <= z1 -> z1 < z2 -> z2 < 10 ^ 13 ->
  PyStr.compare (new_base_of z1 r1) (new_base_of z2 r2) = Lt
  /\ PyStr.compare (new_name_of (new_base_of z1 r1))
                    (new_name_of (new_base_of z2 r2)) = Lt.
Proof.
  intros H1 H12 H2.
  destruct (str_13_digits z1 ltac:(lia)) as (L1 & D1 & V1).
  destruct (str_13_digits z2 ltac:(lia)) as (L2 & D2 & V2).
  assert (C : PyStr.compare (str z1) (str z2) = Lt).
  { apply compare_of_lt; try assumption; [congruence|]. now rewrite V1, V2. }
  unfold new_name_of, new_base_of. rewrite !append_assoc.
  split; apply compare_append_lt; try assumption; congruence.
Qed.

(** The renamed name of a file dated before 2286-11-20T17:46:40 does not
    match the pattern. *)
Lemma early_new_name_no_match (ymdhms rest : string) (dt : datetime) :
  PyStr.length ymdhms = 14%nat -> all_chars is_digit ymdhms = true ->
  strptime ymdhms = inr dt ->
  PyStr.compare ymdhms "22861120174640" = Lt ->
  pat_match (new_name_of (new_base_of (unix_ms_of dt) rest)) = None.
Proof.
  intros Hl Hd Hs Hc. apply pat_match_new_name. left.
  assert (S0 : strptime "22861120174640" = inr (mk_datetime 2286 11 20 17 46 40 0))
    by reflexivity.
  pose proof (unix_ms_mono ymdhms "22861120174640" dt _ Hl Hd eq_refl eq_refl Hs S0 Hc)
    as H.
  replace (unix_ms_of (mk_datetime 2286 11 20 17 46 40 0)) with (10 ^ 13) in H
    by (vm_compute; reflexivity).
  exact H.
Qed.

End AfterRenaming.

(** X13.  Idempotence in terms of dates: when the run ends well and every
    entry whose name matches is dated before 2286-11-20T17:46:40 UTC, the
    run over the directory with the renamed files prints the two headers
    and no entry. *)
Theorem X13_second_run_empty_before_2286 (entries : list string)
        (rn : list rename_entry) (sq : list sql_entry) :
  plan entries = inr (rn, sq) ->
  (forall n ymdhms rest,
     In n entries -> pat_match n = Some (ymdhms, rest) ->
     PyStr.compare ymdhms "22861120174640" = Lt) ->
  run (map renamed_name entries) = (inr tt, [mv_header; sql_header]).
Proof.
  intros Hplan Hearly. rewrite run_plan, plan_collect.
  rewrite collect_no_match; [reflexivity|].
  rewrite Forall_forall. intros p Hp.
  apply in_files in Hp as (n2 & Hn2 & -> & Hs2).
  apply in_map_iff in Hn2 as (n & <- & Hn).
  rewrite name_joinpath. unfold renamed_name in *.
  destruct (string_eqb_spec (suffix (joinpath MIG_DIR n)) ".ts") as [Hs | Hs];
    [|contradiction].
  destruct (pat_match n) as [[y r]|] eqn:Hm; [|exact Hm].
  pose proof (pat_match_spec _ _ _ Hm) as (Hl & Hd & _).
  destruct (strptime y) as [e|dt] eqn:Hy.
  - rewrite plan_collect in Hplan.
    destruct (collect_inl (files entries) (joinpath MIG_DIR n) e) as [e' He'].
    + apply in_files. eauto.
    + unfold body. now rewrite name_joinpath, Hm, Hy.
    + rewrite He' in Hplan. discriminate.
  - apply (early_new_name_no_match y r dt Hl Hd Hy). eapply Hearly; eassumption.
Qed.

Lemma X13_second_run_empty_before_2286_witness :
  run (map renamed_name ["22861120174639_last.ts"; "notes.ts"; "19691231235959_old.ts"])
  = (inr tt, [mv_header; sql_header]).
Proof.
  apply (X13_second_run_empty_before_2286
           ["22861120174639_last.ts"; "notes.ts"; "19691231235959_old.ts"]
           [(joinpath MIG_DIR "19691231235959_old.ts", joinpath MIG_DIR "-1000_old.ts");
            (joinpath MIG_DIR "22861120174639_last.ts",
             joinpath MIG_DIR "9999999999000_last.ts")]
           [("19691231235959_old", "-1000_old");
            ("22861120174639_last", "9999999999000_last")]).
  - vm_compute. reflexivity.
  - intros n ymdhms rest Hin Hp. simpl in Hin.
    destruct Hin as [<- | [<- | [<- | []]]]; vm_compute in Hp; try discriminate;
      injection Hp as <- <-; reflexivity.
Defined.

(** X14.  From 2001-09-09T01:46:40 up to 2286-11-20T17:46:40 UTC the
    timestamp has 13 digits, and there the renaming keeps the order of the
    names written with the digits 0-9: of two matched files in that range
    whose 14 digits are digits 0-9, the one that sorts first by its 14
    digits also sorts first by its new base name and by its new file
    name. *)
Theorem X14_name_order_kept (n1 n2 y1 y2 r1 r2 : string) (dt1 dt2 : datetime) :
  pat_match n1 = Some (y1, r1) -> pat_match n2 = Some (y2, r2) ->
  strptime y1 = inr dt1 -> strptime y2 = inr dt2 ->
  all_chars ascii_digit y1 = true -> all_chars ascii_digit y2 = true ->
  PyStr.leb "20010909014640" y1 = true ->
  PyStr.compare y1 y2 = Lt ->
  PyStr.compare y2 "22861120174640" = Lt ->
  PyStr.compare (new_base_of (unix_ms_of dt1) r1) (new_base_of (unix_ms_of dt2) r2) = Lt
  /\ PyStr.compare (new_name_of (new_base_of (unix_ms_of dt1) r1))
                    (new_name_of (new_base_of (unix_ms_of dt2) r2)) = Lt.
Proof.
  intros M1 M2 S1 S2 A1 A2 Hlo H12 Hhi.
  apply pat_match_spec in M1 as (L1 & D1 & _).
  apply pat_match_spec in M2 as (L2 & D2 & _).
  assert (Slo : strptime "20010909014640" = inr (mk_datetime 2001 9 9 1 46 40 0))
    by reflexivity.
  assert (Shi : strptime "22861120174640" = inr (mk_datetime 2286 11 20 17 46 40 0))
    by reflexivity.
  pose proof (unix_ms_mono y1 y2 dt1 dt2 L1 D1 L2 A2 S1 S2 H12) as B12.
  pose proof (unix_ms_mono y2 "22861120174640" dt2 _ L2 D2 eq_refl eq_refl S2 Shi Hhi)
    as Bhi.
  replace (unix_ms_of (mk_datetime 2286 11 20 17 46 40 0)) with (10 ^ 13) in Bhi
    by (vm_compute; reflexivity).
  assert (Blo : 10 ^ 12 <= unix_ms_of dt1).
  { unfold PyStr.leb in Hlo.
    destruct (PyStr.compare "20010909014640" y1) eqn:C; try discriminate.
    - apply string_compare_eq_iff in C. subst y1. rewrite Slo in S1.
      injection S1 as <-. vm_compute. discriminate.
    - pose proof (unix_ms_mono "20010909014640" y1 _ dt1 eq_refl eq_refl L1 A1 Slo S1 C)
        as B.
      replace (unix_ms_of (mk_datetime 2001 9 9 1 46 40 0)) with (10 ^ 12) in B
        by (vm_compute; reflexivity).
      lia. }
  now apply new_base_order.
Qed.

Lemma X14_name_order_kept_witness :
  PyStr.compare (new_base_of (unix_ms_of (mk_datetime 2023 1 1 0 0 0 0)) "b")
                 (new_base_of (unix_ms_of (mk_datetime 2023 6 15 14 30 0 0)) "a") = Lt
  /\ PyStr.compare
       (new_name_of (new_base_of (unix_ms_of (mk_datetime 2023 1 1 0 0 0 0)) "b"))
       (new_name_of (new_base_of (unix_ms_of (mk_datetime 2023 6 15 14 30 0 0)) "a"))
     = Lt.
Proof.
  apply (X14_name_order_kept "20230101000000_b.ts" "20230615143000_a.ts"
           "20230101000000" "20230615143000"); reflexivity.
Defined.

(** ** What the pattern accepts *)

Section PatternAccepts.

Lemma take_digits_append (g r : string) :
  all_chars is_digit g = true ->
  take_digits (PyStr.length g) (g ++ r) = Some (g, r).
Proof.
  induction g as [|c g IH]; cbn [all_chars PyStr.length append take_digits];
    [reflexivity|].
  intros H. apply andb_prop in H as [Hc Hg]. now rewrite Hc, IH.
Qed.

Lemma dot_plus_ts_no_newline (s g : string) :
  dot_plus_ts s = Some g -> all_chars (fun c => negb (c =? newline)) g = true.
Proof.
  revert g. induction s as [|c s IH]; intros g H; cbn [dot_plus_ts] in H;
    [discriminate|].
  destruct (c =? newline) eqn:Ec; [discriminate|].
  destruct (dot_plus_ts s) as [g'|].
  - injection H as <-. cbn [all_chars]. rewrite Ec. now apply IH.
  - destruct (dot_ts_end s); [|discriminate]. injection H as <-.
    cbn [all_chars]. now rewrite Ec.
Qed.

Lemma dot_plus_ts_some (rest : string) :
  rest <> "" -> all_chars (fun c => negb (c =? newline)) rest = true ->
  exists g, dot_plus_ts (rest ++ ".ts") = Some g.
Proof.
  induction rest as [|c rest IH]; intros Hne Hnl; [contradiction|].
  cbn [all_chars] in Hnl. apply andb_prop in Hnl as [Hc Hr].
  apply negb_true_iff in Hc.
  cbn [append dot_plus_ts]. rewrite Hc.
  destruct rest as [|d rest].
  - cbn. eauto.
  - destruct IH as [g ->]; [discriminate|assumption|]. eauto.
Qed.

(** The group of [(.+)\.ts$] on a text that ends in [.ts] is all that stands
    in front of that [.ts], dots and underscores included. *)
Lemma dot_plus_ts_append (rest : string) :
  rest <> "" -> all_chars (fun c => negb (c =? newline)) rest = true ->
  dot_plus_ts (rest ++ ".ts") = Some rest.
Proof.
  intros Hne Hnl. destruct (dot_plus_ts_some rest Hne Hnl) as [g Hg].
  rewrite Hg. f_equal.
  apply dot_plus_ts_spec in Hg as [_ [E | E]].
  - symmetry. now apply (append_inv_tail _ _ ".ts").
  - exfalso.
    assert (L : rest ++ ".ts" = (rest ++ ".t") ++ String "s" "")
      by (rewrite append_assoc; reflexivity).
    assert (R : g ++ ".ts" ++ nl = (g ++ ".ts") ++ String newline "")
      by (rewrite append_assoc; reflexivity).
    rewrite L, R in E. apply snoc_inj in E as [_ E]. discriminate.
Qed.

Lemma pat_match_assembled (ymdhms rest : string) :
  PyStr.length ymdhms = 14%nat -> all_chars is_digit ymdhms = true ->
  rest <> "" -> all_chars (fun c => negb (c =? newline)) rest = true ->
  pat_match (ymdhms ++ "_" ++ rest ++ ".ts") = Some (ymdhms, rest).
Proof.
  intros Hl Hd Hne Hnl. unfold pat_match. rewrite <- Hl.
  rewrite take_digits_append by assumption. cbn [append].
  rewrite Z.eqb_refl.
  now rewrite dot_plus_ts_append.
Qed.

Lemma pat_match_rest (s ymdhms rest : string) :
  pat_match s = Some (ymdhms, rest) -> all_chars (fun c => negb (c =? newline)) rest = true.
Proof.
  unfold pat_match. destruct (take_digits 14 s) as [[g r]|]; [|discriminate].
  destruct r as [|c r]; [discriminate|].
  destruct (c =? "_"%char); [|discriminate].
  destruct (dot_plus_ts r) as [g2|] eqn:E; [|discriminate].
  intros H. injection H as <- <-. now apply (dot_plus_ts_no_newline r).
Qed.

Lemma str_digits_count (z : Z) (k : nat) :
  10 ^ (Z.of_nat k - 1) <= z < 10 ^ Z.of_nat k -> 0 < z ->
  PyStr.length (str z) = k /\ all_chars is_digit (str z) = true.
Proof.
  intros Hz Hpos. unfold str.
  replace (z <? 0) with false by (symmetry; apply Z.ltb_ge; lia).
  pose proof (str_nat_size z Hpos) as [Lo Hi].
  split; [|apply str_nat_digits; lia].
  set (j := PyStr.length (str_nat z)) in *.
  destruct (Nat.lt_trichotomy j k) as [Hlt | [E | Hgt]]; [exfalso | exact E | exfalso].
  - assert (10 ^ Z.of_nat j <= 10 ^ (Z.of_nat k - 1)) by (apply Z.pow_le_mono_r; lia).
    lia.
  - assert (10 ^ Z.of_nat k <= 10 ^ (Z.of_nat j - 1)) by (apply Z.pow_le_mono_r; lia).
    lia.
Qed.

Lemma new_name_matches (z : Z) (rest : string) :
  10 ^ 13 <= z < 10 ^ 14 -> rest <> "" -> all_chars (fun c => negb (c =? newline)) rest = true ->
  pat_match (new_name_of (new_base_of z rest)) = Some (str z, rest).
Proof.
  intros Hz Hne Hnl.
  destruct (str_digits_count z 14 Hz ltac:(lia)) as [Hl Hd].
  unfold new_name_of, new_base_of. rewrite !append_assoc.
  now apply pat_match_assembled.
Qed.

End PatternAccepts.

(** X15.  The pattern is the inverse of putting a name together: 14 digits,
    an underscore, a remainder that is not empty and holds no newline (it
    may hold dots, underscores, even [.ts]) and [.ts] make a name that
    matches, with the 14 digits and the remainder as its groups; and the
    remainder of a name that matches is never empty and never holds a
    newline. *)
Theorem X15_pattern_inverts_assembly (ymdhms rest : string) :
  PyStr.length ymdhms = 14%nat ->
  all_chars is_digit ymdhms = true ->
  (rest <> "" /\ all_chars (fun c => negb (c =? newline)) rest = true
   <-> pat_match (ymdhms ++ "_" ++ rest ++ ".ts") = Some (ymdhms, rest)).
Proof.
  intros Hl Hd. split.
  - intros [Hne Hnl]. now apply pat_match_assembled.
  - intros H. split.
    + now apply pat_match_spec in H as (_ & _ & Hne & _).
    + now apply pat_match_rest in H.
Qed.

Lemma X15_pattern_inverts_assembly_witness :
  ("add.users_v2.ts" <> ""
   /\ all_chars (fun c => negb (c =? newline)) "add.users_v2.ts" = true)
  <-> pat_match ("20230615143000" ++ "_" ++ "add.users_v2.ts" ++ ".ts")
      = Some ("20230615143000", "add.users_v2.ts").
Proof.
  apply (X15_pattern_inverts_assembly "20230615143000" "add.users_v2.ts");
    reflexivity.
Defined.

(** X16.  The new name of a matched file matches the pattern again exactly
    when its timestamp has 14 digits, that is, for the dates from
    2286-11-20T17:46:40 to 5138-11-16T09:46:39 UTC. *)
Theorem X16_new_name_matches_iff_14_digits (n ymdhms rest : string) (dt : datetime) :
  pat_match n = Some (ymdhms, rest) ->
  strptime ymdhms = inr dt ->
  (pat_match (new_name_of (new_base_of (unix_ms_of dt) rest))
   = Some (str (unix_ms_of dt), rest)
   <-> 10 ^ 13 <= unix_ms_of dt < 10 ^ 14)
  /\ (~ (10 ^ 13 <= unix_ms_of dt < 10 ^ 14) ->
      pat_match (new_name_of (new_base_of (unix_ms_of dt) rest)) = None).
Proof.
  intros Hm Hs.
  pose proof (pat_match_spec _ _ _ Hm) as (_ & _ & Hne & _).
  pose proof (pat_match_rest _ _ _ Hm) as Hnl.
  assert (Hnone : ~ (10 ^ 13 <= unix_ms_of dt < 10 ^ 14) ->
                  pat_match (new_name_of (new_base_of (unix_ms_of dt) rest)) = None).
  { intros H. apply pat_match_new_name. lia. }
  split; [|exact Hnone]. split.
  - intros H.
    destruct (Z_lt_ge_dec (unix_ms_of dt) (10 ^ 13)) as [Hlt | Hge];
      [rewrite Hnone in H by lia; discriminate|].
    destruct (Z_lt_ge_dec (unix_ms_of dt) (10 ^ 14)) as [Hlt | Hge'];
      [lia|rewrite Hnone in H by lia; discriminate].
  - intros H. now apply new_name_matches.
Qed.

Lemma X16_new_name_matches_iff_14_digits_witness :
  pat_match (new_name_of (new_base_of
               (unix_ms_of (mk_datetime 2286 11 20 17 46 40 0)) "x"))
  = Some ("10000000000000", "x")
  /\ pat_match (new_name_of (new_base_of
                  (unix_ms_of (mk_datetime 2286 11 20 17 46 39 0)) "x")) = None.
Proof.
  split.
  - apply (proj1 (X16_new_name_matches_iff_14_digits "22861120174640_x.ts"
                    "22861120174640" "x" _ eq_refl eq_refl)).
    vm_compute. split; [discriminate|reflexivity].
  - apply (proj2 (X16_new_name_matches_iff_14_digits "22861120174639_x.ts"
                    "22861120174639" "x" _ eq_refl eq_refl)).
    vm_compute. intros [H _]. now apply H.
Defined.
